(** * Activity analysis engine of coros-analyzer

    A shallow embedding of the trace parser ([parseTCX]) and of the
    physiology functions ([calculateGAP], [calculateDecoupling],
    [calculateZones], [getZoneDistribution], [calculateTrainingEffect]),
    followed by the properties of the specification that concern them.

    Numbers.  The program computes with JavaScript numbers.  They are
    modelled by [num]: an exact rational, one of the two infinities, or
    NaN.  Division by zero, the arithmetic of the infinities and the
    comparisons with NaN follow IEEE 754; what is left out is the rounding
    of finite results (finite arithmetic is exact), overflow and underflow,
    and the sign of zero. *)

From Stdlib Require Import QArith Qround Qabs Qminmax ZArith List Bool Lia Lqa
  String.
Import ListNotations.

Local Open Scope Q_scope.

(** ** JavaScript numbers *)

Module JS.

Inductive num : Type :=
| Fin (q : Q)
| PInf
| NInf
| NaN.

Definition isNaN (x : num) : bool :=
  match x with NaN => true | _ => false end.

Definition finite (x : num) : Prop :=
  match x with Fin _ => True | _ => False end.

(** Sign of a number: 1, 0 or -1 (0 for NaN, which every caller treats
    apart). *)
Definition sign (x : num) : Z :=
  match x with
  | Fin q => Z.sgn (Qnum q)
  | PInf => 1%Z
  | NInf => (-1)%Z
  | NaN => 0%Z
  end.

Definition inf_of_sign (s : Z) : num :=
  match s with
  | Zpos _ => PInf
  | Zneg _ => NInf
  | Z0 => NaN
  end.

Definition neg (x : num) : num :=
  match x with
  | Fin q => Fin (- q)
  | PInf => NInf
  | NInf => PInf
  | NaN => NaN
  end.

Definition add (x y : num) : num :=
  match x, y with
  | Fin a, Fin b => Fin (a + b)
  | NaN, _ => NaN
  | _, NaN => NaN
  | PInf, NInf => NaN
  | NInf, PInf => NaN
  | PInf, _ => PInf
  | _, PInf => PInf
  | NInf, _ => NInf
  | _, NInf => NInf
  end.

Definition sub (x y : num) : num := add x (neg y).

Definition mul (x y : num) : num :=
  match x, y with
  | Fin a, Fin b => Fin (a * b)
  | NaN, _ => NaN
  | _, NaN => NaN
  | _, _ => inf_of_sign (sign x * sign y)
  end.

Definition div (x y : num) : num :=
  match x, y with
  | NaN, _ => NaN
  | _, NaN => NaN
  | Fin a, Fin b =>
      if Qeq_bool b 0 then inf_of_sign (sign x) else Fin (a / b)
  | Fin _, _ => Fin 0
  | _, Fin b =>
      if Qeq_bool b 0 then x else inf_of_sign (sign x * sign y)
  | _, _ => NaN
  end.

(** Comparisons: false as soon as one side is NaN. *)
Definition Qltb (a b : Q) : bool :=
  match a ?= b with Lt => true | _ => false end.

Definition lt (x y : num) : bool :=
  match x, y with
  | Fin a, Fin b => Qltb a b
  | NaN, _ => false
  | _, NaN => false
  | NInf, NInf => false
  | NInf, _ => true
  | _, PInf => match x with PInf => false | _ => true end
  | _, _ => false
  end.

Definition le (x y : num) : bool :=
  match x, y with
  | Fin a, Fin b => Qle_bool a b
  | NaN, _ => false
  | _, NaN => false
  | NInf, _ => true
  | _, PInf => true
  | _, _ => false
  end.

Definition gt (x y : num) : bool := lt y x.
Definition ge (x y : num) : bool := le y x.

(** Strict equality [===] on numbers. *)
Definition eq (x y : num) : bool :=
  match x, y with
  | Fin a, Fin b => Qeq_bool a b
  | PInf, PInf => true
  | NInf, NInf => true
  | _, _ => false
  end.

(** Truthiness of a number: everything but 0 and NaN. *)
Definition truthy (x : num) : bool :=
  match x with
  | Fin q => negb (Qeq_bool q 0)
  | NaN => false
  | _ => true
  end.

(** [Math.round]: the nearest integer, ties towards +infinity. *)
Definition round (x : num) : num :=
  match x with
  | Fin q => Fin (inject_Z (Qfloor (q + (1 # 2))))
  | _ => x
  end.

(** [Math.abs], [Math.min] and [Math.max] on two arguments. *)
Definition abs (x : num) : num :=
  match x with
  | Fin q => Fin (Qabs q)
  | NInf => PInf
  | _ => x
  end.

Definition min (x y : num) : num :=
  if isNaN x || isNaN y then NaN else if le x y then x else y.

Definition max (x y : num) : num :=
  if isNaN x || isNaN y then NaN else if le x y then y else x.

(** An optional property read: [undefined] is [None]. *)
Definition truthy_opt (x : option num) : bool :=
  match x with Some v => truthy v | None => false end.

(** [x || 0] on an optional number. *)
Definition or0 (x : option num) : num :=
  match x with
  | Some v => if truthy v then v else Fin 0
  | None => Fin 0
  end.

(** The value of an optional number inside arithmetic, where the program
    has already tested it to be truthy. *)
Definition val (x : option num) : num :=
  match x with Some v => v | None => NaN end.

(** Equality of numbers up to the representation of rationals. *)
Definition same (x y : num) : Prop :=
  match x, y with
  | Fin a, Fin b => a == b
  | PInf, PInf => True
  | NInf, NInf => True
  | NaN, NaN => True
  | _, _ => False
  end.

End JS.

Import JS.

Declare Scope js_scope.
Delimit Scope js_scope with js.
Bind Scope js_scope with num.
Infix "+" := add : js_scope.
Infix "-" := sub : js_scope.
Infix "*" := mul : js_scope.
Infix "/" := div : js_scope.
Infix "<?" := lt : js_scope.
Infix "<=?" := le : js_scope.
Infix ">?" := gt : js_scope.
Infix ">=?" := ge : js_scope.
Infix "===" := JS.eq (at level 70, no associativity) : js_scope.
Infix "~=" := same (at level 70, no associativity) : js_scope.

(** A rational literal as a number. *)
Definition lit (q : Q) : num := Fin q.
Coercion lit : Q >-> num.

(** ** Types (types.ts) *)

Module Types.

Inductive HRZoneMethod : Type := MAX_HR | KARVONEN.

(** The fields of [UserSettings] that the engine reads. *)
Record UserSettings : Type := {
  maxHR : num;
  restingHR : num;
  method : HRZoneMethod
}.

(** A track point.  [time] is the value of [time.getTime()], in
    milliseconds (NaN for an invalid date); an absent optional field is
    [None].  The field [speed] is never read or written and is left out. *)
Record TrackPoint : Type := {
  time : num;
  lat : option num;
  lng : option num;
  altitude : option num;
  distance : option num;
  hr : option num
}.

Record Lap : Type := {
  lap_id : num;
  lap_distance : num;
  lap_time : num;
  lap_avgPace : num;
  lap_avgHR : num
}.

(** The summary of a run; the optional [gap] and [decoupling] are set by
    the caller after parsing. *)
Module Summary.
Record t : Type := {
  totalDistance : num;
  elapsedTime : num;
  movingTime : num;
  avgHR : num;
  maxHR : num;
  totalAscent : num;
  totalDescent : num;
  avgPace : num;
  maxPace : num;
  calories : num;
  fitnessScore : num;
  intensityFactor : num;
  variabilityIndex : num;
  aerobicEfficiency : num;
  movementRatio : num;
  vam : num;
  trainingEffect : num
}.
End Summary.

(** A run.  Its [id] and [name] are strings made from the start time and
    the file name; they play no part in the computations and are left
    out. *)
Record RunData : Type := {
  startTime : num;
  points : list TrackPoint;
  laps : list Lap;
  summary : Summary.t
}.

(** An entry of the zone distribution; [zmin] and [zmax] are its fields
    [min] and [max]. *)
Record HRZoneDistribution : Type := {
  zone : nat;
  label : string;
  zmin : num;
  zmax : num;
  seconds : num;
  percentage : num
}.

(** An entry of the result of [calculateZones], with fields [label],
    [min] and [max]. *)
Record Zone : Type := {
  z_label : string;
  z_min : num;
  z_max : num
}.

End Types.

Export Types.

(** A loop [for (i = 1; i < pts.length; i++)] over the consecutive pairs
    [pts[i-1]], [pts[i]], threading a state. *)
Fixpoint pairLoop {S : Type} (body : S -> TrackPoint -> TrackPoint -> S)
    (prev : TrackPoint) (rest : list TrackPoint) (s : S) : S :=
  match rest with
  | [] => s
  | p :: tl => pairLoop body p tl (body s prev p)
  end.

Definition forPairs {S : Type} (body : S -> TrackPoint -> TrackPoint -> S)
    (pts : list TrackPoint) (s : S) : S :=
  match pts with
  | [] => s
  | p0 :: tl => pairLoop body p0 tl s
  end.

(** A counter ([count], [hrCount]) read as a number. *)
Definition ofNat (n : nat) : num := Fin (inject_Z (Z.of_nat n)).

(** ** physiology.ts *)

Module Physiology.
Local Open Scope js_scope.

(** [calculateGAP]: grade adjusted pace between two points. *)
Definition gapDist (p1 p2 : TrackPoint) : num :=
  or0 (distance p2) - or0 (distance p1).
Definition gapElev (p1 p2 : TrackPoint) : num :=
  or0 (altitude p2) - or0 (altitude p1).
Definition gapTime (p1 p2 : TrackPoint) : num :=
  (time p2 - time p1) / 1000.

Definition calculateGAP (p1 p2 : TrackPoint) : num :=
  let dist := gapDist p1 p2 in
  let elev := gapElev p1 p2 in
  let time := gapTime p1 p2 in
  if (dist <=? 0) || (time <=? 0) then 0
  else
    let grade := elev / dist in
    let adjFactor := 1 + grade * 3 + grade * grade * 10 in
    let actualPace := time / (dist / 1000) in
    actualPace / adjFactor.

(** [calculateDecoupling]. *)
Record EffAcc : Type := {
  hrSum : num;
  distSum : num;
  timeSum : num;
  count : nat
}.

Definition effInit : EffAcc :=
  {| hrSum := 0; distSum := 0; timeSum := 0; count := 0 |}.

Definition effBody (a : EffAcc) (prev p : TrackPoint) : EffAcc :=
  if truthy_opt (hr p) && truthy_opt (distance p) then
    {| hrSum := hrSum a + val (hr p);
       distSum := distSum a + (val (distance p) - or0 (distance prev));
       timeSum := timeSum a + (time p - time prev) / 1000;
       count := Datatypes.S (count a) |}
  else a.

Definition effSums (pts : list TrackPoint) : EffAcc :=
  forPairs effBody pts effInit.

Definition getEfficiency (pts : list TrackPoint) : num :=
  let a := effSums pts in
  if Nat.eqb (count a) 0 || (distSum a === 0) then 0
  else
    let avgHr := hrSum a / ofNat (count a) in
    let paceKmMin := (timeSum a / 60) / (distSum a / 1000) in
    (1 / paceKmMin) / avgHr.

(** The result is [None] where the program returns [null]. *)
Definition calculateDecoupling (run : RunData) : option num :=
  if Nat.ltb (List.length (points run)) 100 then None
  else
    let midPointIdx := Nat.div (List.length (points run)) 2 in
    let eff1 := getEfficiency (firstn midPointIdx (points run)) in
    let eff2 := getEfficiency (skipn midPointIdx (points run)) in
    if (eff1 === 0) || (eff2 === 0) then None
    else Some (((eff1 - eff2) / eff1) * 100).

(** [calculateZones]. *)
Definition calculateZones (settings : UserSettings) : list Zone :=
  let maxHR := maxHR settings in
  let restingHR := restingHR settings in
  let hrReserve := maxHR - restingHR in
  match method settings with
  | KARVONEN =>
    [ {| z_label := "Z1 Recovery";
         z_min := round (restingHR + hrReserve * 0.50);
         z_max := round (restingHR + hrReserve * 0.60) |};
      {| z_label := "Z2 Aerobic";
         z_min := round (restingHR + hrReserve * 0.60);
         z_max := round (restingHR + hrReserve * 0.70) |};
      {| z_label := "Z3 Tempo";
         z_min := round (restingHR + hrReserve * 0.70);
         z_max := round (restingHR + hrReserve * 0.80) |};
      {| z_label := "Z4 Threshold";
         z_min := round (restingHR + hrReserve * 0.80);
         z_max := round (restingHR + hrReserve * 0.90) |};
      {| z_label := "Z5 Anaerobic";
         z_min := round (restingHR + hrReserve * 0.90);
         z_max := maxHR |} ]
  | MAX_HR =>
    [ {| z_label := "Z1 Recovery";
         z_min := round (maxHR * 0.50);
         z_max := round (maxHR * 0.60) |};
      {| z_label := "Z2 Aerobic";
         z_min := round (maxHR * 0.60);
         z_max := round (maxHR * 0.70) |};
      {| z_label := "Z3 Tempo";
         z_min := round (maxHR * 0.70);
         z_max := round (maxHR * 0.80) |};
      {| z_label := "Z4 Threshold";
         z_min := round (maxHR * 0.80);
         z_max := round (maxHR * 0.90) |};
      {| z_label := "Z5 Anaerobic";
         z_min := round (maxHR * 0.90);
         z_max := maxHR |} ]
  end.

(** The [min] and [max] of each zone. *)
Definition bandsOf (zs : list Zone) : list (num * num) :=
  map (fun z => (z_min z, z_max z)) zs.

(** [getZoneDistribution]. *)
Fixpoint mapi_from {A B : Type} (f : A -> nat -> B) (i : nat) (l : list A)
    : list B :=
  match l with
  | [] => []
  | x :: tl => f x i :: mapi_from f (Datatypes.S i) tl
  end.

(** [Array.prototype.findIndex]; [None] stands for -1. *)
Fixpoint findIndex {A : Type} (f : A -> bool) (l : list A) : option nat :=
  match l with
  | [] => None
  | x :: tl => if f x then Some O else option_map Datatypes.S (findIndex f tl)
  end.

Definition addSecondsTo (d : HRZoneDistribution) (duration : num)
    : HRZoneDistribution :=
  {| zone := zone d; label := label d; zmin := zmin d; zmax := zmax d;
     seconds := seconds d + duration; percentage := percentage d |}.

(** [distribution[idx].seconds += duration]. *)
Fixpoint addSeconds (idx : nat) (duration : num)
    (distribution : list HRZoneDistribution) : list HRZoneDistribution :=
  match distribution, idx with
  | [], _ => []
  | d :: tl, O => addSecondsTo d duration :: tl
  | d :: tl, Datatypes.S k => d :: addSeconds k duration tl
  end.

Record ZoneAcc : Type := {
  distribution : list HRZoneDistribution;
  totalValidSeconds : num
}.

Definition initDistribution (zones : list Zone) : list HRZoneDistribution :=
  mapi_from (fun z i =>
    {| zone := i + 1; label := z_label z; zmin := z_min z; zmax := z_max z;
       seconds := 0; percentage := 0 |}) O zones.

Definition pairAvgHr (p1 p2 : TrackPoint) : num :=
  (val (hr p1) + val (hr p2)) / 2.

Definition pairDuration (p1 p2 : TrackPoint) : num :=
  (time p2 - time p1) / 1000.

Definition inZone (avgHr : num) (d : HRZoneDistribution) : bool :=
  (avgHr >=? zmin d) && (avgHr <? zmax d + 1).

Definition zoneBody (settings : UserSettings) (a : ZoneAcc)
    (p1 p2 : TrackPoint) : ZoneAcc :=
  if truthy_opt (hr p1) && truthy_opt (hr p2) then
    let avgHr := pairAvgHr p1 p2 in
    let duration := pairDuration p1 p2 in
    if (duration >? 0) && (duration <? 30) then
      let total := totalValidSeconds a + duration in
      match findIndex (inZone avgHr) (distribution a) with
      | Some zoneIdx =>
          {| distribution := addSeconds zoneIdx duration (distribution a);
             totalValidSeconds := total |}
      | None =>
          if avgHr >=? maxHR settings then
            {| distribution :=
                 addSeconds (List.length (distribution a) - 1) duration
                   (distribution a);
               totalValidSeconds := total |}
          else {| distribution := distribution a; totalValidSeconds := total |}
      end
    else a
  else a.

(** The state after the loop over the consecutive pairs of [points]. *)
Definition zoneLoop (points : list TrackPoint) (settings : UserSettings)
    : ZoneAcc :=
  forPairs (zoneBody settings) points
    {| distribution := initDistribution (calculateZones settings);
       totalValidSeconds := 0 |}.

Definition withPercentage (total : num) (d : HRZoneDistribution)
    : HRZoneDistribution :=
  {| zone := zone d; label := label d; zmin := zmin d; zmax := zmax d;
     seconds := seconds d;
     percentage := if total >? 0 then (seconds d / total) * 100 else 0 |}.

Definition getZoneDistribution (run : RunData) (settings : UserSettings)
    : list HRZoneDistribution :=
  let a := zoneLoop (points run) settings in
  map (withPercentage (totalValidSeconds a)) (distribution a).

(** [calculateTrainingEffect].  [dist[k].seconds] reads entry [k] of the
    five-entry distribution ([secondsAt] is NaN out of range, where the
    program would throw; the distribution always has five entries). *)
Definition secondsAt (k : nat) (dist : list HRZoneDistribution) : num :=
  match nth_error dist k with
  | Some d => seconds d
  | None => NaN
  end.

(** The body of [calculateTrainingEffect] after the three reads. *)
Definition effectOfZoneSeconds (z3 z4 z5 : num) : num :=
  let score := (z3 * 0.5 + z4 * 1.5 + z5 * 3.0) / 60 in
  let effect :=
    if score <? 10 then 1.0 + score / 10
    else if score <? 30 then 2.0 + (score - 10) / 20
    else if score <? 60 then 3.0 + (score - 30) / 30
    else if score <? 120 then 4.0 + (score - 60) / 60
    else 5.0 in
  JS.min 5.0 (round (effect * 10) / 10).

Definition calculateTrainingEffect (run : RunData) (settings : UserSettings)
    : num :=
  let dist := getZoneDistribution run settings in
  let z3 := secondsAt 2 dist in
  let z4 := secondsAt 3 dist in
  let z5 := secondsAt 4 dist in
  effectOfZoneSeconds z3 z4 z5.

End Physiology.

(** ** tcxParser.ts *)

(** The outcome of an [async] function: the promise resolves with a value,
    or rejects when the body throws. *)
Inductive promise (A : Type) : Type :=
| Resolved (a : A)
| Rejected (reason : string).
Arguments Resolved {A} a.
Arguments Rejected {A} reason.

Module TcxParser.
Local Open Scope js_scope.

(** One [Trackpoint] element, as the six parse expressions of the loop body
    see it: [new Date(...)] read through [getTime()], the four [parseFloat]
    and the [parseInt].  A missing or unreadable element gives NaN. *)
Record RawTrackpoint : Type := {
  r_time : num;
  r_lat : num;
  r_lng : num;
  r_altitude : num;
  r_distance : num;
  r_hr : num
}.

(** The variables the loop updates. *)
Record Acc : Type := {
  points : list TrackPoint;
  totalAscent : num;
  totalDescent : num;
  lastAlt : option num;
  maxHR : num;
  hrSum : num;
  hrCount : nat;
  movingTime : num;
  maxPace : num
}.

Definition init : Acc :=
  {| points := []; totalAscent := 0; totalDescent := 0; lastAlt := None;
     maxHR := 0; hrSum := 0; hrCount := 0; movingTime := 0; maxPace := 0 |}.

(** [isNaN(x) ? undefined : x]. *)
Definition defined (x : num) : option num :=
  if isNaN x then None else Some x.

(** [x || 0] on a number. *)
Definition orZero (x : num) : num := if truthy x then x else 0.

Definition lastPoint (pts : list TrackPoint) : option TrackPoint :=
  nth_error pts (List.length pts - 1).

Definition timeDiffOf (prev : TrackPoint) (tp : RawTrackpoint) : num :=
  (r_time tp - time prev) / 1000.

Definition distDiffOf (prev : TrackPoint) (tp : RawTrackpoint) : num :=
  orZero (r_distance tp) - or0 (distance prev).

(** The [if (i > 0)] block, for a known previous point: first the moving
    time and the fastest pace, then the ascent and descent. *)
Definition withPrev (st : Acc) (prev : TrackPoint) (tp : RawTrackpoint)
    : Acc :=
  let timeDiff := timeDiffOf prev tp in
  let distDiff := distDiffOf prev tp in
  let '(movingTime', maxPace') :=
    if (timeDiff >? 0) && (timeDiff <? 15) then
      let movingTime' :=
        if distDiff / timeDiff >? 0.5 then movingTime st + timeDiff
        else movingTime st in
      let currentPace := timeDiff / (distDiff / 1000) in
      let maxPace' :=
        if (currentPace >? 120) && (currentPace <? 1200) then
          if (maxPace st === 0) || (currentPace <? maxPace st)
          then currentPace else maxPace st
        else maxPace st in
      (movingTime', maxPace')
    else (movingTime st, maxPace st) in
  let altitude := r_altitude tp in
  let '(totalAscent', totalDescent') :=
    match lastAlt st with
    | Some lastAlt =>
        if negb (isNaN altitude) then
          let diff := altitude - lastAlt in
          if diff >? 0 then (totalAscent st + diff, totalDescent st)
          else if diff <? 0 then (totalAscent st, totalDescent st + abs diff)
          else (totalAscent st, totalDescent st)
        else (totalAscent st, totalDescent st)
    | None => (totalAscent st, totalDescent st)
    end in
  {| points := points st;
     totalAscent := totalAscent';
     totalDescent := totalDescent';
     lastAlt := lastAlt st;
     maxHR := maxHR st;
     hrSum := hrSum st;
     hrCount := hrCount st;
     movingTime := movingTime';
     maxPace := maxPace' |}.

(** The [point] object built from a [Trackpoint] element. *)
Definition toPoint (tp : RawTrackpoint) : TrackPoint :=
  {| time := r_time tp;
     lat := defined (r_lat tp);
     lng := defined (r_lng tp);
     altitude := defined (r_altitude tp);
     distance := defined (r_distance tp);
     hr := defined (r_hr tp) |}.

(** The body of [trackpoints.forEach((tp, i) => ...)].  [None] is the
    [TypeError] of reading [prev.time] when [points] is empty. *)
Definition onTrackpoint (st : Acc) (tp : RawTrackpoint) (i : nat)
    : option Acc :=
  let point := toPoint tp in
  let st1 :=
    if Nat.ltb 0 i then
      match lastPoint (points st) with
      | Some prev => Some (withPrev st prev tp)
      | None => None
      end
    else Some st in
  match st1 with
  | None => None
  | Some st1 =>
    let hasHr := negb (isNaN (r_hr tp)) in
    Some
      {| points := points st1 ++ [point];
         totalAscent := totalAscent st1;
         totalDescent := totalDescent st1;
         lastAlt :=
           if negb (isNaN (r_altitude tp)) then Some (r_altitude tp)
           else lastAlt st1;
         maxHR := if hasHr then JS.max (maxHR st1) (r_hr tp) else maxHR st1;
         hrSum := if hasHr then hrSum st1 + r_hr tp else hrSum st1;
         hrCount := if hasHr then Datatypes.S (hrCount st1) else hrCount st1;
         movingTime := movingTime st1;
         maxPace := maxPace st1 |}
  end.

Fixpoint forEachFrom (i : nat) (trackpoints : list RawTrackpoint) (st : Acc)
    : option Acc :=
  match trackpoints with
  | [] => Some st
  | tp :: tl =>
      match onTrackpoint st tp i with
      | Some st' => forEachFrom (Datatypes.S i) tl st'
      | None => None
      end
  end.

(** The statements after the loop. *)
Definition finish (now1 now2 : num) (st : Acc) : RunData :=
  let points := points st in
  let totalDistance :=
    match lastPoint points with
    | Some p => or0 (distance p)
    | None => 0
    end in
  let startTime :=
    match nth_error points 0 with Some p => time p | None => now1 end in
  let endTime :=
    match lastPoint points with Some p => time p | None => now2 end in
  let elapsedTime := (endTime - startTime) / 1000 in
  let movingTime := movingTime st in
  let hrSum := hrSum st in
  let avgHR := if Nat.ltb 0 (hrCount st) then hrSum / ofNat (hrCount st)
               else 0 in
  let avgPace :=
    if movingTime >? 0 then movingTime / (totalDistance / 1000) else 0 in
  let aerobicEfficiency :=
    if avgHR >? 0 then (totalDistance / hrSum) * 100 else 0 in
  let movementRatio :=
    if elapsedTime >? 0 then (movingTime / elapsedTime) * 100 else 0 in
  let vam :=
    if movingTime >? 0 then (totalAscent st / movingTime) * 3600 else 0 in
  let thresholdPace : num := 300 in
  let intensityFactor :=
    if avgPace >? 0 then thresholdPace / avgPace else 0 in
  {| startTime := startTime;
     Types.points := points;
     laps := [];
     summary :=
       {| Summary.totalDistance := totalDistance;
          Summary.elapsedTime := elapsedTime;
          Summary.movingTime := movingTime;
          Summary.avgHR := round avgHR;
          Summary.maxHR := maxHR st;
          Summary.totalAscent := totalAscent st;
          Summary.totalDescent := totalDescent st;
          Summary.avgPace := avgPace;
          Summary.maxPace := maxPace st;
          Summary.calories := round ((totalDistance / 1000) * 70);
          Summary.fitnessScore := round ((avgHR * (movingTime / 3600)) / 10);
          Summary.intensityFactor := intensityFactor;
          Summary.variabilityIndex := 1.05;
          Summary.aerobicEfficiency := aerobicEfficiency;
          Summary.movementRatio := movementRatio;
          Summary.vam := vam;
          Summary.trainingEffect := 0 |} |}.

(** [parseTCX], from the list of [Trackpoint] elements of the document.
    [now1] and [now2] are the clock readings of the two [new Date()] that
    stand in for the start and end time of a run without points. *)
Definition parseTCX (now1 now2 : num) (trackpoints : list RawTrackpoint)
    : promise RunData :=
  match forEachFrom 0 trackpoints init with
  | Some st => Resolved (finish now1 now2 st)
  | None => Rejected "TypeError"
  end.

End TcxParser.

(** ** Quantities the properties are stated with *)

(** [z] is the integer nearest to [x], ties going up. *)
Definition nearest (x : Q) (z : Z) : Prop :=
  (inject_Z z - (1 # 2) <= x /\ x < inject_Z z + (1 # 2))%Q.



(** The rational value of a finite number. *)
Definition qval (x : num) : Q :=
  match x with Fin q => q | _ => 0 end.

(** Sum of [g] over the consecutive pairs of a list. *)
Fixpoint sumPairsFrom {A : Type} (g : A -> A -> Q) (prev : A)
    (rest : list A) : Q :=
  match rest with
  | [] => 0
  | p :: tl => g prev p + sumPairsFrom g p tl
  end.

Definition sumPairs {A : Type} (g : A -> A -> Q) (pts : list A) : Q :=
  match pts with
  | [] => 0
  | p0 :: tl => sumPairsFrom g p0 tl
  end.

(** [P] holds of every consecutive pair. *)
Fixpoint allPairsFrom {A : Type} (P : A -> A -> Prop) (prev : A)
    (rest : list A) : Prop :=
  match rest with
  | [] => True
  | p :: tl => P prev p /\ allPairsFrom P p tl
  end.

Definition allPairs {A : Type} (P : A -> A -> Prop) (pts : list A) : Prop :=
  match pts with
  | [] => True
  | p0 :: tl => allPairsFrom P p0 tl
  end.

Module ZoneSpec.
Import Physiology.
Local Open Scope js_scope.

(** The pairs the zone loop counts: both points carry a heart rate and the
    time between them is strictly between 0 and 30 seconds. *)
Definition counted (p1 p2 : TrackPoint) : bool :=
  (truthy_opt (hr p1) && truthy_opt (hr p2))
  && ((pairDuration p1 p2 >? 0) && (pairDuration p1 p2 <? 30)).

(** The index of the zone a counted pair of average heart rate [avgHr] is
    credited to, if any: the first zone whose interval holds [avgHr],
    else the last zone when [avgHr] is at or above [maxHR]. *)
Definition creditedZone (settings : UserSettings) (avgHr : num)
    : option nat :=
  match findIndex (inZone avgHr) (initDistribution (calculateZones settings))
  with
  | Some i => Some i
  | None => if avgHr >=? maxHR settings then Some 4%nat else None
  end.

Definition creditedTo (settings : UserSettings) (k : nat) (avgHr : num)
    : bool :=
  match creditedZone settings avgHr with
  | Some j => Nat.eqb j k
  | None => false
  end.

(** What a pair adds to the seconds of zone [k], and to the total. *)
Definition zoneShare (settings : UserSettings) (k : nat)
    (p1 p2 : TrackPoint) : Q :=
  if counted p1 p2 && creditedTo settings k (pairAvgHr p1 p2)
  then qval (pairDuration p1 p2) else 0.

Definition countedShare (p1 p2 : TrackPoint) : Q :=
  if counted p1 p2 then qval (pairDuration p1 p2) else 0.

(** The [min] and [max] of each entry of a distribution. *)
Definition boundsD (D : list HRZoneDistribution) : list (num * num) :=
  map (fun d => (zmin d, zmax d)) D.

(** What every state of the zone loop satisfies: the zones are those of
    the settings, and the seconds and their total are finite. *)
Record zoneInv (settings : UserSettings) (a : ZoneAcc) : Prop := {
  inv_bounds :
    boundsD (distribution a) =
    boundsD (initDistribution (calculateZones settings));
  inv_total : finite (totalValidSeconds a);
  inv_seconds : forall k, (k < 5)%nat -> finite (secondsAt k (distribution a))
}.

(** Five zones with finite bounds, each starting where the one before
    ends. *)
Definition chain (b0 b1 b2 b3 b4 top : Q) : list (num * num) :=
  [ (Fin b0, Fin b1); (Fin b1, Fin b2); (Fin b2, Fin b3); (Fin b3, Fin b4);
    (Fin b4, Fin top) ].



(** [x] rounded to one decimal, as [Math.round(x * 10) / 10] does. *)
Definition round1 (x : Q) : Q :=
  inject_Z (Qfloor (x * 10 + (1 # 2))) / 10.

(** The load score of the training effect, from the seconds in zones 3,
    4 and 5. *)
Definition loadScore (z3 z4 z5 : Q) : Q :=
  (z3 * 0.5 + z4 * 1.5 + z5 * 3.0) / 60.


End ZoneSpec.

Module ParserSpec.
Import TcxParser.
Local Open Scope js_scope.

(** Seconds and metres between two consecutive [Trackpoint] elements, as
    the loop computes them from the stored previous point. *)
Definition timeDiff (prev cur : RawTrackpoint) : num :=
  timeDiffOf (toPoint prev) cur.

Definition distDiff (prev cur : RawTrackpoint) : num :=
  distDiffOf (toPoint prev) cur.

(** The pairs that count as moving: a time difference strictly between 0
    and 15 seconds and an average speed above 0.5 m/s. *)
Definition moving (prev cur : RawTrackpoint) : bool :=
  ((timeDiff prev cur >? 0) && (timeDiff prev cur <? 15))
  && (distDiff prev cur / timeDiff prev cur >? 0.5).

(** What a pair adds to the moving time. *)
Definition movingShare (prev cur : RawTrackpoint) : Q :=
  if moving prev cur then qval (timeDiff prev cur) else 0.

End ParserSpec.

Module DecouplingSpec.
Import Physiology.

(** The sums of [getEfficiency] are finite. *)
Record effFinite (a : EffAcc) : Prop := {
  fin_hrSum : finite (hrSum a);
  fin_distSum : finite (distSum a);
  fin_timeSum : finite (timeSum a)
}.

End DecouplingSpec.

(** ** Sample inputs *)

Module Samples.


(** A run from its points; the summary plays no part in the physiology
    functions. *)
Definition emptySummary : Summary.t :=
  {| Summary.totalDistance := Fin 0; Summary.elapsedTime := Fin 0;
     Summary.movingTime := Fin 0; Summary.avgHR := Fin 0;
     Summary.maxHR := Fin 0; Summary.totalAscent := Fin 0;
     Summary.totalDescent := Fin 0; Summary.avgPace := Fin 0;
     Summary.maxPace := Fin 0; Summary.calories := Fin 0;
     Summary.fitnessScore := Fin 0; Summary.intensityFactor := Fin 0;
     Summary.variabilityIndex := Fin 1.05; Summary.aerobicEfficiency := Fin 0;
     Summary.movementRatio := Fin 0; Summary.vam := Fin 0;
     Summary.trainingEffect := Fin 0 |}.

Definition runOf (pts : list TrackPoint) : RunData :=
  {| startTime := match pts with p :: _ => time p | [] => Fin 0 end;
     points := pts; laps := []; summary := emptySummary |}.

(** A point with a time (in seconds) and a heart rate only. *)
Definition hrPoint (t h : Q) : TrackPoint :=
  {| time := Fin (t * 1000); lat := None; lng := None; altitude := None;
     distance := None; hr := Some (Fin h) |}.

(** The default settings of the application, with either method. *)
Definition settingsMaxHR : UserSettings :=
  {| maxHR := Fin 190; restingHR := Fin 55; method := MAX_HR |}.
Definition settingsKarvonen : UserSettings :=
  {| maxHR := Fin 190; restingHR := Fin 55; method := KARVONEN |}.

(** One second at 80 bpm, below zone 1 (95 to 114 bpm). *)
Definition lowHrRun : RunData := runOf [hrPoint 0 80; hrPoint 1 80].




(** Point [i] of a steady run: one point every 5 seconds and 15 metres,
    at 140 bpm in the first fifty points and 150 bpm afterwards. *)
Definition steadyPoint (i : nat) : TrackPoint :=
  {| time := Fin (inject_Z (Z.of_nat i) * 5000);
     lat := None; lng := None; altitude := None;
     distance := Some (Fin (inject_Z (Z.of_nat i) * 15 + 10));
     hr := Some (Fin (if Nat.ltb i 50 then 140 else 150)) |}.


(** A [Trackpoint] element with a time (in milliseconds) and, when
    [withDistance] holds, a distance; nothing else. *)
Definition rawPoint (ms : Q) (withDistance : bool) (metres : Q)
    : TcxParser.RawTrackpoint :=
  {| TcxParser.r_time := Fin ms; TcxParser.r_lat := NaN;
     TcxParser.r_lng := NaN; TcxParser.r_altitude := NaN;
     TcxParser.r_distance := if withDistance then Fin metres else NaN;
     TcxParser.r_hr := NaN |}.

(** Ten metres in the first second, then a point without distance. *)
Definition dropoutTrack : list TcxParser.RawTrackpoint :=
  [rawPoint 0 true 0; rawPoint 1000 true 10; rawPoint 2000 false 0].

(** 100 metres in exactly 15 seconds, and in 14 seconds. *)
Definition fifteenSecondTrack : list TcxParser.RawTrackpoint :=
  [rawPoint 0 true 0; rawPoint 15000 true 100].
Definition fourteenSecondTrack : list TcxParser.RawTrackpoint :=
  [rawPoint 0 true 0; rawPoint 14000 true 100].

End Samples.

From Stdlib Require DecimalString.
From Stdlib Require Import Sorted Permutation.

(** ** Further quantities of the parser *)

Module TrackSpec.
Import TcxParser ParserSpec.
Local Open Scope js_scope.

(** What [parseFloat] and [parseInt] give on the text of a file: NaN or a
    finite number. *)
Definition nanOrFinite (x : num) : Prop :=
  match x with PInf | NInf => False | _ => True end.

(** A trackpoint with a valid date whose numbers are NaN or finite. *)
Definition wfRaw (tp : RawTrackpoint) : Prop :=
  finite (r_time tp) /\ nanOrFinite (r_altitude tp) /\
  nanOrFinite (r_distance tp) /\ nanOrFinite (r_hr tp).






(** The pace of a pair of trackpoints, and the pairs whose pace enters the
    fastest pace: a time difference strictly between 0 and 15 seconds and
    a pace strictly between 120 and 1200 seconds per kilometre. *)
Definition paceOf (prev cur : RawTrackpoint) : num :=
  timeDiff prev cur / (distDiff prev cur / 1000).

Definition paced (prev cur : RawTrackpoint) : bool :=
  ((timeDiff prev cur >? 0) && (timeDiff prev cur <? 15))
  && ((paceOf prev cur >? 120) && (paceOf prev cur <? 1200)).

(** [P] holds of some consecutive pair. *)
Fixpoint somePairFrom {A : Type} (P : A -> A -> Prop) (prev : A)
    (rest : list A) : Prop :=
  match rest with
  | [] => False
  | p :: tl => P prev p \/ somePairFrom P p tl
  end.

Definition somePair {A : Type} (P : A -> A -> Prop) (l : list A) : Prop :=
  match l with
  | [] => False
  | p0 :: tl => somePairFrom P p0 tl
  end.






(** The state of the fastest pace: 0 while no pair qualified, else the
    smallest pace of the pairs that did. *)
Definition paceInv (pre : list RawTrackpoint) (st : Acc) : Prop :=
  (maxPace st = Fin 0 /\ allPairs (fun a b => paced a b = false) pre) \/
  exists p,
    maxPace st = Fin p /\ (120 < p)%Q /\ (p < 1200)%Q /\
    somePair (fun a b => paced a b = true /\ paceOf a b = Fin p) pre /\
    allPairs (fun a b => paced a b = true ->
                exists p', paceOf a b = Fin p' /\ (p <= p')%Q) pre.


End TrackSpec.

(** ** Further quantities of the physiology functions *)

Module EffectSpec.

(** The training effect before rounding, as a function of the score. *)
Definition effectCurve (score : Q) : Q :=
  if Qltb score 10 then 1.0 + score / 10
  else if Qltb score 30 then 2.0 + (score - 10) / 20
  else if Qltb score 60 then 3.0 + (score - 30) / 30
  else if Qltb score 120 then 4.0 + (score - 60) / 60
  else 5.0.

End EffectSpec.

(** ** plans.ts *)

Inductive RunnerLevel : Type := BEGINNER | INTERMEDIATE | PRO.

(** A session of a plan ([PlanSession]) and a plan ([TrainingPlan]). *)
Module Session.
Record t : Type := {
  id : string;
  day : num;
  title : string;
  description : string;
  targetDuration : num;
  targetZone : num;
  linkedRunId : option string
}.
End Session.

Module Plan.
Record t : Type := {
  id : string;
  name : string;
  sessions : list Session.t
}.
End Plan.

(** The value of a property read [object[key]]: an own property, a
    property inherited from [Object.prototype] (a function, or the
    prototype itself for [__proto__]), or nothing ([undefined]). *)
Inductive property (A : Type) : Type :=
| Own (a : A)
| Inherited
| Missing.
Arguments Own {A} a.
Arguments Inherited {A}.
Arguments Missing {A}.

(** What a call does: it returns a value or throws. *)
Inductive outcome (A : Type) : Type :=
| Returned (a : A)
| Thrown (error : string).
Arguments Returned {A} a.
Arguments Thrown {A} error.

Module Plans.
Local Open Scope js_scope.
Local Open Scope string_scope.

Definition session (id : string) (day : Q) (title description : string)
    (targetDuration targetZone : Q) : Session.t :=
  {| Session.id := id; Session.day := day; Session.title := title;
     Session.description := description;
     Session.targetDuration := targetDuration;
     Session.targetZone := targetZone; Session.linkedRunId := None |}.

Definition c25k : Plan.t :=
  {| Plan.id := "c25k";
     Plan.name := "Couch to 5K";
     Plan.sessions :=
       [ session "c25k_w1d1" 1 "W1D1: Intro" "60s run / 90s walk repeats" 20 2;
         session "c25k_w1d2" 3 "W1D2: Consistency"
           "60s run / 90s walk repeats" 20 2;
         session "c25k_w1d3" 5 "W1D3: Push" "60s run / 90s walk repeats" 20 2;
         session "c25k_w3d1" 15 "W3D1: Progression" "2 min run / 1 min walk"
           25 2;
         session "c25k_w5d3" 33 "W5D3: The Wall" "Continuous 20 minute run"
           20 3;
         session "c25k_final" 63 "Final Graduation" "30-45 minute steady run"
           30 3 ] |}.

Definition run10k : Plan.t :=
  {| Plan.id := "run10k";
     Plan.name := "10K Finisher";
     Plan.sessions :=
       [ session "10k_w1d1" 1 "Foundation" "Easy base run" 30 2;
         session "10k_w2d1" 8 "Intervals" "4x400m fast with rest" 35 4;
         session "10k_w4d1" 22 "Threshold Work" "10 min warm up, 15 min Z4"
           40 4;
         session "10k_long" 14 "Long Run" "Slow steady distance" 50 2 ] |}.

(** The property names every object literal inherits. *)
Definition objectPrototypeKeys : list string :=
  [ "constructor"; "hasOwnProperty"; "isPrototypeOf"; "propertyIsEnumerable";
    "toLocaleString"; "toString"; "valueOf"; "__proto__";
    "__defineGetter__"; "__defineSetter__"; "__lookupGetter__";
    "__lookupSetter__" ].

(** [PLANS[planId]]. *)
Definition PLANS (planId : string) : property Plan.t :=
  if String.eqb planId "c25k" then Own c25k
  else if String.eqb planId "run10k" then Own run10k
  else if existsb (String.eqb planId) objectPrototypeKeys then Inherited
  else Missing.

Definition multipliers (level : RunnerLevel) : num :=
  match level with
  | BEGINNER => 1.0
  | INTERMEDIATE => 1.3
  | PRO => 1.7
  end.

(** The copy of a session that [getScaledPlan] makes. *)
Definition scaleSession (level : RunnerLevel) (s : Session.t) : Session.t :=
  {| Session.id := Session.id s; Session.day := Session.day s;
     Session.title := Session.title s;
     Session.description := Session.description s;
     Session.targetDuration :=
       round (Session.targetDuration s * multipliers level);
     Session.targetZone := Session.targetZone s;
     Session.linkedRunId := Session.linkedRunId s |}.

(** [getScaledPlan].  For an unknown plan the program returns the
    [undefined] it has read ([None]); for an inherited property it goes on
    and throws on [basePlan.sessions.map], [sessions] being [undefined]. *)
Definition getScaledPlan (planId : string) (level : RunnerLevel)
    : outcome (option Plan.t) :=
  match PLANS planId with
  | Missing => Returned None
  | Inherited => Thrown "TypeError"
  | Own basePlan =>
      Returned
        (Some {| Plan.id := Plan.id basePlan;
                 Plan.name := Plan.name basePlan;
                 Plan.sessions :=
                   map (scaleSession level) (Plan.sessions basePlan) |})
  end.

(** [calculateCompliance]. *)
Record Compliance : Type := {
  score : num;
  notes : string
}.

Definition calculateCompliance (session : Session.t) (run : RunData)
    : Compliance :=
  let durationDiff :=
    abs (Summary.movingTime (summary run) / 60
         - Session.targetDuration session) in
  let durationScore :=
    JS.max 0 (100 - (durationDiff / Session.targetDuration session) * 100) in
  let intensityScore : num := 80 in
  let score := round (durationScore * 0.7 + intensityScore * 0.3) in
  let notes :=
    if score >? 85 then "Excellent adherence to plan."
    else "Session intensity or duration deviated." in
  let notes :=
    if Summary.trainingEffect (summary run) >? 4.5
    then notes ++ " High fatigue risk." else notes in
  {| score := score; notes := notes |}.

End Plans.

(** ** Numbers as text *)

(** [Math.floor], [Math.ceil], the remainder [%], the text of a number and
    [padStart] with the filler 0. *)
Module JSText.
Local Open Scope string_scope.

Definition floor (x : num) : num :=
  match x with
  | Fin q => Fin (inject_Z (Qfloor q))
  | _ => x
  end.

Definition ceil (x : num) : num :=
  match x with
  | Fin q => Fin (inject_Z (Qceiling q))
  | _ => x
  end.

(** The integer part of a rational, rounding towards 0. *)
Definition trunc (q : Q) : Z :=
  if Qle_bool 0 q then Qfloor q else Qceiling q.

(** [x % y]: the remainder has the sign of the dividend. *)
Definition rem (x y : num) : num :=
  match x, y with
  | Fin a, Fin b =>
      if Qeq_bool b 0 then NaN else Fin (a - b * inject_Z (trunc (a / b)))
  | Fin a, PInf => Fin a
  | Fin a, NInf => Fin a
  | _, _ => NaN
  end.

(** The decimal digits of an integer, with a minus sign when negative. *)
Definition decimal (z : Z) : string :=
  DecimalString.NilZero.string_of_int (Z.to_int z).

(** The integers up to 2^53 in magnitude: their text is their decimal
    digits. *)
Definition safeInteger (q : Q) : bool :=
  Qeq_bool (inject_Z (Qfloor q)) q
  && Z.leb (Z.abs (Qfloor q)) 9007199254740992.

(** The text of a number, [String(x)].  It is derived for NaN, the
    infinities and the integers up to 2^53; [None] stands for the text of
    any other number, which this development does not derive. *)
Definition toString (x : num) : option string :=
  match x with
  | NaN => Some "NaN"
  | PInf => Some "Infinity"
  | NInf => Some "-Infinity"
  | Fin q => if safeInteger q then Some (decimal (Qfloor q)) else None
  end.

Fixpoint zeros (n : nat) : string :=
  match n with
  | O => ""
  | Datatypes.S n => "0" ++ zeros n
  end.

(** [s.padStart(targetLength, '0')]. *)
Definition padStart (targetLength : nat) (s : string) : string :=
  zeros (targetLength - String.length s) ++ s.

End JSText.

(** ** App.tsx *)

Inductive Units : Type := KM | MILES.

Inductive View : Type := ViewDashboard | ViewRun | ViewPlan | ViewSettings.

(** The [compliance] field of a run. *)
Module RunCompliance.
Record t : Type := {
  score : num;
  notes : string;
  sessionId : option string
}.
End RunCompliance.

(** A run as the application stores it: the [RunData] of the parser
    together with the optional fields [summary.gap], [summary.decoupling]
    and [compliance].  The [id] of a run is the text run_ followed by the
    start time in milliseconds; it is represented by that start time. *)
Module Run.
Record t : Type := {
  data : RunData;
  gap : option num;
  decoupling : option num;
  compliance : option RunCompliance.t
}.
Definition id (r : t) : num := startTime (data r).
End Run.

Module App.
Local Open Scope js_scope.
Local Open Scope string_scope.

(** [UserSettings] as the component uses it: [user] holds the fields the
    physiology functions read; [completedSessions] maps a session id to
    the id of a run. *)
Record Settings : Type := {
  user : UserSettings;
  units : Units;
  activePlanId : option string;
  level : RunnerLevel;
  completedSessions : string -> option num
}.

(** The state that [handleFileUpload] updates, and the alerts it has
    raised. *)
Record State : Type := {
  settings : Settings;
  runs : list Run.t;
  activeRunId : option num;
  view : View;
  loading : bool;
  alerts : list string
}.

(** [activePlan]: null without a plan id (or with an empty one). *)
Definition activePlan (s : Settings) : outcome (option Plan.t) :=
  match activePlanId s with
  | None => Returned None
  | Some planId =>
      if String.eqb planId "" then Returned None
      else Plans.getScaledPlan planId (level s)
  end.

(** [data.summary.trainingEffect = te]. *)
Definition setTrainingEffect (te : num) (data : RunData) : RunData :=
  let s := summary data in
  {| startTime := startTime data;
     points := points data;
     laps := laps data;
     summary :=
       {| Summary.totalDistance := Summary.totalDistance s;
          Summary.elapsedTime := Summary.elapsedTime s;
          Summary.movingTime := Summary.movingTime s;
          Summary.avgHR := Summary.avgHR s;
          Summary.maxHR := Summary.maxHR s;
          Summary.totalAscent := Summary.totalAscent s;
          Summary.totalDescent := Summary.totalDescent s;
          Summary.avgPace := Summary.avgPace s;
          Summary.maxPace := Summary.maxPace s;
          Summary.calories := Summary.calories s;
          Summary.fitnessScore := Summary.fitnessScore s;
          Summary.intensityFactor := Summary.intensityFactor s;
          Summary.variabilityIndex := Summary.variabilityIndex s;
          Summary.aerobicEfficiency := Summary.aerobicEfficiency s;
          Summary.movementRatio := Summary.movementRatio s;
          Summary.vam := Summary.vam s;
          Summary.trainingEffect := te |} |}.

(** [calculateDecoupling(data) || 0]. *)
Definition decouplingOr0 (data : RunData) : num :=
  match Physiology.calculateDecoupling data with
  | Some d => if truthy d then d else 0
  | None => 0
  end.

(** [setSettings(prev => ({...prev, completedSessions:
    {...prev.completedSessions, [sessionId]: id}}))]. *)
Definition completeSession (sessionId : string) (id : num) (prev : Settings)
    : Settings :=
  {| user := user prev; units := units prev;
     activePlanId := activePlanId prev; level := level prev;
     completedSessions := fun k =>
       if String.eqb k sessionId then Some id else completedSessions prev k |}.

(** The statements of the [try] block after the file is parsed.  The
    result is the run and, for an upload that completes a session, the
    id of that session. *)
Definition analyse (settings : Settings) (activePlan : option Plan.t)
    (sessionId : option string) (data : RunData) : Run.t * option string :=
  let data :=
    setTrainingEffect (Physiology.calculateTrainingEffect data (user settings))
      data in
  let decoupling := decouplingOr0 data in
  let gap :=
    if Nat.ltb 10 (List.length (points data)) then
      match nth_error (points data) 0,
            nth_error (points data) (List.length (points data) - 1) with
      | Some p1, Some p2 => Some (Physiology.calculateGAP p1 p2)
      | _, _ => None
      end
    else None in
  let session :=
    match sessionId, activePlan with
    | Some sid, Some plan =>
        if String.eqb sid "" then None
        else find (fun s => String.eqb (Session.id s) sid) (Plan.sessions plan)
    | _, _ => None
    end in
  match session, sessionId with
  | Some session, Some sid =>
      let c := Plans.calculateCompliance session data in
      ({| Run.data := data; Run.gap := gap;
          Run.decoupling := Some decoupling;
          Run.compliance :=
            Some {| RunCompliance.score := Plans.score c;
                    RunCompliance.notes := Plans.notes c;
                    RunCompliance.sessionId := Some sid |} |},
       Some sid)
  | _, _ =>
      ({| Run.data := data; Run.gap := gap;
          Run.decoupling := Some decoupling;
          Run.compliance := None |},
       None)
  end.

(** [handleFileUpload].  [settings] and [activePlan] are the values the
    handler closes over; [file] is [None] when the input holds no file and
    otherwise the trackpoints of the document. *)
Definition handleFileUpload (now1 now2 : num) (settings : Settings)
    (activePlan : option Plan.t) (file : option (list TcxParser.RawTrackpoint))
    (sessionId : option string) (st : State) : State :=
  match file with
  | None => st
  | Some trackpoints =>
      match TcxParser.parseTCX now1 now2 trackpoints with
      | Resolved data =>
          let (run, completed) :=
            analyse settings activePlan sessionId data in
          {| App.settings :=
               match completed with
               | Some sid => completeSession sid (Run.id run) (App.settings st)
               | None => App.settings st
               end;
             runs := firstn 50 (run :: runs st);
             activeRunId := Some (Run.id run);
             view := ViewRun;
             loading := false;
             alerts := alerts st |}
      | Rejected _ =>
          {| App.settings := App.settings st;
             runs := runs st;
             activeRunId := activeRunId st;
             view := view st;
             loading := false;
             alerts := alerts st ++ ["Error processing file."] |}
      end
  end.

(** [formatPace].  The result is [None] where the text of the minutes
    or of the seconds is not derived (see [JSText.toString]). *)
Definition formatPace (settings : Settings) (secPerKm : num)
    : option string :=
  if negb (truthy secPerKm) || isNaN secPerKm || (secPerKm === PInf)
  then Some "0:00"
  else
    let factor : num :=
      match units settings with MILES => 1.60934 | KM => 1 end in
    let pace := secPerKm / factor in
    match JSText.toString (JSText.floor (pace / 60)),
          JSText.toString (JSText.floor (JSText.rem pace 60)) with
    | Some minutes, Some seconds =>
        Some (minutes ++ ":" ++ JSText.padStart 2 seconds)
    | _, _ => None
    end.

(** [chartData]. *)
Record ChartPoint : Type := {
  x : num;
  y : num
}.

Record ChartData : Type := {
  xDomain : num * num;
  paceData : list ChartPoint;
  hrData : list ChartPoint;
  altData : list ChartPoint
}.

(** The pace of the point at index [i], over the five points before it.
    [points[i - 5]] is an element of the array whenever [i > 5]. *)
Definition paceAt (pts : list TrackPoint) (p : TrackPoint) (i : nat) : num :=
  if Nat.ltb 5 i then
    match nth_error pts (i - 5) with
    | Some prev =>
        let distDiff := or0 (distance p) - or0 (distance prev) in
        let timeDiff := (time p - time prev) / 1000 in
        if distDiff >? 0 then timeDiff / (distDiff / 1000) else 0
    | None => 0
    end
  else 0.

Definition chartData (activeRun : option Run.t) : option ChartData :=
  match activeRun with
  | None => None
  | Some activeRun =>
      let run := Run.data activeRun in
      let start := startTime run in
      Some
        {| xDomain := (Fin 0, Summary.elapsedTime (summary run));
           paceData :=
             filter (fun d => y d >? 0)
               (Physiology.mapi_from
                  (fun p i =>
                     {| x := (time p - start) / 1000;
                        y := JS.min (paceAt (points run) p i) 900 |})
                  O (points run));
           hrData :=
             map (fun p => {| x := (time p - start) / 1000; y := val (hr p) |})
               (filter (fun p => truthy_opt (hr p)) (points run));
           altData :=
             map (fun p =>
                    {| x := (time p - start) / 1000; y := val (altitude p) |})
               (filter (fun p => match altitude p with
                                 | Some _ => true
                                 | None => false
                                 end)
                  (points run)) |}
  end.

(** [groupedPlan].  [weeks] is kept as the list of its entries; the key
    of an entry is the text of a week number and is represented by that
    number. *)
Definition weekNum (s : Session.t) : num :=
  JSText.ceil (Session.day s / 7).

(** Two numbers with the same text, that is, the same property key. *)
Definition sameKey (a b : num) : bool :=
  match a, b with
  | Fin x, Fin y => Qeq_bool x y
  | PInf, PInf => true
  | NInf, NInf => true
  | NaN, NaN => true
  | _, _ => false
  end.

(** [if (!weeks[w]) weeks[w] = []; weeks[w].push(s)]. *)
Fixpoint push (weeks : list (num * list Session.t)) (w : num)
    (s : Session.t) : list (num * list Session.t) :=
  match weeks with
  | [] => [(w, [s])]
  | (k, l) :: tl =>
      if sameKey k w then (k, (l ++ [s])%list) :: tl
      else (k, l) :: push tl w s
  end.

(** [sort(([a], [b]) => Number(a) - Number(b))]: an entry goes behind the
    entries it compares greater than. *)
Fixpoint insert (e : num * list Session.t)
    (sorted : list (num * list Session.t)) : list (num * list Session.t) :=
  match sorted with
  | [] => [e]
  | h :: tl =>
      if (fst e - fst h) >? 0 then h :: insert e tl else e :: h :: tl
  end.

Definition sortEntries (entries : list (num * list Session.t))
    : list (num * list Session.t) :=
  fold_right insert [] entries.

(** The result is [None] when a key is NaN: the comparison function is
    then not consistent, and the language leaves the order open. *)
Definition groupedPlan (activePlan : option Plan.t)
    : option (list (num * list Session.t)) :=
  match activePlan with
  | None => Some []
  | Some plan =>
      let weeks :=
        fold_left (fun weeks s => push weeks (weekNum s) s)
          (Plan.sessions plan) [] in
      if existsb (fun e => isNaN (fst e)) weeks then None
      else Some (sortEntries weeks)
  end.

End App.

(** The pace in the unit of the settings: seconds per kilometre, or per
    mile. *)
Module PaceSpec.
End PaceSpec.

(** The week of a session, and the entry of the week [z] with its
    sessions. *)
Module WeekSpec.
Definition weekOf (s : Session.t) : Z := Qceiling (qval (Session.day s) / 7).
Definition inWeek (z : Z) (s : Session.t) : bool := Z.eqb (weekOf s) z.
Definition weekEntry (e : Z * list Session.t) : num * list Session.t :=
  (Fin (inject_Z (fst e)), snd e).

(** [ws] groups the sessions [processed] by week: one entry for each week
    that has a session, holding the sessions of that week in their
    order. *)
Definition grouped (ws : list (Z * list Session.t))
    (processed : list Session.t) : Prop :=
  NoDup (map fst ws) /\
  (forall z ss, In (z, ss) ws ->
     ss <> [] /\ ss = filter (inWeek z) processed) /\
  (forall s, In s processed -> In (weekOf s) (map fst ws)).
End WeekSpec.

(** A session that lasts a whole, positive number of minutes. *)
Module PlanSpec.
Definition wholeMinutes (s : Session.t) : Prop :=
  exists n : Z, (0 < n)%Z /\ Session.targetDuration s = Fin (inject_Z n).
End PlanSpec.

(** Relative deviation of a moving time of [mt] seconds from a target of
    [t] minutes. *)
Module ComplianceSpec.
Definition deviation (t mt : Q) : Q := Qabs (mt / 60 - t) / t.
End ComplianceSpec.

(** ** Further sample inputs *)

Module Samples2.
Import TcxParser.
Local Open Scope string_scope.



(** Three points five seconds apart without any heart rate. *)
Definition silentRun : RunData :=
  Samples.runOf
    [ {| time := Fin 0; lat := None; lng := None; altitude := None;
         distance := Some (Fin 0); hr := None |};
      {| time := Fin 5000; lat := None; lng := None; altitude := None;
         distance := Some (Fin 15); hr := None |};
      {| time := Fin 10000; lat := None; lng := None; altitude := None;
         distance := Some (Fin 30); hr := None |} ].

(** The first session of the c25k plan: twenty minutes. *)
Definition twentyMinutes : Session.t :=
  Plans.session "c25k_w1d1" 1 "W1D1: Intro" "60s run / 90s walk repeats" 20 2.

(** A run known by its moving time (seconds) and training effect only. *)
Definition runLasting (movingTime trainingEffect : Q) : RunData :=
  {| startTime := Fin 0; Types.points := []; laps := [];
     summary :=
       {| Summary.totalDistance := Fin 0; Summary.elapsedTime := Fin 0;
          Summary.movingTime := Fin movingTime; Summary.avgHR := Fin 0;
          Summary.maxHR := Fin 0; Summary.totalAscent := Fin 0;
          Summary.totalDescent := Fin 0; Summary.avgPace := Fin 0;
          Summary.maxPace := Fin 0; Summary.calories := Fin 0;
          Summary.fitnessScore := Fin 0; Summary.intensityFactor := Fin 0;
          Summary.variabilityIndex := Fin 1.05;
          Summary.aerobicEfficiency := Fin 0;
          Summary.movementRatio := Fin 0; Summary.vam := Fin 0;
          Summary.trainingEffect := Fin trainingEffect |} |}.

End Samples2.

From Stdlib Require SpecFloat.
(** * Further sample runs *)

Module MoreSamples.
Import Physiology Samples.
Local Open Scope js_scope.


(** 100 points with a stalled clock: the same time on every point, 10 m
    from one point to the next, 150 bpm. *)
Definition stalledPoint (i : nat) : TrackPoint :=
  {| time := Fin 0; lat := None; lng := None; altitude := None;
     distance := Some (Fin (inject_Z (Z.of_nat i) * 10 + 10));
     hr := Some (Fin 150) |}.

Definition stalledRun : RunData := runOf (map stalledPoint (seq 0 100)).

(** The steady run of 100 points in which the [Time] element of point 10
    is missing: its date is invalid and its time is NaN. *)
Definition undatedPoint (i : nat) : TrackPoint :=
  {| time := if Nat.eqb i 10 then NaN else time (steadyPoint i);
     lat := None; lng := None; altitude := None;
     distance := distance (steadyPoint i); hr := hr (steadyPoint i) |}.

Definition undatedRun : RunData := runOf (map undatedPoint (seq 0 100)).


End MoreSamples.

(** * Points of ordinary magnitude *)

Module GapSpec.
Local Open Scope Q_scope.


End GapSpec.

(** * Rounding to one decimal *)

Module RoundingSpec.


End RoundingSpec.

(** * Double precision

    The embedding above computes with exact rationals.  What the program
    decides by comparing a rounded quotient or product with a constant
    (is the speed above 0.5, which way does a boundary of 127.5 round)
    depends on the rounding of IEEE 754 double precision.  For these
    decisions the parser and the zone functions are embedded a second
    time, over binary64 numbers: the operations are those of [SpecFloat],
    with 53 bits of precision, round to nearest, ties to even. *)

Module F64.
Import SpecFloat.

Definition prec : Z := 53.
Definition emax : Z := 1024.

(** A JavaScript number: a binary64 value (NaN without payload). *)
Definition num : Type := spec_float.

Definition NaN : num := S754_nan.
Definition PInf : num := S754_infinity false.
Definition NInf : num := S754_infinity true.
Definition zero : num := S754_zero false.

Definition add : num -> num -> num := SFadd prec emax.
Definition sub : num -> num -> num := SFsub prec emax.
Definition mul : num -> num -> num := SFmul prec emax.
Definition div : num -> num -> num := SFdiv prec emax.

(** Comparisons: false as soon as one side is NaN; the two zeros are
    equal. *)
Definition lt : num -> num -> bool := SFltb.
Definition le : num -> num -> bool := SFleb.
Definition gt (x y : num) : bool := lt y x.
Definition ge (x y : num) : bool := le y x.
Definition eq : num -> num -> bool := SFeqb.

Definition isNaN (x : num) : bool :=
  match x with S754_nan => true | _ => false end.

(** Truthiness of a number: everything but the zeros and NaN. *)
Definition truthy (x : num) : bool := negb (isNaN x || eq x zero).

(** The double nearest to an integer, and to a rational: a decimal
    literal or a decimal text is read as the double nearest to its value,
    which is the correctly rounded quotient of its digits by the power of
    ten (both below 2^53 in this development). *)
Definition ofZ (z : Z) : num := binary_normalize prec emax z 0 false.
Definition lit (q : Q) : num := div (ofZ (Qnum q)) (ofZ (Zpos (Qden q))).
Definition ofNat (n : nat) : num := ofZ (Z.of_nat n).

Definition signed (s : bool) (m : positive) : Z :=
  if s then Zneg m else Zpos m.

(** [Math.round]: the nearest integer, a half going towards +infinity;
    a number without fractional bits is returned as it is, and a result
    of zero keeps the sign of the argument. *)
Definition round (x : num) : num :=
  match x with
  | S754_finite s m (Zneg p) =>
      match Z.shiftr (2 * signed s m + Z.shiftl 1 (Zpos p))
                     (Zpos (Pos.succ p)) with
      | Z0 => S754_zero s
      | n => ofZ n
      end
  | _ => x
  end.

Definition abs : num -> num := SFabs.

(** [Math.max] and [Math.min] on two arguments; +0 is above -0. *)
Definition max (x y : num) : num :=
  if isNaN x || isNaN y then NaN
  else if lt x y then y
  else if lt y x then x
  else match x with S754_zero true => y | _ => x end.

Definition min (x y : num) : num :=
  if isNaN x || isNaN y then NaN
  else if lt x y then x
  else if lt y x then y
  else match x with S754_zero true => x | _ => y end.

(** [isNaN(x) ? undefined : x], [x || 0] on a number and on an optional
    number, and an optional number read inside arithmetic. *)
Definition defined (x : num) : option num :=
  if isNaN x then None else Some x.

Definition orZero (x : num) : num := if truthy x then x else zero.

Definition or0 (x : option num) : num :=
  match x with
  | Some v => orZero v
  | None => zero
  end.

Definition truthy_opt (x : option num) : bool :=
  match x with Some v => truthy v | None => false end.

Definition val (x : option num) : num :=
  match x with Some v => v | None => NaN end.

(** The integer a double stands for, when it is one. *)
Definition toZ (x : num) : option Z :=
  match x with
  | S754_zero _ => Some 0%Z
  | S754_finite s m (Zneg p) =>
      let n := Z.shiftr (Zpos m) (Zpos p) in
      if Z.eqb (Z.shiftl n (Zpos p)) (Zpos m)
      then Some (if s then Z.opp n else n) else None
  | S754_finite s m e => Some (signed s m * 2 ^ e)%Z
  | _ => None
  end.

(** Two doubles with the same representation. *)
Definition same (x y : num) : bool :=
  match x, y with
  | S754_zero s, S754_zero s' => Bool.eqb s s'
  | S754_infinity s, S754_infinity s' => Bool.eqb s s'
  | S754_nan, S754_nan => true
  | S754_finite s m e, S754_finite s' m' e' =>
      Bool.eqb s s' && Pos.eqb m m' && Z.eqb e e'
  | _, _ => false
  end.

(** The order of the comparisons, as the lexicographic order of a key:
    the class of the number, then exponent and digits (negated for a
    negative number). *)
Definition rank (x : num) : Z * (Z * Z) :=
  match x with
  | S754_infinity true => (-2, (0, 0))%Z
  | S754_finite true m e => (-1, (- e, Zneg m))%Z
  | S754_zero _ => (0, (0, 0))%Z
  | S754_nan => (0, (0, 0))%Z
  | S754_finite false m e => (1, (e, Zpos m))%Z
  | S754_infinity false => (2, (0, 0))%Z
  end.

Definition lexcmp (a b : Z * (Z * Z)) : comparison :=
  match Z.compare (fst a) (fst b) with
  | Eq =>
      match Z.compare (fst (snd a)) (fst (snd b)) with
      | Eq => Z.compare (snd (snd a)) (snd (snd b))
      | c => c
      end
  | c => c
  end.

End F64.

Declare Scope f64_scope.
Delimit Scope f64_scope with f64.
Infix "+" := F64.add : f64_scope.
Infix "-" := F64.sub : f64_scope.
Infix "*" := F64.mul : f64_scope.
Infix "/" := F64.div : f64_scope.
Infix "<?" := F64.lt : f64_scope.
Infix "<=?" := F64.le : f64_scope.
Infix ">?" := F64.gt : f64_scope.
Infix ">=?" := F64.ge : f64_scope.
Infix "===" := F64.eq (at level 70, no associativity) : f64_scope.
Coercion F64.lit : Q >-> F64.num.

Module Double.
Import F64.
Local Open Scope f64_scope.

(** ** Types (types.ts), over doubles *)

Module Types.

Record UserSettings : Type := {
  maxHR : num;
  restingHR : num;
  method : HRZoneMethod
}.

Record TrackPoint : Type := {
  time : num;
  lat : option num;
  lng : option num;
  altitude : option num;
  distance : option num;
  hr : option num
}.

Record Lap : Type := {
  lap_id : num;
  lap_distance : num;
  lap_time : num;
  lap_avgPace : num;
  lap_avgHR : num
}.

Module Summary.
Record t : Type := {
  totalDistance : num;
  elapsedTime : num;
  movingTime : num;
  avgHR : num;
  maxHR : num;
  totalAscent : num;
  totalDescent : num;
  avgPace : num;
  maxPace : num;
  calories : num;
  fitnessScore : num;
  intensityFactor : num;
  variabilityIndex : num;
  aerobicEfficiency : num;
  movementRatio : num;
  vam : num;
  trainingEffect : num
}.
End Summary.

Record RunData : Type := {
  startTime : num;
  points : list TrackPoint;
  laps : list Lap;
  summary : Summary.t
}.

Record HRZoneDistribution : Type := {
  zone : nat;
  label : string;
  zmin : num;
  zmax : num;
  seconds : num;
  percentage : num
}.

Record Zone : Type := {
  z_label : string;
  z_min : num;
  z_max : num
}.

End Types.

Import Types.

Fixpoint pairLoop {S : Type} (body : S -> TrackPoint -> TrackPoint -> S)
    (prev : TrackPoint) (rest : list TrackPoint) (s : S) : S :=
  match rest with
  | [] => s
  | p :: tl => pairLoop body p tl (body s prev p)
  end.

Definition forPairs {S : Type} (body : S -> TrackPoint -> TrackPoint -> S)
    (pts : list TrackPoint) (s : S) : S :=
  match pts with
  | [] => s
  | p0 :: tl => pairLoop body p0 tl s
  end.

(** ** physiology.ts: the zones and their distribution *)

Module Physiology.
Local Open Scope string_scope.
Local Open Scope f64_scope.

(** [calculateZones]. *)
Definition calculateZones (settings : UserSettings) : list Zone :=
  let maxHR := maxHR settings in
  let restingHR := restingHR settings in
  let hrReserve := maxHR - restingHR in
  match method settings with
  | KARVONEN =>
    [ {| z_label := "Z1 Recovery";
         z_min := round (restingHR + hrReserve * 0.50);
         z_max := round (restingHR + hrReserve * 0.60) |};
      {| z_label := "Z2 Aerobic";
         z_min := round (restingHR + hrReserve * 0.60);
         z_max := round (restingHR + hrReserve * 0.70) |};
      {| z_label := "Z3 Tempo";
         z_min := round (restingHR + hrReserve * 0.70);
         z_max := round (restingHR + hrReserve * 0.80) |};
      {| z_label := "Z4 Threshold";
         z_min := round (restingHR + hrReserve * 0.80);
         z_max := round (restingHR + hrReserve * 0.90) |};
      {| z_label := "Z5 Anaerobic";
         z_min := round (restingHR + hrReserve * 0.90);
         z_max := maxHR |} ]
  | MAX_HR =>
    [ {| z_label := "Z1 Recovery";
         z_min := round (maxHR * 0.50);
         z_max := round (maxHR * 0.60) |};
      {| z_label := "Z2 Aerobic";
         z_min := round (maxHR * 0.60);
         z_max := round (maxHR * 0.70) |};
      {| z_label := "Z3 Tempo";
         z_min := round (maxHR * 0.70);
         z_max := round (maxHR * 0.80) |};
      {| z_label := "Z4 Threshold";
         z_min := round (maxHR * 0.80);
         z_max := round (maxHR * 0.90) |};
      {| z_label := "Z5 Anaerobic";
         z_min := round (maxHR * 0.90);
         z_max := maxHR |} ]
  end.

(** The [min] and [max] of each zone. *)
Definition bandsOf (zs : list Zone) : list (num * num) :=
  map (fun z => (z_min z, z_max z)) zs.

(** [getZoneDistribution]; [mapi_from] and [findIndex] are the array
    operations of the exact embedding. *)
Definition addSecondsTo (d : HRZoneDistribution) (duration : num)
    : HRZoneDistribution :=
  {| zone := zone d; label := label d; zmin := zmin d; zmax := zmax d;
     seconds := seconds d + duration; percentage := percentage d |}.

(** [distribution[idx].seconds += duration]. *)
Fixpoint addSeconds (idx : nat) (duration : num)
    (distribution : list HRZoneDistribution) : list HRZoneDistribution :=
  match distribution, idx with
  | [], _ => []
  | d :: tl, O => addSecondsTo d duration :: tl
  | d :: tl, Datatypes.S k => d :: addSeconds k duration tl
  end.

Record ZoneAcc : Type := {
  distribution : list HRZoneDistribution;
  totalValidSeconds : num
}.

Definition initDistribution (zones : list Zone) : list HRZoneDistribution :=
  Physiology.mapi_from (fun z i =>
    {| zone := i + 1; label := z_label z; zmin := z_min z; zmax := z_max z;
       seconds := 0; percentage := 0 |}) O zones.

Definition zoneBody (settings : UserSettings) (a : ZoneAcc)
    (p1 p2 : TrackPoint) : ZoneAcc :=
  if truthy_opt (hr p1) && truthy_opt (hr p2) then
    let avgHr := (val (hr p1) + val (hr p2)) / 2 in
    let duration := (time p2 - time p1) / 1000 in
    if (duration >? 0) && (duration <? 30) then
      let total := totalValidSeconds a + duration in
      match Physiology.findIndex
              (fun d => (avgHr >=? zmin d) && (avgHr <? zmax d + 1))
              (distribution a) with
      | Some zoneIdx =>
          {| distribution := addSeconds zoneIdx duration (distribution a);
             totalValidSeconds := total |}
      | None =>
          if avgHr >=? maxHR settings then
            {| distribution :=
                 addSeconds (List.length (distribution a) - 1) duration
                   (distribution a);
               totalValidSeconds := total |}
          else {| distribution := distribution a; totalValidSeconds := total |}
      end
    else a
  else a.

(** The state after the loop over the consecutive pairs of [points]. *)
Definition zoneLoop (points : list TrackPoint) (settings : UserSettings)
    : ZoneAcc :=
  forPairs (zoneBody settings) points
    {| distribution := initDistribution (calculateZones settings);
       totalValidSeconds := 0 |}.

Definition withPercentage (total : num) (d : HRZoneDistribution)
    : HRZoneDistribution :=
  {| zone := zone d; label := label d; zmin := zmin d; zmax := zmax d;
     seconds := seconds d;
     percentage := if total >? 0 then (seconds d / total) * 100 else 0 |}.

Definition getZoneDistribution (run : RunData) (settings : UserSettings)
    : list HRZoneDistribution :=
  let a := zoneLoop (points run) settings in
  map (withPercentage (totalValidSeconds a)) (distribution a).

(** [dist[k].seconds] (NaN out of range, where the program would throw;
    the distribution always has five entries). *)
Definition secondsAt (k : nat) (dist : list HRZoneDistribution) : num :=
  match nth_error dist k with
  | Some d => seconds d
  | None => NaN
  end.

(** [calculateTrainingEffect], from the seconds in zones 3, 4 and 5. *)
Definition effectOfZoneSeconds (z3 z4 z5 : num) : num :=
  let score := (z3 * 0.5 + z4 * 1.5 + z5 * 3.0) / 60 in
  let effect :=
    if score <? 10 then 1.0 + score / 10
    else if score <? 30 then 2.0 + (score - 10) / 20
    else if score <? 60 then 3.0 + (score - 30) / 30
    else if score <? 120 then 4.0 + (score - 60) / 60
    else 5.0 in
  F64.min 5.0 (round (effect * 10) / 10).

Definition calculateTrainingEffect (run : RunData) (settings : UserSettings)
    : num :=
  let dist := getZoneDistribution run settings in
  let z3 := secondsAt 2 dist in
  let z4 := secondsAt 3 dist in
  let z5 := secondsAt 4 dist in
  effectOfZoneSeconds z3 z4 z5.

End Physiology.

(** ** tcxParser.ts *)

Module TcxParser.
Local Open Scope f64_scope.

(** One [Trackpoint] element, as the six parse expressions of the loop
    body see it (NaN for a missing or unreadable element). *)
Record RawTrackpoint : Type := {
  r_time : num;
  r_lat : num;
  r_lng : num;
  r_altitude : num;
  r_distance : num;
  r_hr : num
}.

(** The variables the loop updates. *)
Record Acc : Type := {
  points : list TrackPoint;
  totalAscent : num;
  totalDescent : num;
  lastAlt : option num;
  maxHR : num;
  hrSum : num;
  hrCount : nat;
  movingTime : num;
  maxPace : num
}.

Definition init : Acc :=
  {| points := []; totalAscent := 0; totalDescent := 0; lastAlt := None;
     maxHR := 0; hrSum := 0; hrCount := 0; movingTime := 0; maxPace := 0 |}.

Definition lastPoint (pts : list TrackPoint) : option TrackPoint :=
  nth_error pts (List.length pts - 1).

(** The [if (i > 0)] block, for a known previous point. *)
Definition withPrev (st : Acc) (prev : TrackPoint) (tp : RawTrackpoint)
    : Acc :=
  let timeDiff := (r_time tp - time prev) / 1000 in
  let distDiff := orZero (r_distance tp) - or0 (distance prev) in
  let '(movingTime', maxPace') :=
    if (timeDiff >? 0) && (timeDiff <? 15) then
      let movingTime' :=
        if distDiff / timeDiff >? 0.5 then movingTime st + timeDiff
        else movingTime st in
      let currentPace := timeDiff / (distDiff / 1000) in
      let maxPace' :=
        if (currentPace >? 120) && (currentPace <? 1200) then
          if (maxPace st === 0) || (currentPace <? maxPace st)
          then currentPace else maxPace st
        else maxPace st in
      (movingTime', maxPace')
    else (movingTime st, maxPace st) in
  let altitude := r_altitude tp in
  let '(totalAscent', totalDescent') :=
    match lastAlt st with
    | Some lastAlt =>
        if negb (isNaN altitude) then
          let diff := altitude - lastAlt in
          if diff >? 0 then (totalAscent st + diff, totalDescent st)
          else if diff <? 0 then (totalAscent st, totalDescent st + abs diff)
          else (totalAscent st, totalDescent st)
        else (totalAscent st, totalDescent st)
    | None => (totalAscent st, totalDescent st)
    end in
  {| points := points st;
     totalAscent := totalAscent';
     totalDescent := totalDescent';
     lastAlt := lastAlt st;
     maxHR := maxHR st;
     hrSum := hrSum st;
     hrCount := hrCount st;
     movingTime := movingTime';
     maxPace := maxPace' |}.

(** The [point] object built from a [Trackpoint] element. *)
Definition toPoint (tp : RawTrackpoint) : TrackPoint :=
  {| time := r_time tp;
     lat := defined (r_lat tp);
     lng := defined (r_lng tp);
     altitude := defined (r_altitude tp);
     distance := defined (r_distance tp);
     hr := defined (r_hr tp) |}.

(** The body of [trackpoints.forEach((tp, i) => ...)].  [None] is the
    [TypeError] of reading [prev.time] when [points] is empty. *)
Definition onTrackpoint (st : Acc) (tp : RawTrackpoint) (i : nat)
    : option Acc :=
  let point := toPoint tp in
  let st1 :=
    if Nat.ltb 0 i then
      match lastPoint (points st) with
      | Some prev => Some (withPrev st prev tp)
      | None => None
      end
    else Some st in
  match st1 with
  | None => None
  | Some st1 =>
    let hasHr := negb (isNaN (r_hr tp)) in
    Some
      {| points := points st1 ++ [point];
         totalAscent := totalAscent st1;
         totalDescent := totalDescent st1;
         lastAlt :=
           if negb (isNaN (r_altitude tp)) then Some (r_altitude tp)
           else lastAlt st1;
         maxHR := if hasHr then F64.max (maxHR st1) (r_hr tp) else maxHR st1;
         hrSum := if hasHr then hrSum st1 + r_hr tp else hrSum st1;
         hrCount := if hasHr then Datatypes.S (hrCount st1) else hrCount st1;
         movingTime := movingTime st1;
         maxPace := maxPace st1 |}
  end.

Fixpoint forEachFrom (i : nat) (trackpoints : list RawTrackpoint) (st : Acc)
    : option Acc :=
  match trackpoints with
  | [] => Some st
  | tp :: tl =>
      match onTrackpoint st tp i with
      | Some st' => forEachFrom (Datatypes.S i) tl st'
      | None => None
      end
  end.

(** The statements after the loop. *)
Definition finish (now1 now2 : num) (st : Acc) : RunData :=
  let points := points st in
  let totalDistance :=
    match lastPoint points with
    | Some p => or0 (distance p)
    | None => 0
    end in
  let startTime :=
    match nth_error points 0 with Some p => time p | None => now1 end in
  let endTime :=
    match lastPoint points with Some p => time p | None => now2 end in
  let elapsedTime := (endTime - startTime) / 1000 in
  let movingTime := movingTime st in
  let hrSum := hrSum st in
  let avgHR := if Nat.ltb 0 (hrCount st) then hrSum / ofNat (hrCount st)
               else 0 in
  let avgPace :=
    if movingTime >? 0 then movingTime / (totalDistance / 1000) else 0 in
  let aerobicEfficiency :=
    if avgHR >? 0 then (totalDistance / hrSum) * 100 else 0 in
  let movementRatio :=
    if elapsedTime >? 0 then (movingTime / elapsedTime) * 100 else 0 in
  let vam :=
    if movingTime >? 0 then (totalAscent st / movingTime) * 3600 else 0 in
  let thresholdPace : num := 300 in
  let intensityFactor :=
    if avgPace >? 0 then thresholdPace / avgPace else 0 in
  {| startTime := startTime;
     Types.points := points;
     laps := [];
     summary :=
       {| Summary.totalDistance := totalDistance;
          Summary.elapsedTime := elapsedTime;
          Summary.movingTime := movingTime;
          Summary.avgHR := round avgHR;
          Summary.maxHR := maxHR st;
          Summary.totalAscent := totalAscent st;
          Summary.totalDescent := totalDescent st;
          Summary.avgPace := avgPace;
          Summary.maxPace := maxPace st;
          Summary.calories := round ((totalDistance / 1000) * 70);
          Summary.fitnessScore := round ((avgHR * (movingTime / 3600)) / 10);
          Summary.intensityFactor := intensityFactor;
          Summary.variabilityIndex := 1.05;
          Summary.aerobicEfficiency := aerobicEfficiency;
          Summary.movementRatio := movementRatio;
          Summary.vam := vam;
          Summary.trainingEffect := 0 |} |}.

(** [parseTCX], from the list of [Trackpoint] elements of the document;
    [now1] and [now2] are the two clock readings used for a run without
    points. *)
Definition parseTCX (now1 now2 : num) (trackpoints : list RawTrackpoint)
    : promise RunData :=
  match forEachFrom 0 trackpoints init with
  | Some st => Resolved (finish now1 now2 st)
  | None => Rejected "TypeError"
  end.

End TcxParser.

(** ** The rules of the specification, over doubles

    What the specification says about moving time and about the time in
    each zone, written from its words and independently of the functions
    above: a left-to-right sum over the consecutive pairs. *)

Module MovingRule.
Import TcxParser.
Local Open Scope f64_scope.

(** The time between two trackpoints, in seconds. *)
Definition elapsed (a b : RawTrackpoint) : num :=
  (r_time b - r_time a) / 1000.

(** The distance read at a trackpoint, 0 when there is none. *)
Definition metres (a : RawTrackpoint) : num :=
  if isNaN (r_distance a) then zero
  else if r_distance a === zero then zero
  else r_distance a.

(** The average speed between two trackpoints, in m/s. *)
Definition speed (a b : RawTrackpoint) : num :=
  (metres b - metres a) / elapsed a b.

(** The pair counts as movement: more than 0 and less than 15 seconds
    apart, faster than 0.5 m/s. *)
Definition moving (a b : RawTrackpoint) : bool :=
  (zero <? elapsed a b) && (elapsed a b <? 15) && (0.5 <? speed a b).

Fixpoint movingFrom (prev : RawTrackpoint) (rest : list RawTrackpoint)
    (total : num) : num :=
  match rest with
  | [] => total
  | tp :: tl =>
      movingFrom tp tl
        (if moving prev tp then total + elapsed prev tp else total)
  end.

(** The moving time of a track. *)
Definition movingSeconds (trackpoints : list RawTrackpoint) : num :=
  match trackpoints with
  | [] => zero
  | tp :: tl => movingFrom tp tl zero
  end.

End MovingRule.

Module PaceRule.
Import TcxParser MovingRule.
Local Open Scope f64_scope.

(** The pace between two trackpoints, in s/km. *)
Definition pace (a b : RawTrackpoint) : num :=
  elapsed a b / ((metres b - metres a) / 1000).

(** The pair enters the fastest pace: more than 0 and less than 15
    seconds apart, at a pace above 120 and below 1200 s/km. *)
Definition qualifies (a b : RawTrackpoint) : bool :=
  (zero <? elapsed a b) && (elapsed a b <? 15)
  && ((120 <? pace a b) && (pace a b <? 1200)).

(** The paces of the qualifying pairs, in the order of the track. *)
Fixpoint pacesFrom (prev : RawTrackpoint) (rest : list RawTrackpoint)
    : list num :=
  match rest with
  | [] => []
  | tp :: tl =>
      (if qualifies prev tp then [pace prev tp] else []) ++ pacesFrom tp tl
  end.

Definition paces (trackpoints : list RawTrackpoint) : list num :=
  match trackpoints with
  | [] => []
  | tp :: tl => pacesFrom tp tl
  end.

(** [m] is the fastest of the paces [l]: 0 when there is none, otherwise
    one of them that none of them is below. *)
Definition fastest (l : list num) (m : num) : Prop :=
  (l = [] /\ m = zero) \/
  (In m l /\ Forall (fun p => (m <=? p) = true) l).

End PaceRule.

Module ZoneRule.
Local Open Scope f64_scope.

(** The sample carries a heart rate: a number other than 0. *)
Definition carries (p : TrackPoint) : bool :=
  match hr p with
  | Some h => negb (isNaN h) && negb (h === zero)
  | None => false
  end.

Definition heartRate (p : TrackPoint) : num :=
  match hr p with
  | Some h => h
  | None => NaN
  end.

(** The average heart rate and the time delta of a pair. *)
Definition average (p1 p2 : TrackPoint) : num :=
  (heartRate p1 + heartRate p2) / 2.

Definition delta (p1 p2 : TrackPoint) : num :=
  (time p2 - time p1) / 1000.

(** The pair is counted: both samples carry a heart rate and the delta is
    strictly between 0 and 30 seconds. *)
Definition counted (p1 p2 : TrackPoint) : bool :=
  carries p1 && carries p2
  && (zero <? delta p1 p2) && (delta p1 p2 <? 30).

(** The interval [[min, max + 1)] of a zone holds the average. *)
Definition holds (avg : num) (band : num * num) : bool :=
  (fst band <=? avg) && (avg <? snd band + 1).

(** The first zone of the list whose interval holds the average. *)
Fixpoint firstHolding (avg : num) (bands : list (num * num)) : option nat :=
  match bands with
  | [] => None
  | b :: tl =>
      if holds avg b then Some O
      else match firstHolding avg tl with
           | Some k => Some (Datatypes.S k)
           | None => None
           end
  end.

(** The zone an average is credited to (numbered from 0): the first zone
    holding it; zone 5 when none holds it and it is at or above [maxHR];
    otherwise none. *)
Definition zoneOf (bands : list (num * num)) (maxHR : num) (avg : num)
    : option nat :=
  match firstHolding avg bands with
  | Some k => Some k
  | None => if maxHR <=? avg then Some 4%nat else None
  end.

(** The pair is counted and credited to zone [k]. *)
Definition credited (bands : list (num * num)) (maxHR : num) (k : nat)
    (p1 p2 : TrackPoint) : bool :=
  counted p1 p2 &&
  match zoneOf bands maxHR (average p1 p2) with
  | Some j => Nat.eqb j k
  | None => false
  end.

(** The deltas of the consecutive pairs selected by [f], added from left
    to right. *)
Fixpoint secondsFrom (f : TrackPoint -> TrackPoint -> bool)
    (prev : TrackPoint) (rest : list TrackPoint) (total : num) : num :=
  match rest with
  | [] => total
  | p :: tl =>
      secondsFrom f p tl (if f prev p then total + delta prev p else total)
  end.

Definition secondsOf (f : TrackPoint -> TrackPoint -> bool)
    (pts : list TrackPoint) : num :=
  match pts with
  | [] => zero
  | p :: tl => secondsFrom f p tl zero
  end.

Definition zoneSeconds (bands : list (num * num)) (maxHR : num) (k : nat)
    (pts : list TrackPoint) : num :=
  secondsOf (credited bands maxHR k) pts.

Definition countedSeconds (pts : list TrackPoint) : num :=
  secondsOf counted pts.

(** The share of a zone, as [getZoneDistribution] reports it. *)
Definition share (total secs : num) : num :=
  if zero <? total then (secs / total) * 100 else zero.

(** The intervals of a distribution. *)
Definition intervals (dist : list HRZoneDistribution) : list (num * num) :=
  map (fun d => (zmin d, zmax d)) dist.

(** The consecutive pairs of a list. *)
Fixpoint pairsFrom (prev : TrackPoint) (rest : list TrackPoint)
    : list (TrackPoint * TrackPoint) :=
  match rest with
  | [] => []
  | p :: tl => (prev, p) :: pairsFrom p tl
  end.

Definition consecutive (pts : list TrackPoint)
    : list (TrackPoint * TrackPoint) :=
  match pts with
  | [] => []
  | p :: tl => pairsFrom p tl
  end.

End ZoneRule.

(** ** Settings with whole heart rates

    The zone boundaries of [calculateZones] for whole numbers of beats
    per minute are checked by evaluation, one pair of settings after the
    other. *)

Module Grid.
Local Open Scope f64_scope.

Definition settingsOf (k : HRZoneMethod) (m r : Z) : UserSettings :=
  {| maxHR := ofZ m; restingHR := ofZ r; method := k |}.

(** The literals of [calculateZones], as doubles. *)
Definition c50 : num := Eval vm_compute in lit 0.50.
Definition c60 : num := Eval vm_compute in lit 0.60.
Definition c70 : num := Eval vm_compute in lit 0.70.
Definition c80 : num := Eval vm_compute in lit 0.80.
Definition c90 : num := Eval vm_compute in lit 0.90.
Definition one : num := Eval vm_compute in lit 1.

(** The five lower bounds and the top bound. *)
Definition chainOf (k : HRZoneMethod) (m r : num) : list num :=
  match k with
  | KARVONEN =>
      let d := m - r in
      [round (r + d * c50); round (r + d * c60); round (r + d * c70);
       round (r + d * c80); round (r + d * c90); m]
  | MAX_HR =>
      [round (m * c50); round (m * c60); round (m * c70);
       round (m * c80); round (m * c90); m]
  end.

Fixpoint bandsOfChain (c : list num) : list (num * num) :=
  match c with
  | a :: (b :: _) as tl => (a, b) :: bandsOfChain tl
  | _ => []
  end.

(** The boundary of the specification, in exact arithmetic. *)
Definition boundary (k : HRZoneMethod) (m r : Z) (p : Q) : Q :=
  match k with
  | KARVONEN => inject_Z r + (inject_Z m - inject_Z r) * p
  | MAX_HR => inject_Z m * p
  end.

(** [x] is a whole number at most 1/2 away from the boundary. *)
Definition nearby (k : HRZoneMethod) (m r : Z) (p : Q) (x : num) : bool :=
  match toZ x with
  | Some b => Qle_bool (Qabs (inject_Z b - boundary k m r p)) (1 # 2)
  | None => false
  end.

(** Zones [i] and [i + 1]: the lower one is not empty, the upper one
    starts where the lower one ends and ends no earlier, and when the
    lower one is at least one unit wide every zone before it ends a unit
    before it does. *)
Definition pairOk (bands : list (num * num)) (i : nat) : bool :=
  match nth_error bands i, nth_error bands (Datatypes.S i) with
  | Some lower, Some upper =>
      le (fst lower) (snd lower) && le (fst upper) (snd lower)
      && le (snd lower + one) (snd upper + one)
      && (negb (le (fst lower + one) (snd lower))
          || forallb (fun k => match nth_error bands k with
                               | Some z => le (snd z + one) (snd lower)
                               | None => true
                               end) (seq 0 i))
  | _, _ => false
  end.

Definition bandsOk (bands : list (num * num)) : bool :=
  forallb (pairOk bands) [0; 1; 2; 3]%nat.

Definition chainOk (k : HRZoneMethod) (m r : Z) : bool :=
  match chainOf k (ofZ m) (ofZ r) with
  | [b1; b2; b3; b4; b5; top] as c =>
      nearby k m r 0.50 b1 && nearby k m r 0.60 b2 && nearby k m r 0.70 b3
      && nearby k m r 0.80 b4 && nearby k m r 0.90 b5
      && bandsOk (bandsOfChain c)
  | _ => false
  end.

Definition upto (n : nat) : list Z := map Z.of_nat (seq 0 (Datatypes.S n)).

(** All settings with [0 <= r <= m <= n]. *)
Definition grid (k : HRZoneMethod) (n : nat) : bool :=
  forallb (fun m =>
             forallb (fun r => chainOk k m r)
                     (filter (fun r => (r <=? m)%Z) (upto n)))
          (upto n).

(** With [MAX_HR] the resting heart rate plays no part: all settings with
    [0 <= m <= n]. *)
Definition line (n : nat) : bool :=
  forallb (fun m => chainOk MAX_HR m 0) (upto n).

End Grid.

(** ** Sample tracks and runs, over doubles *)

Module Samples.
Import TcxParser.
Local Open Scope f64_scope.

(** A trackpoint with a time (in ms) and a distance only. *)
Definition rawAt (ms : Z) (metres : Q) : RawTrackpoint :=
  {| r_time := ofZ ms; r_lat := NaN; r_lng := NaN; r_altitude := NaN;
     r_distance := lit metres; r_hr := NaN |}.

(** Half a metre in one second, from 0.6 m to 1.1 m. *)
Definition halfMetreTrack : list RawTrackpoint :=
  [rawAt 0 0.6; rawAt 1000 1.1].

(** 100 m in 14 and in 15 seconds. *)
Definition fourteenSeconds : list RawTrackpoint :=
  [rawAt 0 0; rawAt 14000 100].

Definition fifteenSeconds : list RawTrackpoint :=
  [rawAt 0 0; rawAt 15000 100].

(** A sample with a time (in ms) and a heart rate only. *)
Definition beat (ms bpm : Z) : TrackPoint :=
  {| time := ofZ ms; lat := None; lng := None; altitude := None;
     distance := None; hr := Some (ofZ bpm) |}.

Definition noSummary : Summary.t :=
  {| Summary.totalDistance := zero; Summary.elapsedTime := zero;
     Summary.movingTime := zero; Summary.avgHR := zero;
     Summary.maxHR := zero; Summary.totalAscent := zero;
     Summary.totalDescent := zero; Summary.avgPace := zero;
     Summary.maxPace := zero; Summary.calories := zero;
     Summary.fitnessScore := zero; Summary.intensityFactor := zero;
     Summary.variabilityIndex := zero; Summary.aerobicEfficiency := zero;
     Summary.movementRatio := zero; Summary.vam := zero;
     Summary.trainingEffect := zero |}.

Definition runOf (pts : list TrackPoint) : RunData :=
  {| startTime := zero; Types.points := pts; laps := [];
     summary := noSummary |}.

(** [n] samples at a constant heart rate, [step] ms apart. *)
Definition paced (n : nat) (step bpm : Z) : RunData :=
  runOf (map (fun i => beat (step * Z.of_nat i) bpm) (seq 0 n)).

(** A run at a constant heart rate, one sample per second. *)
Definition steadyAt (bpm : Z) (n : nat) : RunData :=
  runOf (map (fun i => beat (1000 * Z.of_nat i) bpm) (seq 0 n)).

End Samples.

End Double.
(** ** Facts about numbers *)

Module NumFacts.
Local Open Scope js_scope.

Lemma Qltb_iff (a b : Q) : Qltb a b = true <-> (a < b)%Q.
Proof.
  unfold Qltb. rewrite Qlt_alt. destruct (a ?= b)%Q; split; congruence.
Qed.

Lemma Qltb_false_iff (a b : Q) : Qltb a b = false <-> (b <= a)%Q.
Proof.
  split; intro H.
  - apply Qnot_lt_le. intro L. apply Qltb_iff in L. congruence.
  - destruct (Qltb a b) eqn:E; [| reflexivity].
    apply Qltb_iff in E. exfalso. apply (Qlt_not_le _ _ E H).
Qed.

Lemma Qle_bool_false_iff (a b : Q) : Qle_bool a b = false <-> (b < a)%Q.
Proof.
  split; intro H.
  - apply Qnot_le_lt. intro L. apply Qle_bool_iff in L. congruence.
  - destruct (Qle_bool a b) eqn:E; [| reflexivity].
    apply Qle_bool_iff in E. exfalso. apply (Qlt_not_le _ _ H E).
Qed.

Lemma Qeq_bool_false_iff (a b : Q) : Qeq_bool a b = false <-> ~ (a == b)%Q.
Proof.
  split; intro H.
  - intro E. apply Qeq_bool_iff in E. congruence.
  - destruct (Qeq_bool a b) eqn:E; [| reflexivity].
    apply Qeq_bool_iff in E. contradiction.
Qed.

Lemma lt_Fin (a b : Q) : (Fin a <? Fin b) = Qltb a b.
Proof. reflexivity. Qed.

Lemma le_Fin (a b : Q) : (Fin a <=? Fin b) = Qle_bool a b.
Proof. reflexivity. Qed.

(** A number strictly between two rationals is finite. *)
Lemma between_finite (x : num) (a b : Q) :
  (x >? a) = true -> (x <? b) = true ->
  exists q, x = Fin q /\ (a < q)%Q /\ (q < b)%Q.
Proof.
  destruct x as [q | | |]; simpl; try discriminate.
  unfold gt, lit. simpl. intros Ha Hb.
  exists q. rewrite Qltb_iff in Ha, Hb. auto.
Qed.

Lemma div_Fin (a b : Q) : ~ (b == 0)%Q -> Fin a / Fin b = Fin (a / b).
Proof.
  intro H. simpl. apply Qeq_bool_false_iff in H. now rewrite H.
Qed.

(** Boolean comparisons of rationals as propositions. *)
Ltac reflect_Q :=
  repeat match goal with
  | H : Qle_bool _ _ = true |- _ => apply Qle_bool_iff in H
  | H : Qle_bool _ _ = false |- _ => apply Qle_bool_false_iff in H
  | H : Qltb _ _ = true |- _ => apply Qltb_iff in H
  | H : Qltb _ _ = false |- _ => apply Qltb_false_iff in H
  | H : Qeq_bool _ _ = true |- _ => apply Qeq_bool_iff in H
  | H : Qeq_bool _ _ = false |- _ => apply Qeq_bool_false_iff in H
  end.

(** Linear arithmetic after turning divisions by a constant into
    multiplications. *)
Ltac inv_consts :=
  unfold Qdiv in *;
  repeat match goal with
  | |- context [Qinv (Qmake ?n ?d)] =>
      let v := eval vm_compute in (Qinv (Qmake n d)) in
      change (Qinv (Qmake n d)) with v
  | H : context [Qinv (Qmake ?n ?d)] |- _ =>
      let v := eval vm_compute in (Qinv (Qmake n d)) in
      change (Qinv (Qmake n d)) with v in H
  end.
Ltac lraq := inv_consts; lra.

Lemma finite_Fin (x : num) : finite x -> x = Fin (qval x).
Proof. destruct x; simpl; intros H; try contradiction; reflexivity. Qed.

End NumFacts.

Import NumFacts.

Module GapFacts.
Import Physiology Samples MoreSamples GapSpec.
Local Open Scope js_scope.








End GapFacts.

Module ZoneFacts.
Import Physiology.
Local Open Scope js_scope.

Lemma nearest_round (x : Q) : nearest x (Qfloor (x + (1 # 2))).
Proof.
  unfold nearest.
  pose proof (Qfloor_le (x + (1 # 2))) as Hl.
  pose proof (Qlt_floor (x + (1 # 2))) as Hu.
  rewrite inject_Z_plus in Hu. change (inject_Z 1) with 1%Q in Hu.
  split; lra.
Qed.


End ZoneFacts.

Module ZoneLoopFacts.
Import Physiology ZoneSpec.
Local Open Scope js_scope.

Lemma findIndex_bounds (avgHr : num) (D D' : list HRZoneDistribution) :
  boundsD D = boundsD D' ->
  findIndex (inZone avgHr) D = findIndex (inZone avgHr) D'.
Proof.
  revert D'. induction D as [| d D IH]; intros [| d' D'] H;
    try discriminate; [reflexivity |].
  simpl in H. injection H as Hmin Hmax Htl.
  simpl. unfold inZone at 1 3. rewrite Hmin, Hmax.
  now rewrite (IH D' Htl).
Qed.

Lemma boundsD_addSeconds (j : nat) (x : num) (D : list HRZoneDistribution) :
  boundsD (addSeconds j x D) = boundsD D.
Proof.
  revert j. induction D as [| d D IH]; intros [| j]; simpl; auto.
  now rewrite IH.
Qed.

Lemma secondsAt_addSeconds (j k : nat) (x : num)
    (D : list HRZoneDistribution) :
  secondsAt k (addSeconds j x D) =
  if Nat.eqb j k && Nat.ltb k (List.length D) then secondsAt k D + x
  else secondsAt k D.
Proof.
  revert j k. induction D as [| d D IH]; intros j k.
  - destruct j, k; simpl; rewrite ?andb_false_r; reflexivity.
  - destruct j as [| j], k as [| k]; try reflexivity.
    change (secondsAt k (addSeconds j x D) =
            if Nat.eqb j k && Nat.ltb k (List.length D)
            then secondsAt k D + x else secondsAt k D).
    apply IH.
Qed.

Lemma boundsD_mapi_from (f : Zone -> nat -> HRZoneDistribution)
    (zs : list Zone) (i : nat) :
  (forall z j, zmin (f z j) = z_min z /\ zmax (f z j) = z_max z) ->
  boundsD (mapi_from f i zs) = bandsOf zs.
Proof.
  intro Hf. revert i.
  induction zs as [| z zs IH]; intro i; simpl; auto.
  rewrite IH. destruct (Hf z i) as [-> ->]. reflexivity.
Qed.

Lemma boundsD_init (zs : list Zone) :
  boundsD (initDistribution zs) = bandsOf zs.
Proof. apply boundsD_mapi_from. intros; split; reflexivity. Qed.

Lemma calculateZones_length (settings : UserSettings) :
  List.length (calculateZones settings) = 5%nat.
Proof. unfold calculateZones. destruct (method settings); reflexivity. Qed.

Lemma boundsD_length (D D' : list HRZoneDistribution) :
  boundsD D = boundsD D' -> List.length D = List.length D'.
Proof.
  intro H. apply (f_equal (@List.length _)) in H.
  unfold boundsD in H. now rewrite !length_map in H.
Qed.

Lemma init_length (settings : UserSettings) :
  List.length (initDistribution (calculateZones settings)) = 5%nat.
Proof.
  pose proof (boundsD_init (calculateZones settings)) as H.
  apply (f_equal (@List.length _)) in H.
  unfold boundsD, bandsOf in H. rewrite !length_map in H.
  now rewrite H, calculateZones_length.
Qed.

(** One turn of the loop, on a state whose zones are those of the
    settings. *)
Lemma zoneBody_spec (settings : UserSettings) (a : ZoneAcc)
    (p1 p2 : TrackPoint) :
  boundsD (distribution a) =
  boundsD (initDistribution (calculateZones settings)) ->
  zoneBody settings a p1 p2 =
  if counted p1 p2 then
    {| distribution :=
         match creditedZone settings (pairAvgHr p1 p2) with
         | Some j => addSeconds j (pairDuration p1 p2) (distribution a)
         | None => distribution a
         end;
       totalValidSeconds := totalValidSeconds a + pairDuration p1 p2 |}
  else a.
Proof.
  intro Hb. unfold zoneBody, counted, creditedZone.
  destruct (truthy_opt (hr p1) && truthy_opt (hr p2)); [| reflexivity].
  cbn [andb].
  destruct ((pairDuration p1 p2 >? 0) && (pairDuration p1 p2 <? 30));
    [| reflexivity].
  rewrite (findIndex_bounds _ _ _ Hb).
  destruct (findIndex _ (initDistribution _)); [reflexivity |].
  rewrite (boundsD_length _ _ Hb), init_length. cbn [Nat.sub].
  destruct (pairAvgHr p1 p2 >=? maxHR settings); reflexivity.
Qed.

Lemma counted_duration (p1 p2 : TrackPoint) :
  counted p1 p2 = true ->
  exists d, pairDuration p1 p2 = Fin d /\ (0 < d)%Q /\ (d < 30)%Q.
Proof.
  unfold counted. intro H.
  apply andb_prop in H as [_ H]. apply andb_prop in H as [H1 H2].
  apply (between_finite _ 0 30); assumption.
Qed.

Lemma zoneBody_inv (settings : UserSettings) (a : ZoneAcc)
    (p1 p2 : TrackPoint) :
  zoneInv settings a ->
  zoneInv settings (zoneBody settings a p1 p2) /\
  (qval (totalValidSeconds (zoneBody settings a p1 p2)) ==
   qval (totalValidSeconds a) + countedShare p1 p2)%Q /\
  forall k, (k < 5)%nat ->
    (qval (secondsAt k (distribution (zoneBody settings a p1 p2))) ==
     qval (secondsAt k (distribution a)) + zoneShare settings k p1 p2)%Q.
Proof.
  intros [Hb Ht Hs].
  rewrite (zoneBody_spec _ _ _ _ Hb).
  unfold countedShare, zoneShare, creditedTo.
  destruct (counted p1 p2) eqn:Hc.
  2:{ split; [constructor; auto |]. split; [simpl; lra |].
      intros k _. simpl. lra. }
  destruct (counted_duration _ _ Hc) as (d & Hd & Hd0 & Hd30).
  rewrite Hd. cbn [totalValidSeconds distribution andb qval].
  rewrite (finite_Fin _ Ht).
  assert (Hsec : forall j k, (k < 5)%nat ->
    secondsAt k (addSeconds j (Fin d) (distribution a)) =
    Fin (qval (secondsAt k (distribution a)) + if Nat.eqb j k then d else 0)
    \/ (Nat.eqb j k = false /\
        secondsAt k (addSeconds j (Fin d) (distribution a)) =
        secondsAt k (distribution a))).
  { intros j k Hk. rewrite secondsAt_addSeconds.
    rewrite (boundsD_length _ _ Hb), init_length.
    apply Nat.ltb_lt in Hk as Hk'. rewrite Hk', andb_true_r.
    destruct (Nat.eqb j k); [left | right; auto].
    now rewrite (finite_Fin _ (Hs k Hk)). }
  split; [| split].
  - constructor; cbn [totalValidSeconds distribution].
    + destruct (creditedZone settings (pairAvgHr p1 p2)); auto.
      now rewrite boundsD_addSeconds.
    + exact I.
    + intros k Hk.
      destruct (creditedZone settings (pairAvgHr p1 p2)) as [j |]; auto.
      destruct (Hsec j k Hk) as [E | [_ E]]; rewrite E; simpl; auto.
  - simpl. lra.
  - intros k Hk.
    destruct (creditedZone settings (pairAvgHr p1 p2)) as [j |];
      [| simpl; lra].
    destruct (Hsec j k Hk) as [E | [N E]]; rewrite E.
    + simpl. destruct (Nat.eqb j k); lra.
    + rewrite N. lra.
Qed.

Lemma zone_pairLoop (settings : UserSettings) (rest : list TrackPoint) :
  forall (prev : TrackPoint) (a : ZoneAcc),
  zoneInv settings a ->
  let a' := pairLoop (zoneBody settings) prev rest a in
  zoneInv settings a' /\
  (qval (totalValidSeconds a') ==
   qval (totalValidSeconds a) + sumPairsFrom countedShare prev rest)%Q /\
  forall k, (k < 5)%nat ->
    (qval (secondsAt k (distribution a')) ==
     qval (secondsAt k (distribution a))
     + sumPairsFrom (zoneShare settings k) prev rest)%Q.
Proof.
  induction rest as [| p tl IH]; intros prev a Ha; simpl.
  - split; [assumption |]. split; [lra |]. intros; lra.
  - destruct (zoneBody_inv settings a prev p Ha) as (Ha1 & Ht1 & Hs1).
    destruct (IH p _ Ha1) as (Ha2 & Ht2 & Hs2).
    split; [assumption |]. split.
    + rewrite Ht2, Ht1. lra.
    + intros k Hk. rewrite (Hs2 k Hk), (Hs1 k Hk). lra.
Qed.

Lemma zoneInv_init (settings : UserSettings) :
  zoneInv settings
    {| distribution := initDistribution (calculateZones settings);
       totalValidSeconds := 0 |}.
Proof.
  constructor; cbn [distribution totalValidSeconds]; auto.
  - exact I.
  - intros k Hk. unfold calculateZones.
    destruct (method settings);
      do 5 (destruct k as [| k]; [exact I |]); lia.
Qed.

Lemma secondsAt_init (settings : UserSettings) (k : nat) :
  (k < 5)%nat ->
  secondsAt k (initDistribution (calculateZones settings)) = Fin 0.
Proof.
  intros Hk. unfold calculateZones.
  destruct (method settings);
    do 5 (destruct k as [| k]; [reflexivity |]); lia.
Qed.

(** The loop as sums over the consecutive pairs. *)
Lemma zoneLoop_sums (pts : list TrackPoint) (settings : UserSettings) :
  let a := zoneLoop pts settings in
  zoneInv settings a /\
  (qval (totalValidSeconds a) == sumPairs countedShare pts)%Q /\
  forall k, (k < 5)%nat ->
    (qval (secondsAt k (distribution a)) ==
     sumPairs (zoneShare settings k) pts)%Q.
Proof.
  unfold zoneLoop, forPairs, sumPairs.
  destruct pts as [| p0 tl].
  - split; [apply zoneInv_init |]. split; [reflexivity |].
    intros k Hk. cbn [distribution].
    rewrite secondsAt_init by assumption. reflexivity.
  - destruct (zone_pairLoop settings tl p0 _ (zoneInv_init settings))
      as (Ha & Ht & Hs).
    split; [assumption |]. split.
    + rewrite Ht. simpl. lra.
    + intros k Hk. rewrite (Hs k Hk). cbn [distribution].
      rewrite secondsAt_init by assumption. simpl. lra.
Qed.

End ZoneLoopFacts.

Module ZoneClassification.
Import Physiology ZoneSpec ZoneLoopFacts.
Local Open Scope js_scope.


Lemma findIndex_None {A : Type} (f : A -> bool) (l : list A) :
  findIndex f l = None <-> forall x, In x l -> f x = false.
Proof.
  induction l as [| a l IH]; simpl.
  - split; auto. intros _ x [].
  - destruct (f a) eqn:Fa.
    + split; [discriminate |]. intro H. specialize (H a (or_introl eq_refl)).
      congruence.
    + destruct (findIndex f l); simpl.
      * split; [discriminate |]. intro H.
        assert (Some n = None) as E; [| discriminate E].
        apply IH. intros x Hx. apply H. now right.
      * split; auto. intros _ x [<- | Hx]; auto. now apply IH.
Qed.

Lemma secondsAt_withPercentage (T : num) (k : nat)
    (D : list HRZoneDistribution) :
  secondsAt k (map (withPercentage T) D) = secondsAt k D.
Proof.
  unfold secondsAt. rewrite nth_error_map.
  destruct (nth_error D k); reflexivity.
Qed.

Lemma boundsD_withPercentage (T : num) (D : list HRZoneDistribution) :
  boundsD (map (withPercentage T) D) = boundsD D.
Proof. unfold boundsD. rewrite map_map. reflexivity. Qed.

End ZoneClassification.

Module ZoneChain.
Import Physiology ZoneSpec ZoneLoopFacts ZoneClassification.
Local Open Scope js_scope.


Lemma Qfloor_half_mono (x y : Q) :
  (x <= y)%Q ->
  (inject_Z (Qfloor (x + (1 # 2))) <= inject_Z (Qfloor (y + (1 # 2))))%Q.
Proof.
  intro H. rewrite <- Zle_Qle. apply Qfloor_resp_le. lra.
Qed.

Lemma Qfloor_half_le_int (x : Q) (n : Z) :
  (x <= inject_Z n)%Q -> (inject_Z (Qfloor (x + (1 # 2))) <= inject_Z n)%Q.
Proof.
  intro H. rewrite <- Zle_Qle.
  pose proof (Qfloor_le (x + (1 # 2))) as Hl.
  assert (L : (inject_Z (Qfloor (x + (1 # 2))) < inject_Z (n + 1))%Q).
  { rewrite inject_Z_plus. change (inject_Z 1) with 1%Q. lra. }
  rewrite <- Zlt_Qlt in L. lia.
Qed.

(** With integer settings, 0 <= restingHR < maxHR, the chain is ordered. *)
Lemma ordered_chain (m r : Z) (meth : HRZoneMethod) :
  (0 <= r < m)%Z ->
  exists b0 b1 b2 b3 b4,
    boundsD (initDistribution (calculateZones
      {| maxHR := Fin (inject_Z m); restingHR := Fin (inject_Z r);
         method := meth |})) =
    chain b0 b1 b2 b3 b4 (inject_Z m) /\
    (b0 <= b1 /\ b1 <= b2 /\ b2 <= b3 /\ b3 <= b4 /\ b4 <= inject_Z m)%Q.
Proof.
  intros [Hr Hm]. rewrite boundsD_init.
  assert (Hr' : (0 <= inject_Z r)%Q) by (now rewrite <- (Zle_Qle 0)).
  assert (Hm' : (inject_Z r < inject_Z m)%Q) by (now rewrite <- Zlt_Qlt).
  destruct meth; unfold calculateZones, bandsOf, chain;
    cbn [map z_min z_max maxHR restingHR method round sub add mul neg lit];
    do 5 eexists; (split; [reflexivity |]);
    repeat split.
  all: first [ apply Qfloor_half_mono; lra | apply Qfloor_half_le_int; lra ].
Qed.

End ZoneChain.

Module SharedBand.
Import Physiology ZoneSpec ZoneLoopFacts ZoneClassification ZoneChain.
Local Open Scope js_scope.


Lemma inZone_Fin (q lo hi : Q) (d : HRZoneDistribution) :
  zmin d = Fin lo -> zmax d = Fin hi ->
  inZone (Fin q) d = Qle_bool lo q && Qltb q (hi + 1).
Proof. intros Hlo Hhi. unfold inZone. now rewrite Hlo, Hhi. Qed.

Lemma inZone_true (q lo hi : Q) (d : HRZoneDistribution) :
  zmin d = Fin lo -> zmax d = Fin hi ->
  (lo <= q)%Q -> (q < hi + 1)%Q -> inZone (Fin q) d = true.
Proof.
  intros Hlo Hhi H1 H2. rewrite (inZone_Fin q lo hi) by assumption.
  apply Qle_bool_iff in H1. apply Qltb_iff in H2. now rewrite H1, H2.
Qed.

Lemma inZone_false (q lo hi : Q) (d : HRZoneDistribution) :
  zmin d = Fin lo -> zmax d = Fin hi ->
  (q < lo \/ hi + 1 <= q)%Q -> inZone (Fin q) d = false.
Proof.
  intros Hlo Hhi H. rewrite (inZone_Fin q lo hi) by assumption.
  destruct H as [H | H].
  - apply Qle_bool_false_iff in H. now rewrite H.
  - apply Qltb_false_iff in H. rewrite H. apply andb_false_r.
Qed.

(** A counted pair whose first matching zone is [j] adds its duration to
    entry [j]. *)
Lemma zoneBody_credit (settings : UserSettings) (a : ZoneAcc)
    (p1 p2 : TrackPoint) (j : nat) :
  zoneInv settings a -> counted p1 p2 = true ->
  findIndex (inZone (pairAvgHr p1 p2))
    (initDistribution (calculateZones settings)) = Some j ->
  distribution (zoneBody settings a p1 p2) =
  addSeconds j (pairDuration p1 p2) (distribution a).
Proof.
  intros [Hb _ _] Hc Hj.
  rewrite (zoneBody_spec _ _ _ _ Hb), Hc. unfold creditedZone.
  now rewrite Hj.
Qed.

End SharedBand.

Module ZonePercentages.
Import Physiology ZoneSpec ZoneLoopFacts ZoneClassification ZoneChain.
Import SharedBand Samples.
Local Open Scope js_scope.








End ZonePercentages.

Module ZonePercentagesMain.
Import Physiology ZoneSpec ZoneLoopFacts ZoneClassification ZoneChain.
Import SharedBand ZonePercentages Samples MoreSamples.
Local Open Scope js_scope.






End ZonePercentagesMain.

Module TrainingEffect.
Import Physiology ZoneSpec ZoneLoopFacts ZoneClassification ZoneChain.
Import Samples RoundingSpec.
Local Open Scope js_scope.

Lemma round1_lower (x : Q) (lo : Z) :
  (inject_Z lo / 10 <= x)%Q -> (inject_Z lo / 10 <= round1 x)%Q.
Proof.
  intro H. unfold round1.
  assert (L : (lo <= Qfloor (x * 10 + (1 # 2)))%Z).
  { rewrite <- (Qfloor_Z lo). apply Qfloor_resp_le. lraq. }
  rewrite Zle_Qle in L. lraq.
Qed.


Lemma zoneShare_nonneg (settings : UserSettings) (k : nat)
    (p1 p2 : TrackPoint) : (0 <= zoneShare settings k p1 p2)%Q.
Proof.
  unfold zoneShare. destruct (counted p1 p2) eqn:Hc; cbn [andb]; [| lra].
  destruct (creditedTo settings k (pairAvgHr p1 p2)); [| lra].
  destruct (counted_duration _ _ Hc) as (d & -> & Hd & _). simpl. lra.
Qed.

Lemma sumPairs_zoneShare_nonneg (settings : UserSettings) (k : nat)
    (pts : list TrackPoint) : (0 <= sumPairs (zoneShare settings k) pts)%Q.
Proof.
  destruct pts as [| p0 tl]; simpl; [lra |].
  revert p0. induction tl as [| p tl IH]; intro p0; simpl; [lra |].
  pose proof (zoneShare_nonneg settings k p0 p). pose proof (IH p). lra.
Qed.

(** The value of the effect on the 1.0 to 5.0 scale, before rounding. *)
Lemma effect_of_seconds (z3 z4 z5 : Q) :
  let score := loadScore z3 z4 z5 in
  exists e,
    effectOfZoneSeconds (Fin z3) (Fin z4) (Fin z5) = Fin e /\
    ((score < 10)%Q -> (e == Qmin 5 (round1 (1.0 + score / 10)))%Q) /\
    ((10 <= score)%Q -> (score < 30)%Q ->
       (e == Qmin 5 (round1 (2.0 + (score - 10) / 20)))%Q) /\
    ((30 <= score)%Q -> (score < 60)%Q ->
       (e == Qmin 5 (round1 (3.0 + (score - 30) / 30)))%Q) /\
    ((60 <= score)%Q -> (score < 120)%Q ->
       (e == Qmin 5 (round1 (4.0 + (score - 60) / 60)))%Q) /\
    ((120 <= score)%Q -> (e == 5)%Q) /\
    (e <= 5)%Q.
Proof.
  intro score. unfold effectOfZoneSeconds.
  assert (Es : (Fin z3 * 0.5 + Fin z4 * 1.5 + Fin z5 * 3.0) / 60 = Fin score)
    by reflexivity.
  rewrite Es. clear Es. unfold lit. rewrite !lt_Fin.
  assert (Hmin : forall x : Q,
    exists e, JS.min (Fin 5.0) (round (Fin x * Fin 10) / Fin 10) = Fin e /\
              (e == Qmin 5 (round1 x))%Q /\ (e <= 5)%Q).
  { intro x.
    assert (Er : round (Fin x * Fin 10) / Fin 10 = Fin (round1 x))
      by reflexivity.
    rewrite Er. unfold JS.min. cbn [isNaN orb]. rewrite le_Fin.
    destruct (Qle_bool 5.0 (round1 x)) eqn:L; reflect_Q;
      eexists; (split; [reflexivity |]); split; try lra.
    - rewrite Q.min_l; lra.
    - rewrite Q.min_r; lra. }
  destruct (Qltb score 10) eqn:L1; reflect_Q.
  { destruct (Hmin (1.0 + score / 10)%Q) as (e & He & Hv & Hle).
    exists e. split; [exact He |].
    repeat split; auto; intros; try lra; try (rewrite Hv; reflexivity). }
  destruct (Qltb score 30) eqn:L2; reflect_Q.
  { destruct (Hmin (2.0 + (score + - 10) / 20)%Q) as (e & He & Hv & Hle).
    exists e. split; [exact He |].
    repeat split; auto; intros; try lra; try (rewrite Hv; reflexivity). }
  destruct (Qltb score 60) eqn:L3; reflect_Q.
  { destruct (Hmin (3.0 + (score + - 30) / 30)%Q) as (e & He & Hv & Hle).
    exists e. split; [exact He |].
    repeat split; auto; intros; try lra; try (rewrite Hv; reflexivity). }
  destruct (Qltb score 120) eqn:L4; reflect_Q.
  { destruct (Hmin (4.0 + (score + - 60) / 60)%Q) as (e & He & Hv & Hle).
    exists e. split; [exact He |].
    repeat split; auto; intros; try lra; try (rewrite Hv; reflexivity). }
  destruct (Hmin 5.0%Q) as (e & He & Hv & Hle).
  exists e. split; [exact He |].
  repeat split; auto; intros; try lra.
Qed.






End TrainingEffect.

Module Decoupling.
Import Physiology DecouplingSpec Samples MoreSamples.
Local Open Scope js_scope.








Lemma inf_of_sign_nonzero (s : Z) : (inf_of_sign s === 0) = false.
Proof. destruct s; reflexivity. Qed.

(** A quotient by a finite number is 0 only if the numerator is. *)
Lemma div_nonzero (x y : num) :
  (x === 0) = false -> finite y -> (x / y === 0) = false.
Proof.
  destruct y as [b | | |]; try contradiction. intros Hx _.
  destruct x as [a | | |]; unfold div.
  - destruct (Qeq_bool b 0) eqn:Eb; [apply inf_of_sign_nonzero |].
    unfold JS.eq, lit in *. reflect_Q. apply Qeq_bool_false_iff.
    intro Z. apply Hx.
    assert (X : (a == (a / b) * b)%Q) by (field; exact Eb).
    rewrite Z in X. lra.
  - destruct (Qeq_bool b 0); [reflexivity | apply inf_of_sign_nonzero].
  - destruct (Qeq_bool b 0); [reflexivity | apply inf_of_sign_nonzero].
  - reflexivity.
Qed.

(** Past its guard [getEfficiency] is never 0, and it is a finite number
    when the time sum and the heart-rate sum are not 0. *)
Lemma getEfficiency_nonzero (pts : list TrackPoint) :
  effFinite (effSums pts) ->
  count (effSums pts) <> 0%nat ->
  (distSum (effSums pts) === 0) = false ->
  (getEfficiency pts === 0) = false /\
  ((timeSum (effSums pts) === 0) = false ->
   (hrSum (effSums pts) === 0) = false ->
   exists e, getEfficiency pts = Fin e /\ ~ (e == 0)%Q).
Proof.
  intros [Fh Fd Ft] Hc Hd. unfold getEfficiency.
  destruct (count (effSums pts)) as [| c] eqn:Ec; [contradiction |].
  rewrite Hd. cbn [Nat.eqb orb].
  destruct (hrSum (effSums pts)) as [h | | |]; try contradiction.
  destruct (distSum (effSums pts)) as [d | | |]; try contradiction.
  destruct (timeSum (effSums pts)) as [t | | |]; try contradiction.
  unfold lit, JS.eq in Hd. reflect_Q.
  assert (Hc' : ~ (inject_Z (Z.of_nat (S c)) == 0)%Q).
  { intro E. unfold Qeq in E. simpl in E. lia. }
  unfold ofNat, lit.
  rewrite (div_Fin h _ Hc').
  assert (Hd1000 : ~ (d / 1000 == 0)%Q).
  { intro Z. apply Hd. assert (d == (d / 1000) * 1000)%Q by (field). lra. }
  assert (E60 : Fin t / Fin 60 = Fin (t / 60)) by reflexivity.
  assert (E1000 : Fin d / Fin 1000 = Fin (d / 1000)) by reflexivity.
  rewrite E60, E1000. rewrite (div_Fin (t / 60) (d / 1000) Hd1000).
  split.
  - apply div_nonzero; [| exact I]. apply div_nonzero; [reflexivity | exact I].
  - intros Ht Hh. unfold JS.eq in Ht, Hh. reflect_Q.
    assert (Hp : ~ ((t / 60) / (d / 1000) == 0)%Q).
    { intro Z. apply Ht.
      assert (X : (t == ((t / 60) / (d / 1000)) * (d / 1000) * 60)%Q)
        by (field; lra).
      rewrite Z in X. lra. }
    assert (Ha : ~ (h / inject_Z (Z.of_nat (S c)) == 0)%Q).
    { intro Z. apply Hh.
      assert (X : (h == (h / inject_Z (Z.of_nat (S c)))
                        * inject_Z (Z.of_nat (S c)))%Q)
        by (field; exact Hc').
      rewrite Z in X. lra. }
    rewrite (div_Fin 1 _ Hp), (div_Fin _ _ Ha).
    eexists. split; [reflexivity |].
    assert (N : (Fin (1 / (t / 60 / (d / 1000))
                      / (h / inject_Z (Z.of_nat (S c)))) === 0) = false).
    { rewrite <- (div_Fin _ _ Ha). apply div_nonzero; [| exact I].
      rewrite <- (div_Fin 1 _ Hp). apply div_nonzero; [reflexivity | exact I]. }
    unfold JS.eq, lit in N. now reflect_Q.
Qed.

Lemma getEfficiency_guard (pts : list TrackPoint) :
  count (effSums pts) = 0%nat \/ (distSum (effSums pts) === 0) = true ->
  getEfficiency pts = Fin 0.
Proof.
  unfold getEfficiency. intros [H | H]; rewrite H; [reflexivity |].
  now rewrite orb_true_r.
Qed.

(** The outcomes without a number: fewer than 100 points, or a half
    whose efficiency is 0 (no pair with heart rate and distance, or a
    distance sum of 0). *)
Lemma decoupling_null_cases (run : RunData) :
  let n := List.length (points run) in
  let first := firstn (n / 2) (points run) in
  let second := skipn (n / 2) (points run) in
  ((n < 100)%nat -> calculateDecoupling run = None) /\
  ((100 <= n)%nat ->
   (getEfficiency first === 0) = true \/ (getEfficiency second === 0) = true ->
   calculateDecoupling run = None) /\
  (forall pts,
     count (effSums pts) = 0%nat \/ (distSum (effSums pts) === 0) = true ->
     getEfficiency pts = Fin 0).
Proof.
  intros n first second.
  split; [| split].
  - intro H. unfold calculateDecoupling. fold n.
    apply Nat.ltb_lt in H. now rewrite H.
  - intros H E. unfold calculateDecoupling. fold n.
    apply Nat.ltb_ge in H. rewrite H. fold first second.
    destruct E as [E | E]; rewrite E; [reflexivity |].
    now rewrite orb_true_r.
  - apply getEfficiency_guard.
Qed.

(** C8. The program at a run of 100 points with heart rate and non-zero
    distance in both halves, and a clock that does not advance: each half
    has 49 pairs, a distance sum of 490 m and a time sum of 0, its pace is
    0 and its efficiency is 1 / 0 = Infinity; the result is
    (Infinity - Infinity) / Infinity * 100 = NaN, neither a percentage nor
    "not computable".  The guard of [getEfficiency] tests the pair count
    and the distance sum, not the pace it divides by.  A missing [Time]
    element in one point of a steady run gives NaN as well. *)
Theorem decoupling_nan_with_stalled_clock :
  let first := firstn (100 / 2) (points stalledRun) in
  let second := skipn (100 / 2) (points stalledRun) in
  List.length (points stalledRun) = 100%nat /\
  count (effSums first) = 49%nat /\ count (effSums second) = 49%nat /\
  distSum (effSums first) ~= Fin 490 /\ distSum (effSums second) ~= Fin 490 /\
  hrSum (effSums first) ~= Fin 7350 /\ hrSum (effSums second) ~= Fin 7350 /\
  timeSum (effSums first) ~= Fin 0 /\ timeSum (effSums second) ~= Fin 0 /\
  getEfficiency first = PInf /\ getEfficiency second = PInf /\
  calculateDecoupling stalledRun = Some NaN /\
  calculateDecoupling undatedRun = Some NaN.
Proof.
  cbv zeta.
  split; [vm_compute; reflexivity |].
  split; [vm_compute; reflexivity |]. split; [vm_compute; reflexivity |].
  split; [vm_compute; reflexivity |]. split; [vm_compute; reflexivity |].
  split; [vm_compute; reflexivity |]. split; [vm_compute; reflexivity |].
  split; [vm_compute; reflexivity |]. split; [vm_compute; reflexivity |].
  split; [vm_compute; reflexivity |]. split; [vm_compute; reflexivity |].
  split; vm_compute; reflexivity.
Qed.

End Decoupling.

Module ParserFacts.
Import TcxParser ParserSpec Samples.
Local Open Scope js_scope.

Lemma lastPoint_snoc (pts : list TrackPoint) (p : TrackPoint) :
  lastPoint (pts ++ [p]) = Some p.
Proof.
  unfold lastPoint. rewrite length_app. simpl.
  replace (List.length pts + 1 - 1)%nat with (List.length pts) by lia.
  rewrite nth_error_app2 by lia. now rewrite Nat.sub_diag.
Qed.

(** The moving time after the [if (i > 0)] block. *)
Lemma withPrev_movingTime (st : Acc) (prev tp : RawTrackpoint) :
  movingTime (withPrev st (toPoint prev) tp) =
  if moving prev tp then movingTime st + timeDiff prev tp else movingTime st.
Proof.
  unfold withPrev, moving, timeDiff, distDiff.
  destruct ((timeDiffOf (toPoint prev) tp >? 0)
            && (timeDiffOf (toPoint prev) tp <? 15)); cbn [andb].
  - destruct (distDiffOf (toPoint prev) tp / timeDiffOf (toPoint prev) tp
              >? 0.5);
      destruct (lastAlt st) as [la |];
      repeat match goal with
             | |- context [if ?c then _ else _] => destruct c
             end; reflexivity.
  - destruct (lastAlt st) as [la |];
      repeat match goal with
             | |- context [if ?c then _ else _] => destruct c
             end; reflexivity.
Qed.

Lemma withPrev_points (st : Acc) (prev : TrackPoint) (tp : RawTrackpoint) :
  points (withPrev st prev tp) = points st.
Proof.
  unfold withPrev.
  repeat match goal with
         | |- context [let '(_, _) := ?c in _] => destruct c
         end.
  reflexivity.
Qed.

Lemma moving_finite (prev tp : RawTrackpoint) :
  moving prev tp = true ->
  exists d, timeDiff prev tp = Fin d /\ (0 < d)%Q /\ (d < 15)%Q.
Proof.
  unfold moving. intro H. apply andb_prop in H as [H _].
  apply andb_prop in H as [H1 H2]. now apply (between_finite _ 0 15).
Qed.

(** One turn of the loop after the first. *)
Lemma onTrackpoint_next (st : Acc) (prev tp : RawTrackpoint) (i : nat) :
  (0 < i)%nat ->
  lastPoint (points st) = Some (toPoint prev) ->
  finite (movingTime st) ->
  exists st',
    onTrackpoint st tp i = Some st' /\
    points st' = points st ++ [toPoint tp] /\
    finite (movingTime st') /\
    (qval (movingTime st') == qval (movingTime st) + movingShare prev tp)%Q.
Proof.
  intros Hi Hlast Hfin. unfold onTrackpoint.
  apply Nat.ltb_lt in Hi. rewrite Hi, Hlast.
  eexists. split; [reflexivity |]. cbn [points movingTime].
  rewrite withPrev_points, withPrev_movingTime. split; [reflexivity |].
  unfold movingShare.
  destruct (moving prev tp) eqn:Hm.
  - destruct (moving_finite _ _ Hm) as (d & -> & _).
    rewrite (finite_Fin _ Hfin). simpl. split; [exact I | lra].
  - split; [assumption | lra].
Qed.

Lemma forEachFrom_next (rest : list RawTrackpoint) :
  forall (prev : RawTrackpoint) (st : Acc) (i : nat),
  (0 < i)%nat ->
  lastPoint (points st) = Some (toPoint prev) ->
  finite (movingTime st) ->
  exists st',
    forEachFrom i rest st = Some st' /\
    points st' = points st ++ map toPoint rest /\
    finite (movingTime st') /\
    (qval (movingTime st') ==
     qval (movingTime st) + sumPairsFrom movingShare prev rest)%Q.
Proof.
  induction rest as [| tp tl IH]; intros prev st i Hi Hlast Hfin.
  - exists st. simpl. rewrite app_nil_r. repeat split; auto. lra.
  - destruct (onTrackpoint_next st prev tp i Hi Hlast Hfin)
      as (st1 & E1 & P1 & F1 & M1).
    assert (L1 : lastPoint (points st1) = Some (toPoint tp))
      by (rewrite P1; apply lastPoint_snoc).
    destruct (IH tp st1 (S i) (Nat.lt_0_succ i) L1 F1)
      as (st2 & E2 & P2 & F2 & M2).
    exists st2. cbn [forEachFrom]. rewrite E1.
    split; [exact E2 |]. split.
    + rewrite P2, P1, <- app_assoc. reflexivity.
    + split; [exact F2 |]. rewrite M2, M1. simpl. lra.
Qed.

(** The whole loop: it never throws, keeps one point for each element, and
    sums the moving time over the consecutive pairs. *)
Lemma forEach_total (trackpoints : list RawTrackpoint) :
  exists st,
    forEachFrom 0 trackpoints init = Some st /\
    points st = map toPoint trackpoints /\
    finite (movingTime st) /\
    (qval (movingTime st) == sumPairs movingShare trackpoints)%Q.
Proof.
  destruct trackpoints as [| tp0 tl].
  - exists init. repeat split.
  - cbn [forEachFrom]. unfold onTrackpoint at 1. cbn [Nat.ltb Nat.leb].
    match goal with
    | |- context [forEachFrom 1 tl ?s] => set (st0 := s)
    end.
    assert (P0 : points st0 = [toPoint tp0]) by reflexivity.
    assert (L0 : lastPoint (points st0) = Some (toPoint tp0))
      by (rewrite P0; reflexivity).
    assert (F0 : finite (movingTime st0)) by exact I.
    destruct (forEachFrom_next tl tp0 st0 1 Nat.lt_0_1 L0 F0)
      as (st & E & P & F & M).
    exists st. split; [exact E |]. split; [now rewrite P, P0 |].
    split; [exact F |]. rewrite M. simpl. lra.
Qed.

End ParserFacts.

Module ParserClaims.
Import TcxParser ParserSpec ParserFacts Samples.
Local Open Scope js_scope.

(** A track without any point: the promise resolves, with an empty
    [points] and a summary of zeros; it does not reject. *)
Lemma empty_track_resolves :
  (exists r,
     parseTCX (Fin 0) (Fin 0) [] = Resolved r /\
     Types.points r = [] /\
     Summary.totalDistance (summary r) = Fin 0 /\
     Summary.movingTime (summary r) = Fin 0 /\
     Summary.avgHR (summary r) = Fin 0 /\
     Summary.avgPace (summary r) = Fin 0) /\
  forall reason, parseTCX (Fin 0) (Fin 0) [] <> Rejected reason.
Proof.
  split.
  - eexists. split; [reflexivity |]. repeat split.
  - intros reason H. discriminate H.
Qed.

(** C1 (amended). [parseTCX] never fails: for every list of trackpoints
    the promise resolves, with one point for each element.  For a track
    without any trackpoint it resolves with an empty [points] and a summary
    whose distance, moving time, heart rates, ascent, descent, paces,
    calories, fitness score, intensity factor, efficiency, movement ratio
    and VAM are 0, the elapsed time being the difference of the two clock
    readings. *)
Theorem parseTCX_never_rejects (now1 now2 : num) :
  (forall trackpoints,
     exists r,
       parseTCX now1 now2 trackpoints = Resolved r /\
       Types.points r = map toPoint trackpoints) /\
  exists r,
    parseTCX now1 now2 [] = Resolved r /\
    Types.points r = [] /\
    startTime r = now1 /\
    Summary.elapsedTime (summary r) = (now2 - now1) / 1000 /\
    Summary.totalDistance (summary r) = Fin 0 /\
    Summary.movingTime (summary r) = Fin 0 /\
    Summary.avgHR (summary r) = Fin 0 /\
    Summary.maxHR (summary r) = Fin 0 /\
    Summary.totalAscent (summary r) = Fin 0 /\
    Summary.totalDescent (summary r) = Fin 0 /\
    Summary.avgPace (summary r) = Fin 0 /\
    Summary.maxPace (summary r) = Fin 0 /\
    Summary.calories (summary r) = Fin 0 /\
    Summary.fitnessScore (summary r) = Fin 0 /\
    Summary.intensityFactor (summary r) = Fin 0 /\
    Summary.aerobicEfficiency (summary r) = Fin 0 /\
    Summary.movementRatio (summary r) ~= Fin 0 /\
    Summary.vam (summary r) = Fin 0.
Proof.
  split.
  - intro trackpoints. unfold parseTCX.
    destruct (forEach_total trackpoints) as (st & -> & P & _).
    eexists. split; [reflexivity |]. exact P.
  - eexists. split; [reflexivity |].
    cbn [Types.points startTime summary finish init TcxParser.points
         nth_error lastPoint List.length Nat.sub
         Summary.elapsedTime Summary.totalDistance Summary.movingTime
         Summary.avgHR Summary.maxHR Summary.totalAscent
         Summary.totalDescent Summary.avgPace Summary.maxPace
         Summary.calories Summary.fitnessScore Summary.intensityFactor
         Summary.aerobicEfficiency Summary.movementRatio Summary.vam
         movingTime hrSum hrCount totalAscent totalDescent maxHR maxPace
         Nat.ltb Nat.leb].
    repeat (split; [reflexivity |]).
    split; [| reflexivity].
    destruct ((now2 - now1) / 1000) as [e | | |]; try reflexivity.
    unfold gt, lit. rewrite lt_Fin.
    destruct (Qltb 0 e) eqn:He; [| reflexivity]. reflect_Q.
    rewrite div_Fin by lra. simpl. field. lra.
Qed.

(** C2. The guard of the average pace tests the moving time, not the
    distance.  Ten metres in one second, then a point without distance:
    the moving time is 1 second, the total distance 0, and the average pace
    is infinite instead of 0. *)
Theorem avgPace_infinite_after_distance_dropout :
  exists r,
    parseTCX (Fin 0) (Fin 0) dropoutTrack = Resolved r /\
    Summary.movingTime (summary r) ~= Fin 1 /\
    Summary.totalDistance (summary r) = Fin 0 /\
    Summary.avgPace (summary r) = PInf.
Proof.
  eexists. split; [reflexivity |].
  split; [vm_compute; reflexivity |]. split; reflexivity.
Qed.

(** 100 metres in exactly 15 seconds: the pair is not counted, the moving
    time stays 0. *)
Lemma fifteen_second_pair_not_moving :
  exists r,
    parseTCX (Fin 0) (Fin 0) fifteenSecondTrack = Resolved r /\
    timeDiff (rawPoint 0 true 0) (rawPoint 15000 true 100) ~= Fin 15 /\
    (distDiff (rawPoint 0 true 0) (rawPoint 15000 true 100)
     / timeDiff (rawPoint 0 true 0) (rawPoint 15000 true 100) >? 0.5) = true /\
    Summary.movingTime (summary r) = Fin 0 /\
    ~ (Summary.movingTime (summary r) ~= Fin 15).
Proof.
  eexists. split; [reflexivity |].
  split; [vm_compute; reflexivity |].
  split; [reflexivity |]. split; [reflexivity |].
  vm_compute. discriminate.
Qed.

End ParserClaims.

(** * Further properties of the parser *)

Module TrackLoop.
Import TcxParser ParserSpec ParserFacts TrackSpec.
Local Open Scope js_scope.




End TrackLoop.

Module AscentFacts.
Import TcxParser ParserSpec ParserFacts TrackSpec TrackLoop.
Local Open Scope js_scope.

















End AscentFacts.

Module HeartRateFacts.
Import TcxParser ParserSpec ParserFacts TrackSpec TrackLoop AscentFacts.
Local Open Scope js_scope.







End HeartRateFacts.

Module MovementFacts.
Import TcxParser ParserSpec ParserFacts TrackSpec TrackLoop AscentFacts.
Local Open Scope js_scope.







End MovementFacts.



(** * Further properties of the physiology functions *)

Module ZoneBounds.
Import Physiology ZoneSpec ZoneLoopFacts ZoneClassification ZoneChain.
Import SharedBand ZonePercentages ZonePercentagesMain TrainingEffect.
Local Open Scope js_scope.




End ZoneBounds.

Module EffectFacts.
Import Physiology ZoneSpec ZoneLoopFacts ZoneClassification ZoneChain.
Import SharedBand ZonePercentages ZonePercentagesMain TrainingEffect.
Import EffectSpec.
Local Open Scope js_scope.

(** The training effect as the rounded, capped curve of the score. *)
Lemma effect_value (z3 z4 z5 : Q) :
  exists e,
    effectOfZoneSeconds (Fin z3) (Fin z4) (Fin z5) = Fin e /\
    (e == Qmin 5 (round1 (effectCurve (loadScore z3 z4 z5))))%Q.
Proof.
  destruct (effect_of_seconds z3 z4 z5)
    as (e & He & B1 & B2 & B3 & B4 & B5 & Hle).
  exists e. split; [exact He |]. unfold effectCurve.
  set (score := loadScore z3 z4 z5) in *.
  destruct (Qltb score 10) eqn:L1; reflect_Q; [now apply B1 |].
  destruct (Qltb score 30) eqn:L2; reflect_Q; [now apply B2 |].
  destruct (Qltb score 60) eqn:L3; reflect_Q; [now apply B3 |].
  destruct (Qltb score 120) eqn:L4; reflect_Q; [now apply B4 |].
  rewrite (B5 L4). vm_compute. reflexivity.
Qed.

Lemma effectCurve_mono (x y : Q) :
  (x <= y)%Q -> (effectCurve x <= effectCurve y)%Q.
Proof.
  intro H. unfold effectCurve.
  destruct (Qltb x 10) eqn:X1; destruct (Qltb y 10) eqn:Y1; reflect_Q;
    try lraq;
    destruct (Qltb x 30) eqn:X2; destruct (Qltb y 30) eqn:Y2; reflect_Q;
    try lraq;
    destruct (Qltb x 60) eqn:X3; destruct (Qltb y 60) eqn:Y3; reflect_Q;
    try lraq;
    destruct (Qltb x 120) eqn:X4; destruct (Qltb y 120) eqn:Y4; reflect_Q;
    lraq.
Qed.

Lemma effectCurve_range (x : Q) :
  (0 <= x)%Q -> (1 <= effectCurve x)%Q /\ (effectCurve x <= 5)%Q.
Proof.
  intro H. unfold effectCurve.
  destruct (Qltb x 10) eqn:X1; reflect_Q; [split; lraq |].
  destruct (Qltb x 30) eqn:X2; reflect_Q; [split; lraq |].
  destruct (Qltb x 60) eqn:X3; reflect_Q; [split; lraq |].
  destruct (Qltb x 120) eqn:X4; reflect_Q; split; lraq.
Qed.

Lemma round1_mono (x y : Q) : (x <= y)%Q -> (round1 x <= round1 y)%Q.
Proof.
  intro H. unfold round1.
  assert (L : (Qfloor (x * 10 + (1 # 2)) <= Qfloor (y * 10 + (1 # 2)))%Z)
    by (apply Qfloor_resp_le; lra).
  rewrite Zle_Qle in L. lraq.
Qed.

(** X7. The training effect never decreases when the seconds in zones 3, 4 and
    5 grow. *)
Theorem training_effect_monotone (z3 z4 z5 z3' z4' z5' : Q) :
  (z3 <= z3')%Q -> (z4 <= z4')%Q -> (z5 <= z5')%Q ->
  exists e e',
    effectOfZoneSeconds (Fin z3) (Fin z4) (Fin z5) = Fin e /\
    effectOfZoneSeconds (Fin z3') (Fin z4') (Fin z5') = Fin e' /\
    (e <= e')%Q.
Proof.
  intros H3 H4 H5.
  destruct (effect_value z3 z4 z5) as (e & He & Ve).
  destruct (effect_value z3' z4' z5') as (e' & He' & Ve').
  exists e, e'. split; [exact He |]. split; [exact He' |].
  rewrite Ve, Ve'. apply Q.min_le_compat_l. apply round1_mono.
  apply effectCurve_mono. unfold loadScore. lraq.
Qed.

Lemma training_effect_monotone_witness :
  (1200 <= 1300)%Q /\
  exists e e',
    effectOfZoneSeconds (Fin 1200) (Fin 600) (Fin 0) = Fin e /\
    effectOfZoneSeconds (Fin 1300) (Fin 600) (Fin 60) = Fin e' /\
    (e <= e')%Q.
Proof.
  assert (H : (1200 <= 1300)%Q) by lra.
  split; [exact H |].
  apply (training_effect_monotone 1200 600 0 1300 600 60 H); lra.
Defined.

(** The value [calculateTrainingEffect] returns, for any run. *)
Lemma effect_of_run_in_range (run : RunData) (settings : UserSettings) :
  exists e tenths,
    calculateTrainingEffect run settings = Fin e /\
    (1 <= e)%Q /\ (e <= 5)%Q /\ (e * 10 == inject_Z tenths)%Q.
Proof.
  destruct (zoneLoop_sums (points run) settings) as ([Hb Ht Hs] & _ & Hsum).
  set (dist := getZoneDistribution run settings).
  assert (Hsec : forall k, (k < 5)%nat ->
    secondsAt k dist = Fin (qval (secondsAt k dist)) /\
    (0 <= qval (secondsAt k dist))%Q).
  { intros k Hk. unfold dist, getZoneDistribution.
    rewrite secondsAt_withPercentage. split.
    - apply finite_Fin, Hs, Hk.
    - rewrite (Hsum k Hk). apply sumPairs_zoneShare_nonneg. }
  destruct (Hsec 2%nat ltac:(lia)) as [E3 P3].
  destruct (Hsec 3%nat ltac:(lia)) as [E4 P4].
  destruct (Hsec 4%nat ltac:(lia)) as [E5 P5].
  set (z3 := qval (secondsAt 2 dist)) in *.
  set (z4 := qval (secondsAt 3 dist)) in *.
  set (z5 := qval (secondsAt 4 dist)) in *.
  destruct (effect_value z3 z4 z5) as (e & He & Ve).
  assert (S0 : (0 <= loadScore z3 z4 z5)%Q) by (unfold loadScore; lraq).
  destruct (effectCurve_range _ S0) as [C1 C5].
  set (c := effectCurve (loadScore z3 z4 z5)) in *.
  assert (R1 : (1 <= round1 c)%Q).
  { assert (X : (inject_Z 10 / 10 <= c)%Q)
      by (change (inject_Z 10) with 10%Q; lraq).
    pose proof (round1_lower c 10 X) as L'.
    change (inject_Z 10) with 10%Q in L'. lraq. }
  destruct (Q.min_spec 5 (round1 c)) as [[Hlt Hmin] | [Hge Hmin]].
  - exists e, 50%Z. unfold calculateTrainingEffect. fold dist.
    rewrite E3, E4, E5. split; [exact He |].
    rewrite Ve, Hmin. repeat split; try lra; try reflexivity.
  - exists e, (Qfloor (c * 10 + (1 # 2))).
    unfold calculateTrainingEffect. fold dist.
    rewrite E3, E4, E5. split; [exact He |].
    rewrite Ve, Hmin. repeat split; try lra.
    unfold round1. field.
Qed.

(** X8. The training effect of every run is a number of tenths between 1.0
    and 5.0. *)
Theorem training_effect_range (run : RunData) (settings : UserSettings) :
  exists e tenths,
    calculateTrainingEffect run settings = Fin e /\
    (1 <= e)%Q /\ (e <= 5)%Q /\ (e * 10 == inject_Z tenths)%Q.
Proof. exact (effect_of_run_in_range run settings). Qed.

End EffectFacts.

Module ZoneShape.
Import Physiology ZoneSpec ZoneLoopFacts ZoneClassification ZoneChain.
Import SharedBand ZonePercentages ZonePercentagesMain TrainingEffect.
Local Open Scope js_scope.

Lemma zoneBody_distribution (settings : UserSettings) (a : ZoneAcc)
    (p1 p2 : TrackPoint) :
  distribution (zoneBody settings a p1 p2) = distribution a \/
  exists j x,
    distribution (zoneBody settings a p1 p2) = addSeconds j x (distribution a).
Proof.
  unfold zoneBody. cbv zeta.
  destruct (truthy_opt (hr p1) && truthy_opt (hr p2)); [| now left].
  destruct ((pairDuration p1 p2 >? 0) && (pairDuration p1 p2 <? 30));
    [| now left].
  destruct (findIndex _ _); [right; do 2 eexists; reflexivity |].
  destruct (pairAvgHr p1 p2 >=? maxHR settings);
    [right; do 2 eexists; reflexivity | now left].
Qed.

Lemma names_addSeconds (j : nat) (x : num) (D : list HRZoneDistribution) :
  map (fun d => (zone d, label d)) (addSeconds j x D) =
  map (fun d => (zone d, label d)) D.
Proof.
  revert j. induction D as [| d D IH]; intros [| j]; simpl; auto.
  now rewrite IH.
Qed.

Lemma names_pairLoop (settings : UserSettings) (rest : list TrackPoint) :
  forall prev a,
  map (fun d => (zone d, label d))
    (distribution (pairLoop (zoneBody settings) prev rest a)) =
  map (fun d => (zone d, label d)) (distribution a).
Proof.
  induction rest as [| p tl IH]; intros prev a; [reflexivity |].
  cbn [pairLoop]. rewrite IH.
  destruct (zoneBody_distribution settings a prev p) as [-> | (j & x & ->)];
    [reflexivity | apply names_addSeconds].
Qed.

(** X9. Whatever the run, the distribution has five entries, numbered 1 to 5
    and labelled as the zones of [calculateZones], with their bounds. *)
Theorem zone_distribution_shape (run : RunData) (settings : UserSettings) :
  let dist := getZoneDistribution run settings in
  map zone dist = [1; 2; 3; 4; 5]%nat /\
  map label dist =
    [ "Z1 Recovery"; "Z2 Aerobic"; "Z3 Tempo"; "Z4 Threshold";
      "Z5 Anaerobic" ]%string /\
  map label dist = map z_label (calculateZones settings) /\
  map (fun d => (zmin d, zmax d)) dist = bandsOf (calculateZones settings).
Proof.
  intro dist.
  assert (N : map (fun d => (zone d, label d)) dist =
              map (fun d => (zone d, label d))
                (initDistribution (calculateZones settings))).
  { unfold dist, getZoneDistribution. rewrite map_map. cbn [withPercentage
      zone label].
    unfold zoneLoop, forPairs. destruct (points run) as [| p0 tl];
      [reflexivity |].
    apply names_pairLoop. }
  assert (Z : map zone dist = map fst (map (fun d => (zone d, label d)) dist))
    by (rewrite map_map; reflexivity).
  assert (L : map label dist
              = map snd (map (fun d => (zone d, label d)) dist))
    by (rewrite map_map; reflexivity).
  rewrite Z, L, N.
  split; [| split; [| split]].
  - unfold calculateZones. destruct (method settings); reflexivity.
  - unfold calculateZones. destruct (method settings); reflexivity.
  - unfold calculateZones. destruct (method settings); reflexivity.
  - destruct (zoneLoop_sums (points run) settings) as ([Hb _ _] & _).
    unfold dist, getZoneDistribution.
    change (map (fun d => (zmin d, zmax d))) with boundsD.
    rewrite boundsD_withPercentage, Hb. apply boundsD_init.
Qed.

Lemma pairLoop_unchanged {S : Type}
    (body : S -> TrackPoint -> TrackPoint -> S) (rest : list TrackPoint) :
  forall prev s,
  (forall p1 p2, In p2 rest -> body s p1 p2 = s) ->
  pairLoop body prev rest s = s.
Proof.
  induction rest as [| p tl IH]; intros prev s H; [reflexivity |].
  cbn [pairLoop]. rewrite (H prev p (or_introl eq_refl)).
  apply IH. intros p1 p2 Hin. apply H. now right.
Qed.

(** X10. A run none of whose points carries a heart rate has 0 seconds and 0
    percent in every zone, and a training effect of 1.0. *)
Theorem no_heart_rate_no_zone_time (run : RunData)
    (settings : UserSettings) :
  Forall (fun p => truthy_opt (hr p) = false) (points run) ->
  (forall d, In d (getZoneDistribution run settings) ->
     seconds d = Fin 0 /\ percentage d = Fin 0) /\
  calculateTrainingEffect run settings ~= Fin 1.
Proof.
  intro H.
  assert (E : zoneLoop (points run) settings =
              {| distribution := initDistribution (calculateZones settings);
                 totalValidSeconds := 0 |}).
  { unfold zoneLoop, forPairs. destruct (points run) as [| p0 tl];
      [reflexivity |].
    apply pairLoop_unchanged. intros p1 p2 Hin.
    apply Forall_inv_tail in H.
    pose proof (proj1 (Forall_forall _ _) H p2 Hin) as H2. simpl in H2.
    unfold zoneBody. rewrite H2, andb_false_r. reflexivity. }
  assert (D : getZoneDistribution run settings =
              map (withPercentage 0)
                (initDistribution (calculateZones settings))).
  { unfold getZoneDistribution. now rewrite E. }
  split.
  - intros d Hd. rewrite D in Hd.
    apply in_map_iff in Hd as (e & <- & He). cbn [withPercentage seconds
      percentage].
    split; [| reflexivity].
    unfold calculateZones in He. destruct (method settings);
      cbn [initDistribution mapi_from In] in He;
      repeat destruct He as [<- | He]; try reflexivity; destruct He.
  - unfold calculateTrainingEffect. rewrite D.
    unfold calculateZones. destruct (method settings); vm_compute;
      reflexivity.
Qed.

Lemma no_heart_rate_no_zone_time_witness :
  Forall (fun p => truthy_opt (hr p) = false) (points Samples2.silentRun) /\
  calculateTrainingEffect Samples2.silentRun Samples.settingsKarvonen
    ~= Fin 1.
Proof.
  assert (W : Forall (fun p => truthy_opt (hr p) = false)
                (points Samples2.silentRun)) by (repeat constructor).
  split; [exact W |].
  exact (proj2 (no_heart_rate_no_zone_time Samples2.silentRun
                  Samples.settingsKarvonen W)).
Defined.

End ZoneShape.

Module GapBounds.
Import Physiology GapFacts ZoneChain TrainingEffect Samples GapSpec.
Local Open Scope js_scope.




End GapBounds.

Module DecouplingSign.
Import Physiology DecouplingSpec Decoupling Samples.
Local Open Scope js_scope.




End DecouplingSign.

Module ZoneOrder.
Import Physiology ZoneSpec ZoneLoopFacts ZoneChain.
Local Open Scope js_scope.

Lemma Qfloor_half_ge_int (x : Q) (n : Z) :
  (inject_Z n <= x)%Q -> (inject_Z n <= inject_Z (Qfloor (x + (1 # 2))))%Q.
Proof.
  intro H. rewrite <- Zle_Qle. rewrite <- (Qfloor_Z n).
  apply Qfloor_resp_le. lra.
Qed.

(** X14. For integer settings with 0 <= restingHR < maxHR the zone bounds never
    decrease from zone 1 to zone 5 and end at maxHR; with the KARVONEN
    method they start at or above restingHR. *)
Theorem zone_bounds_ordered (m r : Z) (meth : HRZoneMethod) :
  (0 <= r < m)%Z ->
  exists b0 b1 b2 b3 b4 : Q,
    bandsOf (calculateZones
      {| maxHR := Fin (inject_Z m); restingHR := Fin (inject_Z r);
         method := meth |}) =
    [ (Fin b0, Fin b1); (Fin b1, Fin b2); (Fin b2, Fin b3); (Fin b3, Fin b4);
      (Fin b4, Fin (inject_Z m)) ] /\
    (0 <= b0)%Q /\ (b0 <= b1)%Q /\ (b1 <= b2)%Q /\ (b2 <= b3)%Q /\
    (b3 <= b4)%Q /\ (b4 <= inject_Z m)%Q /\
    (meth = KARVONEN -> (inject_Z r <= b0)%Q).
Proof.
  intros [Hr Hm].
  assert (Hr' : (0 <= inject_Z r)%Q) by (now rewrite <- (Zle_Qle 0)).
  assert (Hm' : (inject_Z r < inject_Z m)%Q) by (now rewrite <- Zlt_Qlt).
  destruct meth; unfold calculateZones, bandsOf;
    cbn [map z_min z_max maxHR restingHR method round sub add mul neg lit];
    do 5 eexists; (split; [reflexivity |]).
  - repeat split;
      try (apply Qfloor_half_mono; lra);
      try (apply Qfloor_half_le_int; lra);
      try discriminate.
    change 0%Q with (inject_Z 0). apply Qfloor_half_ge_int.
    change (inject_Z 0) with 0%Q. lra.
  - repeat split;
      try (apply Qfloor_half_mono; lra);
      try (apply Qfloor_half_le_int; lra).
    + apply Qle_trans with (inject_Z r); [exact Hr' |].
      apply Qfloor_half_ge_int. lra.
    + intros _. apply Qfloor_half_ge_int. lra.
Qed.

Lemma zone_bounds_ordered_witness :
  (0 <= 55 < 190)%Z /\
  exists b0 b4 : Q,
    nth_error (bandsOf (calculateZones Samples.settingsKarvonen)) 0
      = Some (Fin b0, Fin 136) /\
    nth_error (bandsOf (calculateZones Samples.settingsKarvonen)) 4
      = Some (Fin b4, Fin 190) /\
    (55 <= b0)%Q /\ (b4 <= 190)%Q.
Proof.
  assert (V : (0 <= 55 < 190)%Z) by lia.
  split; [exact V |].
  destruct (zone_bounds_ordered 190 55 KARVONEN V)
    as (b0 & b1 & b2 & b3 & b4 & E & _ & _ & _ & _ & _ & U & L).
  exists b0, b4.
  change Samples.settingsKarvonen
    with {| maxHR := Fin (inject_Z 190); restingHR := Fin (inject_Z 55);
            method := KARVONEN |}.
  assert (B1 : Fin b1 = Fin 136).
  { apply (f_equal (fun l => nth 0 (map snd l) NaN)) in E. exact (eq_sym E). }
  rewrite E. cbn [nth_error]. rewrite B1.
  split; [reflexivity |]. split; [reflexivity |].
  split; [exact (L eq_refl) | exact U].
Defined.

End ZoneOrder.

Module PlanFacts.
Import Plans PlanSpec.
Local Open Scope js_scope.

(** What scaling does to one session. *)
Lemma scaleSession_duration (level : RunnerLevel) (s : Session.t) (d : Q) :
  Session.targetDuration s = Fin d ->
  exists k,
    Session.targetDuration (scaleSession level s) = Fin (inject_Z k) /\
    nearest (d * qval (multipliers level)) k.
Proof.
  intro H. exists (Qfloor (d * qval (multipliers level) + (1 # 2))).
  split; [| apply ZoneFacts.nearest_round].
  cbn [scaleSession Session.targetDuration]. rewrite H.
  destruct level; reflexivity.
Qed.

Lemma scaleSession_beginner (s : Session.t) (n : Z) :
  Session.targetDuration s = Fin (inject_Z n) ->
  scaleSession BEGINNER s = s.
Proof.
  intro H. destruct s as [i dy ti de du zo li]. cbn in H. subst du.
  unfold scaleSession. cbn. f_equal. f_equal. f_equal.
  symmetry. apply (Z.div_unique _ 20 n 10); lia.
Qed.

Lemma plans_whole_minutes (planId : string) (base : Plan.t) :
  PLANS planId = Own base -> Forall wholeMinutes (Plan.sessions base).
Proof.
  unfold PLANS.
  destruct (String.eqb planId "c25k");
    [| destruct (String.eqb planId "run10k");
       [| destruct (existsb _ _); discriminate ] ];
    intro H; injection H as <-; cbn;
    repeat (constructor;
            [eexists; split; [| reflexivity]; reflexivity |]);
    constructor.
Qed.

Lemma Forall2_map_self {A B : Type} (P : A -> Prop) (R : A -> B -> Prop)
    (f : A -> B) (l : list A) :
  (forall a, P a -> R a (f a)) -> Forall P l -> Forall2 R l (map f l).
Proof.
  intros H F. induction F as [| a l Pa _ IH]; cbn; constructor; auto.
Qed.

Lemma Forall2_map_both {A B C : Type} (P : A -> Prop) (R : B -> C -> Prop)
    (f : A -> B) (g : A -> C) (l : list A) :
  (forall a, P a -> R (f a) (g a)) -> Forall P l ->
  Forall2 R (map f l) (map g l).
Proof.
  intros H F. induction F as [| a l Pa _ IH]; cbn; constructor; auto.
Qed.

Lemma map_beginner (l : list Session.t) :
  Forall wholeMinutes l -> map (scaleSession BEGINNER) l = l.
Proof.
  intro F. induction F as [| s l [n [_ Hn]] _ IH]; cbn; [reflexivity |].
  rewrite IH, (scaleSession_beginner s n Hn). reflexivity.
Qed.

(** X16. A plan that [getScaledPlan] returns is the stored plan of that id
    with the same name and the same sessions in the same order: id, day,
    title, description, target zone and link are kept, and each target
    duration is the template's duration times the level's factor (1.0, 1.3
    or 1.7), rounded to the nearest integer.  At the BEGINNER level the
    returned plan equals the stored one. *)
Theorem scaled_plan_sessions (planId : string) (level : RunnerLevel)
    (p : Plan.t) :
  getScaledPlan planId level = Returned (Some p) ->
  exists base,
    PLANS planId = Own base /\
    Plan.id p = Plan.id base /\
    Plan.name p = Plan.name base /\
    Forall2
      (fun s s' =>
         Session.id s' = Session.id s /\
         Session.day s' = Session.day s /\
         Session.title s' = Session.title s /\
         Session.description s' = Session.description s /\
         Session.targetZone s' = Session.targetZone s /\
         Session.linkedRunId s' = Session.linkedRunId s /\
         exists d k,
           Session.targetDuration s = Fin d /\
           Session.targetDuration s' = Fin (inject_Z k) /\
           nearest (d * qval (multipliers level)) k)
      (Plan.sessions base) (Plan.sessions p) /\
    (level = BEGINNER -> p = base).
Proof.
  unfold getScaledPlan.
  destruct (PLANS planId) as [base | |] eqn:E; try discriminate.
  intro H. injection H as <-. exists base.
  pose proof (plans_whole_minutes planId base E) as W.
  split; [reflexivity |]. split; [reflexivity |]. split; [reflexivity |].
  split.
  - cbn [Plan.sessions].
    apply (Forall2_map_self wholeMinutes); [| exact W].
    intros s [n [_ Hn]].
    repeat (split; [reflexivity |]).
    destruct (scaleSession_duration level s _ Hn) as [k [Hk Nk]].
    exists (inject_Z n), k. auto.
  - intros ->. rewrite (map_beginner _ W). destruct base; reflexivity.
Qed.

Lemma scaled_plan_sessions_witness :
  exists p,
    getScaledPlan "run10k" PRO = Returned (Some p) /\
    exists base,
      PLANS "run10k" = Own base /\
      Plan.id p = Plan.id base /\
      Plan.name p = Plan.name base /\
      Forall2
        (fun s s' =>
           Session.id s' = Session.id s /\
           Session.day s' = Session.day s /\
           Session.title s' = Session.title s /\
           Session.description s' = Session.description s /\
           Session.targetZone s' = Session.targetZone s /\
           Session.linkedRunId s' = Session.linkedRunId s /\
           exists d k,
             Session.targetDuration s = Fin d /\
             Session.targetDuration s' = Fin (inject_Z k) /\
             nearest (d * qval (multipliers PRO)) k)
        (Plan.sessions base) (Plan.sessions p) /\
      (PRO = BEGINNER -> p = base).
Proof.
  eexists. split; [reflexivity |].
  apply (scaled_plan_sessions "run10k" PRO). reflexivity.
Defined.

Lemma scaled_order (lo hi : RunnerLevel) (s : Session.t) :
  (qval (multipliers lo) <= qval (multipliers hi))%Q ->
  wholeMinutes s ->
  Session.id (scaleSession lo s) = Session.id (scaleSession hi s) /\
  exists a b : Z,
    Session.targetDuration (scaleSession lo s) = Fin (inject_Z a) /\
    Session.targetDuration (scaleSession hi s) = Fin (inject_Z b) /\
    (0 < a <= b)%Z.
Proof.
  intros L [n [Hn Hd]]. split; [reflexivity |].
  exists (Qfloor (inject_Z n * qval (multipliers lo) + (1 # 2))),
         (Qfloor (inject_Z n * qval (multipliers hi) + (1 # 2))).
  assert (N : (1 <= inject_Z n)%Q).
  { change 1%Q with (inject_Z 1). rewrite <- Zle_Qle. lia. }
  split; [| split].
  - cbn [scaleSession Session.targetDuration]. rewrite Hd.
    destruct lo; reflexivity.
  - cbn [scaleSession Session.targetDuration]. rewrite Hd.
    destruct hi; reflexivity.
  - split.
    + assert (G : (inject_Z 1 <=
                   inject_Z (Qfloor (inject_Z n * qval (multipliers lo)
                                     + (1 # 2))))%Q).
      { apply ZoneOrder.Qfloor_half_ge_int. change (inject_Z 1) with 1%Q.
        destruct lo; cbn [multipliers qval lit]; lra. }
      rewrite <- Zle_Qle in G. lia.
    + rewrite Zle_Qle. apply ZoneChain.Qfloor_half_mono.
      destruct lo, hi; cbn [multipliers qval lit] in *; lra.
Qed.

(** X17. For one plan, a level with a larger factor never shortens a
    session: the two scaled plans have the same sessions in the same
    order, every target duration is a positive whole number of minutes,
    and the one at the higher level is at least the one at the lower. *)
Theorem scaled_levels_ordered (planId : string) (lo hi : RunnerLevel)
    (p q : Plan.t) :
  (qval (multipliers lo) <= qval (multipliers hi))%Q ->
  getScaledPlan planId lo = Returned (Some p) ->
  getScaledPlan planId hi = Returned (Some q) ->
  Forall2
    (fun s t =>
       Session.id s = Session.id t /\
       exists a b : Z,
         Session.targetDuration s = Fin (inject_Z a) /\
         Session.targetDuration t = Fin (inject_Z b) /\
         (0 < a <= b)%Z)
    (Plan.sessions p) (Plan.sessions q).
Proof.
  unfold getScaledPlan. intros L.
  destruct (PLANS planId) as [base | |] eqn:E; try discriminate.
  intros H1 H2. injection H1 as <-. injection H2 as <-.
  cbn [Plan.sessions].
  apply (Forall2_map_both wholeMinutes);
    [| exact (plans_whole_minutes planId base E)].
  intros s W. apply scaled_order; assumption.
Qed.

Lemma scaled_levels_ordered_witness :
  exists p q,
    getScaledPlan "c25k" INTERMEDIATE = Returned (Some p) /\
    getScaledPlan "c25k" PRO = Returned (Some q) /\
    Forall2
      (fun s t =>
         Session.id s = Session.id t /\
         exists a b : Z,
           Session.targetDuration s = Fin (inject_Z a) /\
           Session.targetDuration t = Fin (inject_Z b) /\
           (0 < a <= b)%Z)
      (Plan.sessions p) (Plan.sessions q).
Proof.
  do 2 eexists. split; [reflexivity |]. split; [reflexivity |].
  apply (scaled_levels_ordered "c25k" INTERMEDIATE PRO).
  - cbn. lra.
  - reflexivity.
  - reflexivity.
Defined.

End PlanFacts.

Module ComplianceFacts.
Import Plans ComplianceSpec.
Local Open Scope js_scope.

Lemma deviation_nonneg (t mt : Q) : (0 < t)%Q -> (0 <= deviation t mt)%Q.
Proof.
  intro H. unfold deviation. apply Qle_shift_div_l; [exact H |].
  pose proof (Qabs_nonneg (mt / 60 - t)). lra.
Qed.

(** The score before rounding: 94 - 70 * deviation, and 24 once the
    deviation exceeds 1. *)
Lemma score_form (session : Session.t) (run : RunData) (t mt : Q) :
  Session.targetDuration session = Fin t -> (0 < t)%Q ->
  Summary.movingTime (summary run) = Fin mt ->
  exists x,
    score (calculateCompliance session run)
      = Fin (inject_Z (Qfloor (x + (1 # 2)))) /\
    ((deviation t mt <= 1 /\ x == 94 - 70 * deviation t mt)%Q \/
     (1 < deviation t mt /\ x == 24)%Q).
Proof.
  intros Ht Hpos Hm. unfold calculateCompliance. cbv zeta.
  cbn [score]. rewrite Ht, Hm.
  change (Fin mt / 60) with (Fin (mt / 60)).
  change (abs (Fin (mt / 60) - Fin t)) with (Fin (Qabs (mt / 60 + - t))).
  rewrite div_Fin by lra.
  change (Qabs (mt / 60 + - t) / t)%Q with (deviation t mt).
  set (d := deviation t mt).
  change (100 - Fin d * 100) with (Fin (100 + - (d * 100))).
  unfold JS.max. cbn [isNaN orb lit]. rewrite le_Fin.
  destruct (Qle_bool 0 (100 + - (d * 100))) eqn:E; reflect_Q.
  - eexists. split; [reflexivity |]. left. split; [lra |]. lraq.
  - eexists. split; [reflexivity |]. right. split; [lra |]. lraq.
Qed.

Lemma score_whole (x : Q) (lo hi : Z) :
  (inject_Z lo <= x)%Q -> (x <= inject_Z hi)%Q ->
  (lo <= Qfloor (x + (1 # 2)) <= hi)%Z.
Proof.
  intros L H. split.
  - rewrite Zle_Qle. now apply ZoneOrder.Qfloor_half_ge_int.
  - rewrite Zle_Qle. now apply ZoneChain.Qfloor_half_le_int.
Qed.

(** X18. For a session with a positive target and a run with a finite
    moving time, the compliance score is a whole number between 24 and 94:
    94 when the moving time equals the target, 24 when it misses the
    target by the target's length or more (no movement, or at least twice
    the target). *)
Theorem compliance_score_range (session : Session.t) (run : RunData)
    (t mt : Q) :
  Session.targetDuration session = Fin t -> (0 < t)%Q ->
  Summary.movingTime (summary run) = Fin mt ->
  exists k : Z,
    score (calculateCompliance session run) = Fin (inject_Z k) /\
    (24 <= k <= 94)%Z /\
    (mt / 60 == t -> k = 94%Z)%Q /\
    (1 <= deviation t mt -> k = 24%Z)%Q.
Proof.
  intros Ht Hpos Hm.
  destruct (score_form session run t mt Ht Hpos Hm) as [x [Hs Hx]].
  pose proof (deviation_nonneg t mt Hpos) as D0.
  exists (Qfloor (x + (1 # 2))). split; [exact Hs |].
  assert (R : (inject_Z 24 <= x /\ x <= inject_Z 94)%Q).
  { change (inject_Z 24) with 24%Q. change (inject_Z 94) with 94%Q.
    destruct Hx as [[H1 H2] | [H1 H2]]; lra. }
  split; [apply score_whole; tauto |]. split.
  - intro E.
    assert (Z0 : (deviation t mt == 0)%Q).
    { unfold deviation.
      assert (A : (mt / 60 - t == 0)%Q) by lra.
      rewrite A. change (Qabs 0) with 0%Q. field. lra. }
    assert (X : (inject_Z 94 <= x /\ x <= inject_Z 94)%Q).
    { change (inject_Z 94) with 94%Q.
      destruct Hx as [[H1 H2] | [H1 H2]]; lra. }
    pose proof (score_whole x 94 94 (proj1 X) (proj2 X)). lia.
  - intro E.
    assert (X : (inject_Z 24 <= x /\ x <= inject_Z 24)%Q).
    { change (inject_Z 24) with 24%Q.
      destruct Hx as [[H1 H2] | [H1 H2]]; lra. }
    pose proof (score_whole x 24 24 (proj1 X) (proj2 X)). lia.
Qed.

Lemma compliance_score_range_witness :
  exists k : Z,
    score (calculateCompliance Samples2.twentyMinutes
             (Samples2.runLasting 1320 2)) = Fin (inject_Z k) /\
    (24 <= k <= 94)%Z /\
    (1320 / 60 == 20 -> k = 94%Z)%Q /\
    (1 <= deviation 20 1320 -> k = 24%Z)%Q.
Proof.
  apply (compliance_score_range Samples2.twentyMinutes
           (Samples2.runLasting 1320 2) 20 1320).
  - reflexivity.
  - reflexivity.
  - reflexivity.
Defined.




Lemma notes_form (session : Session.t) (run : RunData) :
  notes (calculateCompliance session run)
  = ((if score (calculateCompliance session run) >? 85
      then "Excellent adherence to plan."
      else "Session intensity or duration deviated.")
     ++ (if Summary.trainingEffect (summary run) >? 4.5
         then " High fatigue risk." else ""))%string.
Proof.
  unfold calculateCompliance. cbv zeta. cbn [score notes].
  destruct (round _ >? 85);
    destruct (Summary.trainingEffect (summary run) >? 4.5); reflexivity.
Qed.



End ComplianceFacts.

Module UploadFacts.
Import Physiology Plans App.
Local Open Scope js_scope.

(** Parsing the trackpoints of a file always gives a run. *)
Lemma parse_resolves (now1 now2 : num)
    (trackpoints : list TcxParser.RawTrackpoint) :
  exists parsed,
    TcxParser.parseTCX now1 now2 trackpoints = Resolved parsed /\
    points parsed = map TcxParser.toPoint trackpoints.
Proof.
  destruct (ParserFacts.forEach_total trackpoints) as [acc [E [P _]]].
  exists (TcxParser.finish now1 now2 acc). unfold TcxParser.parseTCX.
  rewrite E. split; [reflexivity | exact P].
Qed.

Lemma upload_state (now1 now2 : num) (settings : Settings)
    (activePlan : option Plan.t) (trackpoints : list TcxParser.RawTrackpoint)
    (sessionId : option string) (st : State) (parsed : RunData) :
  TcxParser.parseTCX now1 now2 trackpoints = Resolved parsed ->
  let r := analyse settings activePlan sessionId parsed in
  let st' := handleFileUpload now1 now2 settings activePlan
               (Some trackpoints) sessionId st in
  runs st' = firstn 50 (fst r :: runs st) /\
  activeRunId st' = Some (Run.id (fst r)) /\
  view st' = ViewRun /\ loading st' = false /\ alerts st' = alerts st /\
  App.settings st'
  = match snd r with
    | Some sid => completeSession sid (Run.id (fst r)) (App.settings st)
    | None => App.settings st
    end.
Proof.
  intros E r st'. subst r st'. unfold handleFileUpload. rewrite E.
  destruct (analyse settings activePlan sessionId parsed) as [run completed].
  cbn. repeat split.
Qed.

Lemma analyse_data (settings : Settings) (activePlan : option Plan.t)
    (sessionId : option string) (parsed : RunData) :
  let r := fst (analyse settings activePlan sessionId parsed) in
  Run.data r
  = setTrainingEffect (calculateTrainingEffect parsed (user settings)) parsed
  /\ Run.decoupling r = Some (decouplingOr0 (Run.data r))
  /\ Run.gap r
     = (if Nat.ltb 10 (List.length (points parsed)) then
          match nth_error (points parsed) 0,
                nth_error (points parsed) (List.length (points parsed) - 1)
          with
          | Some p1, Some p2 => Some (calculateGAP p1 p2)
          | _, _ => None
          end
        else None).
Proof.
  unfold analyse. cbv zeta.
  destruct (match sessionId with Some _ => _ | None => _ end);
    destruct sessionId; cbn; repeat split.
Qed.

(** X21. Uploading a file always stores a run, whatever the trackpoints:
    the new run, with one point for each trackpoint, comes first in the
    history, followed by the 49 most recent of the runs held before, so
    the history never exceeds 50 runs; the new run becomes the active one,
    the run view is shown, loading ends and no alert is raised. *)
Theorem upload_stores_run (now1 now2 : num) (settings : Settings)
    (activePlan : option Plan.t) (trackpoints : list TcxParser.RawTrackpoint)
    (sessionId : option string) (st : State) :
  let st' := handleFileUpload now1 now2 settings activePlan
               (Some trackpoints) sessionId st in
  exists run,
    runs st' = run :: firstn 49 (runs st) /\
    (List.length (runs st') <= 50)%nat /\
    List.length (runs st') = Nat.min 50 (Datatypes.S (List.length (runs st))) /\
    points (Run.data run) = map TcxParser.toPoint trackpoints /\
    activeRunId st' = Some (Run.id run) /\
    view st' = ViewRun /\ loading st' = false /\ alerts st' = alerts st.
Proof.
  intro st'. subst st'.
  destruct (parse_resolves now1 now2 trackpoints) as [parsed [E P]].
  destruct (upload_state now1 now2 settings activePlan trackpoints sessionId
              st parsed E) as (R & A & V & L & Al & _).
  destruct (analyse_data settings activePlan sessionId parsed) as (D & _).
  cbv zeta in D.
  exists (fst (analyse settings activePlan sessionId parsed)).
  rewrite R.
  split; [reflexivity |]. split; [apply firstn_le_length |].
  split; [now rewrite length_firstn |].
  split; [rewrite D; exact P |]. auto.
Qed.

Lemma setTrainingEffect_reads (te : num) (data : RunData) :
  Summary.trainingEffect (summary (setTrainingEffect te data)) = te /\
  points (setTrainingEffect te data) = points data /\
  startTime (setTrainingEffect te data) = startTime data /\
  Summary.movingTime (summary (setTrainingEffect te data))
  = Summary.movingTime (summary data) /\
  Summary.totalDistance (summary (setTrainingEffect te data))
  = Summary.totalDistance (summary data) /\
  Summary.avgPace (summary (setTrainingEffect te data))
  = Summary.avgPace (summary data).
Proof. repeat split. Qed.

Lemma decouplingOr0_number (data : RunData) :
  isNaN (decouplingOr0 data) = false /\
  ((List.length (points data) < 100)%nat -> decouplingOr0 data = Fin 0).
Proof.
  unfold decouplingOr0. split.
  - destruct (calculateDecoupling data) as [d |]; [| reflexivity].
    destruct d as [q | | |]; try reflexivity.
    destruct (truthy (Fin q)); reflexivity.
  - intro H. unfold calculateDecoupling.
    apply Nat.ltb_lt in H. rewrite H. reflexivity.
Qed.

(** X22. The run that an upload stores carries a recomputed training
    effect, between 1.0 and 5.0, in place of the 0 the parser wrote, the
    other summary values being the parser's; its decoupling is always a
    number, never NaN or missing, and it is 0 for fewer than 100
    trackpoints; its grade-adjusted pace is present exactly when the file
    has more than 10 trackpoints. *)
Theorem upload_enriches_run (now1 now2 : num) (settings : Settings)
    (activePlan : option Plan.t) (trackpoints : list TcxParser.RawTrackpoint)
    (sessionId : option string) (st : State) :
  let st' := handleFileUpload now1 now2 settings activePlan
               (Some trackpoints) sessionId st in
  exists run parsed,
    TcxParser.parseTCX now1 now2 trackpoints = Resolved parsed /\
    head (runs st') = Some run /\
    (exists e,
       Summary.trainingEffect (summary (Run.data run)) = Fin e /\
       (1 <= e)%Q /\ (e <= 5)%Q /\
       calculateTrainingEffect parsed (user settings) = Fin e) /\
    Summary.trainingEffect (summary parsed) = Fin 0 /\
    Summary.movingTime (summary (Run.data run))
    = Summary.movingTime (summary parsed) /\
    Summary.totalDistance (summary (Run.data run))
    = Summary.totalDistance (summary parsed) /\
    Summary.avgPace (summary (Run.data run))
    = Summary.avgPace (summary parsed) /\
    (exists d,
       Run.decoupling run = Some d /\ isNaN d = false /\
       ((List.length trackpoints < 100)%nat -> d = Fin 0)) /\
    (Run.gap run = None <-> (List.length trackpoints <= 10)%nat).
Proof.
  intro st'. subst st'.
  destruct (ParserFacts.forEach_total trackpoints) as [acc [Ea [P _]]].
  set (parsed := TcxParser.finish now1 now2 acc).
  assert (E : TcxParser.parseTCX now1 now2 trackpoints = Resolved parsed).
  { unfold TcxParser.parseTCX. rewrite Ea. reflexivity. }
  assert (Pp : points parsed = map TcxParser.toPoint trackpoints)
    by exact P.
  destruct (upload_state now1 now2 settings activePlan trackpoints sessionId
              st parsed E) as (R & _).
  destruct (analyse_data settings activePlan sessionId parsed)
    as (D & Dc & G).
  cbv zeta in D, Dc, G.
  set (run := fst (analyse settings activePlan sessionId parsed)) in *.
  exists run, parsed.
  split; [exact E |]. split; [rewrite R; reflexivity |].
  destruct (EffectFacts.effect_of_run_in_range parsed (user settings))
    as (e & tenths & He & L1 & L5 & _).
  destruct (setTrainingEffect_reads
              (calculateTrainingEffect parsed (user settings)) parsed)
    as (T & Ps & _ & M & Td & Ap).
  rewrite <- D in T, Ps, M, Td, Ap.
  split; [exists e; rewrite T; auto |].
  split; [reflexivity |].
  split; [exact M |]. split; [exact Td |]. split; [exact Ap |].
  assert (Len : List.length (points parsed) = List.length trackpoints).
  { rewrite Pp. apply length_map. }
  split.
  - exists (decouplingOr0 (Run.data run)). split; [exact Dc |].
    destruct (decouplingOr0_number (Run.data run)) as [N Z].
    split; [exact N |]. intro H. apply Z. rewrite Ps, Len. exact H.
  - rewrite G, Len.
    destruct (Nat.ltb 10 (List.length trackpoints)) eqn:Lt.
    + apply Nat.ltb_lt in Lt.
      destruct (nth_error (points parsed) 0) as [p1 |] eqn:N0.
      2:{ apply nth_error_None in N0. lia. }
      destruct (nth_error (points parsed) (List.length trackpoints - 1))
        as [p2 |] eqn:N1.
      2:{ apply nth_error_None in N1. lia. }
      split; [intro X; discriminate X | lia].
    + apply Nat.ltb_ge in Lt. split; [auto | reflexivity].
Qed.

Lemma analyse_compliance (settings : Settings) (activePlan : option Plan.t)
    (sessionId : option string) (parsed : RunData) :
  let r := analyse settings activePlan sessionId parsed in
  (exists sid plan session,
     sessionId = Some sid /\ sid <> ""%string /\ activePlan = Some plan /\
     find (fun s => String.eqb (Session.id s) sid) (Plan.sessions plan)
     = Some session /\
     Run.compliance (fst r)
     = Some {| RunCompliance.score :=
                 score (calculateCompliance session (Run.data (fst r)));
               RunCompliance.notes :=
                 notes (calculateCompliance session (Run.data (fst r)));
               RunCompliance.sessionId := Some sid |} /\
     snd r = Some sid) \/
  (Run.compliance (fst r) = None /\ snd r = None /\
   forall sid plan,
     sessionId = Some sid -> sid <> ""%string -> activePlan = Some plan ->
     find (fun s => String.eqb (Session.id s) sid) (Plan.sessions plan)
     = None).
Proof.
  unfold analyse. cbv zeta.
  destruct sessionId as [sid |].
  2:{ right. cbn. repeat split. intros sid plan H. discriminate H. }
  destruct activePlan as [plan |].
  2:{ right. cbn. repeat split. intros sid' plan _ _ H. discriminate H. }
  destruct (String.eqb_spec sid "") as [-> | Ne].
  { right. cbn. repeat split. intros sid' plan' H N.
    injection H as <-. now elim N. }
  destruct (find _ (Plan.sessions plan)) as [session |] eqn:F.
  - left. exists sid, plan, session. cbn. repeat split; auto.
  - right. cbn. repeat split. intros sid' plan' H N P.
    injection H as <-. injection P as <-. exact F.
Qed.

(** X23. An upload records a compliance result exactly when it names, by
    a non-empty id, a session of the active plan.  The result is then the
    score and the note of [calculateCompliance] for the first session of
    the plan with that id and the run as stored, whose training effect is
    the recomputed one (the parser's value is 0), so that the note carries
    " High fatigue risk." exactly when the recomputed training effect is
    above 4.5; the session is marked as completed by the new run and no
    other entry of the completed sessions changes.  Otherwise no session
    of the plan has that id and the settings stay as they were. *)
Theorem upload_compliance (now1 now2 : num) (settings : Settings)
    (activePlan : option Plan.t) (trackpoints : list TcxParser.RawTrackpoint)
    (sessionId : option string) (st : State) :
  let st' := handleFileUpload now1 now2 settings activePlan
               (Some trackpoints) sessionId st in
  exists run parsed,
    TcxParser.parseTCX now1 now2 trackpoints = Resolved parsed /\
    head (runs st') = Some run /\
    match Run.compliance run with
    | Some c =>
        exists sid plan session,
          sessionId = Some sid /\ sid <> ""%string /\
          activePlan = Some plan /\
          find (fun s => String.eqb (Session.id s) sid) (Plan.sessions plan)
          = Some session /\
          c = {| RunCompliance.score :=
                   score (calculateCompliance session (Run.data run));
                 RunCompliance.notes :=
                   notes (calculateCompliance session (Run.data run));
                 RunCompliance.sessionId := Some sid |} /\
          Summary.trainingEffect (summary (Run.data run))
          = calculateTrainingEffect parsed (user settings) /\
          RunCompliance.notes c
          = ((if score (calculateCompliance session (Run.data run)) >? 85
              then "Excellent adherence to plan."
              else "Session intensity or duration deviated.")
             ++ (if calculateTrainingEffect parsed (user settings) >? 4.5
                 then " High fatigue risk." else ""))%string /\
          completedSessions (App.settings st') sid = Some (Run.id run) /\
          (forall k, k <> sid ->
             completedSessions (App.settings st') k
             = completedSessions (App.settings st) k)
    | None =>
        App.settings st' = App.settings st /\
        (forall sid plan,
           sessionId = Some sid -> sid <> ""%string ->
           activePlan = Some plan ->
           find (fun s => String.eqb (Session.id s) sid) (Plan.sessions plan)
           = None)
    end.
Proof.
  intro st'. subst st'.
  destruct (parse_resolves now1 now2 trackpoints) as [parsed [E _]].
  destruct (upload_state now1 now2 settings activePlan trackpoints sessionId
              st parsed E) as (R & _ & _ & _ & _ & S).
  destruct (analyse_data settings activePlan sessionId parsed) as (D & _).
  cbv zeta in D.
  pose proof (analyse_compliance settings activePlan sessionId parsed) as C.
  cbv zeta in C.
  set (r := analyse settings activePlan sessionId parsed) in *.
  exists (fst r), parsed.
  split; [exact E |]. split; [rewrite R; reflexivity |].
  assert (T : Summary.trainingEffect (summary (Run.data (fst r)))
              = calculateTrainingEffect parsed (user settings))
    by (rewrite D; reflexivity).
  destruct C as [(sid & plan & session & Hs & Ne & Hp & F & Hc & Hd)
                | (Hc & Hd & Hn)].
  - rewrite Hc. exists sid, plan, session.
    split; [exact Hs |]. split; [exact Ne |]. split; [exact Hp |].
    split; [exact F |]. split; [reflexivity |]. split; [exact T |].
    split.
    + cbn [RunCompliance.notes]. rewrite ComplianceFacts.notes_form, T.
      reflexivity.
    + rewrite S, Hd. cbn [completeSession completedSessions].
      split.
      * rewrite String.eqb_refl. reflexivity.
      * intros k Hk. apply String.eqb_neq in Hk. rewrite Hk. reflexivity.
  - rewrite Hc. split.
    + rewrite S, Hd. reflexivity.
    + exact Hn.
Qed.

End UploadFacts.

Module PaceText.
Import App JSText PaceSpec.
Local Open Scope js_scope.




(** X24. [formatPace] gives the text 0:00 for 0, NaN and Infinity; the
    guard does not cover negative infinity, for which the text is
    -Infinity:NaN. *)
Theorem format_pace_guard (settings : Settings) (secPerKm : num) :
  (secPerKm = NaN \/ secPerKm = PInf \/
   (exists q, secPerKm = Fin q /\ (q == 0)%Q) ->
   formatPace settings secPerKm = Some "0:00"%string) /\
  formatPace settings NInf = Some "-Infinity:NaN"%string.
Proof.
  split.
  - intros [-> | [-> | [q [-> Hq]]]]; try reflexivity.
    unfold formatPace. cbn [truthy].
    apply Qeq_bool_iff in Hq. rewrite Hq. reflexivity.
  - unfold formatPace. destruct (units settings); reflexivity.
Qed.

Lemma format_pace_guard_witness :
  formatPace
    {| user := Samples.settingsMaxHR; units := KM; activePlanId := None;
       level := BEGINNER; completedSessions := fun _ => None |} PInf
  = Some "0:00"%string.
Proof.
  apply (format_pace_guard
           {| user := Samples.settingsMaxHR; units := KM;
              activePlanId := None; level := BEGINNER;
              completedSessions := fun _ => None |} PInf).
  right. left. reflexivity.
Defined.



End PaceText.

Module ChartFacts.
Import Physiology App.
Local Open Scope js_scope.

Lemma In_mapi_from {A B : Type} (f : A -> nat -> B) (l : list A) (i : nat)
    (d : B) :
  In d (mapi_from f i l) ->
  exists k p, nth_error l k = Some p /\ d = f p (i + k)%nat.
Proof.
  revert i. induction l as [| a l IH]; intros i H; [contradiction |].
  cbn in H. destruct H as [<- | H].
  - exists 0%nat, a. split; [reflexivity |]. now rewrite Nat.add_0_r.
  - destruct (IH _ H) as (k & p & Hk & Hd).
    exists (Datatypes.S k), p. split; [exact Hk |].
    rewrite Hd. f_equal. lia.
Qed.

Lemma length_mapi_from {A B : Type} (f : A -> nat -> B) (l : list A)
    (i : nat) :
  List.length (mapi_from f i l) = List.length l.
Proof.
  revert i. induction l as [| a l IH]; intro i; cbn; [reflexivity |].
  now rewrite IH.
Qed.

Lemma filter_mapi_skips {A B : Type} (f : A -> nat -> B) (g : B -> bool)
    (n : nat) (l : list A) (i : nat) :
  (forall p k, (k < n)%nat -> g (f p k) = false) ->
  (List.length (filter g (mapi_from f i l)) <= List.length l - (n - i))%nat.
Proof.
  intro H. revert i.
  induction l as [| a l IH]; intro i; cbn [mapi_from filter List.length];
    [lia |].
  destruct (Nat.lt_ge_cases i n) as [Lt | Ge].
  - rewrite (H a i Lt). specialize (IH (Datatypes.S i)). lia.
  - specialize (IH (Datatypes.S i)).
    destruct (g (f a i)); cbn [List.length]; lia.
Qed.

(** The value plotted for a point is its pace cut at 900, and 0 for the
    first six points. *)
Lemma pace_plotted (pts : list TrackPoint) (p : TrackPoint) (i : nat) :
  (JS.min (paceAt pts p i) 900 >? 0) = true ->
  (6 <= i)%nat /\
  exists q, JS.min (paceAt pts p i) 900 = Fin q /\ (0 < q)%Q /\ (q <= 900)%Q.
Proof.
  intro H. split.
  - unfold paceAt in H. destruct (Nat.ltb 5 i) eqn:E.
    + apply Nat.ltb_lt in E. lia.
    + vm_compute in H. discriminate H.
  - unfold JS.min in *. destruct (paceAt pts p i) as [a | | |].
    + cbn [isNaN orb lit] in *. rewrite le_Fin in *.
      destruct (Qle_bool a 900) eqn:L; reflect_Q.
      * exists a. unfold gt in H. rewrite lt_Fin in H. reflect_Q.
        repeat split; assumption.
      * exists 900%Q. split; [reflexivity | split; lra].
    + exists 900%Q. split; [reflexivity | split; lra].
    + cbn in H. discriminate H.
    + cbn in H. discriminate H.
Qed.

(** X26. In the chart of a run every pace value lies above 0 and at most
    at 900 s/km and belongs to a point from the seventh on, so the pace
    curve has at most six points fewer than the run; every heart rate
    plotted is a number other than 0; the time axis runs from 0 to the
    elapsed time. *)
Theorem chart_values (activeRun : Run.t) :
  let run := Run.data activeRun in
  exists cd,
    chartData (Some activeRun) = Some cd /\
    xDomain cd = (Fin 0, Summary.elapsedTime (summary run)) /\
    (forall d, In d (paceData cd) ->
       exists q i p,
         y d = Fin q /\ (0 < q)%Q /\ (q <= 900)%Q /\
         (6 <= i)%nat /\ nth_error (points run) i = Some p /\
         x d = (time p - startTime run) / 1000) /\
    (List.length (paceData cd) <= List.length (points run) - 6)%nat /\
    (forall d, In d (hrData cd) ->
       truthy (y d) = true /\
       exists p, In p (points run) /\ hr p = Some (y d) /\
                 x d = (time p - startTime run) / 1000) /\
    (List.length (hrData cd) <= List.length (points run))%nat /\
    (List.length (altData cd) <= List.length (points run))%nat.
Proof.
  intro run. eexists. split; [reflexivity |].
  cbn [xDomain paceData hrData altData]. fold run.
  split; [reflexivity |]. split; [| split; [| split; [| split]]].
  - intros d Hd. apply filter_In in Hd. destruct Hd as [Hin Hy].
    apply In_mapi_from in Hin. destruct Hin as (k & p & Hk & ->).
    cbn [x y] in *. rewrite Nat.add_0_l in *.
    destruct (pace_plotted _ _ _ Hy) as (Hi & q & Hq & Q0 & Q9).
    exists q, k, p.
    split; [exact Hq |]. split; [exact Q0 |]. split; [exact Q9 |].
    split; [exact Hi |]. split; [exact Hk |]. reflexivity.
  - apply (filter_mapi_skips _ _ 6).
    intros p k Hk. cbn [y]. unfold paceAt.
    assert (E : Nat.ltb 5 k = false) by (apply Nat.ltb_ge; lia).
    rewrite E. reflexivity.
  - intros d Hd. apply in_map_iff in Hd. destruct Hd as (p & <- & Hp).
    apply filter_In in Hp. destruct Hp as [Hin Ht]. cbn [x y].
    destruct (hr p) as [v |] eqn:Hv; [| discriminate Ht]. cbn in Ht |- *.
    split; [exact Ht |]. exists p.
    split; [exact Hin |]. split; [exact Hv | reflexivity].
  - rewrite length_map. apply filter_length_le.
  - rewrite length_map. apply filter_length_le.
Qed.

End ChartFacts.

Module WeekFacts.
Import App WeekSpec.
Local Open Scope js_scope.

Lemma sameKey_int (a b : Z) :
  sameKey (Fin (inject_Z a)) (Fin (inject_Z b)) = Z.eqb a b.
Proof.
  cbn [sameKey]. destruct (Z.eqb_spec a b) as [-> | N].
  - apply Qeq_bool_iff. reflexivity.
  - apply Qeq_bool_false_iff. intro E. apply N.
    now apply inject_Z_injective.
Qed.

Lemma gt_int (a b : Z) :
  (Fin (inject_Z a) - Fin (inject_Z b) >? 0) = Z.ltb b a.
Proof.
  change (Fin (inject_Z a) - Fin (inject_Z b))
    with (Fin (inject_Z a + - inject_Z b)).
  unfold gt. cbn [lit]. rewrite lt_Fin.
  destruct (Z.ltb_spec b a) as [L | G].
  - apply Qltb_iff. rewrite Zlt_Qlt in L. lra.
  - apply Qltb_false_iff. rewrite Zle_Qle in G. lra.
Qed.

Lemma weekNum_int (s : Session.t) :
  finite (Session.day s) -> weekNum s = Fin (inject_Z (weekOf s)).
Proof.
  unfold weekNum, weekOf.
  destruct (Session.day s) as [q | | |]; try contradiction. intros _.
  reflexivity.
Qed.

Lemma filter_none {A : Type} (f : A -> bool) (l : list A) :
  (forall a, In a l -> f a = false) -> filter f l = [].
Proof.
  induction l as [| a l IH]; intro H; cbn; [reflexivity |].
  rewrite (H a (or_introl eq_refl)). apply IH.
  intros b Hb. apply H. now right.
Qed.

Lemma push_shape (ws : list (Z * list Session.t)) (z : Z) (s : Session.t) :
  NoDup (map fst ws) ->
  exists ws',
    push (map weekEntry ws) (Fin (inject_Z z)) s = map weekEntry ws' /\
    ((In z (map fst ws) /\ map fst ws' = map fst ws /\
      forall z' ss', In (z', ss') ws' ->
        (z' = z /\ exists ss, In (z, ss) ws /\ ss' = ss ++ [s]) \/
        (z' <> z /\ In (z', ss') ws)) \/
     (~ In z (map fst ws) /\ ws' = ws ++ [(z, [s])])).
Proof.
  induction ws as [| [k l] tl IH]; intro ND.
  - exists [(z, [s])]. split; [reflexivity |]. right. split; [tauto |].
    reflexivity.
  - cbn [map fst] in ND. inversion ND as [| ? ? Hk NDtl]; subst.
    cbn [map weekEntry push fst snd]. rewrite sameKey_int.
    destruct (Z.eqb_spec k z) as [-> | Nk].
    + exists ((z, l ++ [s]) :: tl). split; [reflexivity |]. left.
      split; [left; reflexivity |]. split; [reflexivity |].
      intros z' ss' [E | I].
      * injection E as <- <-. left. split; [reflexivity |].
        exists l. split; [left; reflexivity | reflexivity].
      * right. split; [| right; exact I].
        intros ->. apply Hk. apply (in_map fst) in I. exact I.
    + destruct (IH NDtl) as [ws' [E C]].
      exists ((k, l) :: ws'). split.
      { cbn [map weekEntry fst snd]. rewrite E. reflexivity. }
      destruct C as [(I & M & F) | (N & ->)].
      * left. split; [right; exact I |].
        split; [cbn [map fst]; now rewrite M |].
        intros z' ss' [E' | I'].
        -- injection E' as <- <-. right. split; [exact Nk | left; reflexivity].
        -- destruct (F _ _ I') as [(-> & ss & Iss & ->) | (Nz & Iz)].
           ++ left. split; [reflexivity |]. exists ss.
              split; [right; exact Iss | reflexivity].
           ++ right. split; [exact Nz | right; exact Iz].
      * right. split; [| reflexivity].
        cbn [map fst]. intros [X | X]; [now apply Nk | now apply N].
Qed.

Lemma filter_snoc (f : Session.t -> bool) (l : list Session.t)
    (s : Session.t) :
  filter f (l ++ [s]) = filter f l ++ (if f s then [s] else []).
Proof. rewrite filter_app. reflexivity. Qed.

Lemma push_grouped (ws : list (Z * list Session.t))
    (processed : list Session.t) (s : Session.t) :
  grouped ws processed ->
  exists ws',
    push (map weekEntry ws) (Fin (inject_Z (weekOf s))) s = map weekEntry ws'
    /\ grouped ws' (processed ++ [s]).
Proof.
  intros (ND & En & Co).
  destruct (push_shape ws (weekOf s) s ND) as [ws' [E C]].
  exists ws'. split; [exact E |].
  destruct C as [(I & M & F) | (N & ->)].
  - split; [now rewrite M |]. split.
    + intros z' ss' H. rewrite filter_snoc. unfold inWeek at 2.
      destruct (F _ _ H) as [(-> & ss & Iss & ->) | (Nz & Iz)].
      * rewrite Z.eqb_refl. destruct (En _ _ Iss) as [_ Es].
        split; [| now rewrite <- Es].
        intro X. apply app_eq_nil in X. destruct X as [_ X]. discriminate X.
      * assert (B : Z.eqb (weekOf s) z' = false)
          by (apply Z.eqb_neq; congruence).
        rewrite B, app_nil_r. exact (En _ _ Iz).
    + intros s' H. rewrite M. apply in_app_or in H.
      destruct H as [H | [<- | []]]; [now apply Co | exact I].
  - split; [| split].
    + rewrite map_app. cbn [map fst].
      apply NoDup_app; [exact ND | repeat constructor; intros [] |].
      intros a Ha [<- | []]. now apply N.
    + intros z' ss' H. rewrite filter_snoc. unfold inWeek at 2.
      apply in_app_or in H. destruct H as [H | [H | []]].
      * assert (B : Z.eqb (weekOf s) z' = false).
        { apply Z.eqb_neq. intros <-. apply N.
          apply (in_map fst) in H. exact H. }
        rewrite B, app_nil_r. exact (En _ _ H).
      * injection H as <- <-. rewrite Z.eqb_refl.
        split; [discriminate |].
        rewrite filter_none; [reflexivity |].
        intros s' Hs'. unfold inWeek. apply Z.eqb_neq. intro X.
        apply N. rewrite <- X. now apply Co.
    + intros s' H. rewrite map_app. apply in_or_app.
      apply in_app_or in H. destruct H as [H | [<- | []]].
      * left. now apply Co.
      * right. left. reflexivity.
Qed.

Lemma fold_grouped (rest : list Session.t) :
  forall (ws : list (Z * list Session.t)) (processed : list Session.t),
  Forall (fun s => finite (Session.day s)) rest ->
  grouped ws processed ->
  exists ws',
    fold_left (fun weeks s => push weeks (weekNum s) s) rest
      (map weekEntry ws) = map weekEntry ws' /\
    grouped ws' (processed ++ rest).
Proof.
  induction rest as [| s rest IH]; intros ws processed Fi G.
  - exists ws. rewrite app_nil_r. split; [reflexivity | exact G].
  - inversion Fi as [| ? ? Fs Fr]; subst.
    cbn [fold_left]. rewrite (weekNum_int s Fs).
    destruct (push_grouped ws processed s G) as [ws1 [E1 G1]].
    rewrite E1.
    destruct (IH ws1 (processed ++ [s]) Fr G1) as [ws2 [E2 G2]].
    exists ws2. split; [exact E2 |].
    rewrite <- app_assoc in G2. exact G2.
Qed.

Lemma insert_shape (e : Z * list Session.t)
    (ws : list (Z * list Session.t)) :
  StronglySorted Z.lt (map fst ws) -> ~ In (fst e) (map fst ws) ->
  exists ws',
    insert (weekEntry e) (map weekEntry ws) = map weekEntry ws' /\
    Permutation (e :: ws) ws' /\
    StronglySorted Z.lt (map fst ws').
Proof.
  induction ws as [| h tl IH]; intros So Ni.
  - exists [e]. split; [reflexivity |]. split; [apply Permutation_refl |].
    repeat constructor.
  - cbn [map] in So. inversion So as [| ? ? Stl Fh]; subst.
    cbn [map insert].
    change (fst (weekEntry e)) with (Fin (inject_Z (fst e))).
    change (fst (weekEntry h)) with (Fin (inject_Z (fst h))).
    rewrite gt_int. destruct (Z.ltb_spec (fst h) (fst e)) as [L | G].
    + destruct (IH Stl) as [ws' [E [P S']]].
      { intro X. apply Ni. right. exact X. }
      exists (h :: ws'). split.
      { cbn [map]. rewrite E. reflexivity. }
      split.
      { eapply perm_trans; [apply perm_swap | apply perm_skip; exact P]. }
      cbn [map]. constructor; [exact S' |].
      apply Forall_forall. intros z Hz.
      apply (Permutation_in z (Permutation_sym (Permutation_map fst P)))
        in Hz.
      destruct Hz as [<- | Hz]; [exact L |].
      rewrite Forall_forall in Fh. now apply Fh.
    + assert (L : (fst e < fst h)%Z).
      { assert (fst e <> fst h) by (intro X; apply Ni; left; now symmetry).
        lia. }
      exists (e :: h :: tl). split; [reflexivity |].
      split; [apply Permutation_refl |].
      cbn [map]. constructor; [exact So |].
      constructor; [exact L |].
      apply Forall_forall. intros z Hz.
      rewrite Forall_forall in Fh. specialize (Fh z Hz). lia.
Qed.

Lemma sort_shape (ws : list (Z * list Session.t)) :
  NoDup (map fst ws) ->
  exists ws',
    sortEntries (map weekEntry ws) = map weekEntry ws' /\
    Permutation ws ws' /\
    StronglySorted Z.lt (map fst ws').
Proof.
  induction ws as [| e tl IH]; intro ND.
  - exists []. split; [reflexivity |]. split; [constructor | constructor].
  - cbn [map] in ND. inversion ND as [| ? ? Ne NDtl]; subst.
    destruct (IH NDtl) as [tl' [E [P S]]].
    destruct (insert_shape e tl' S) as [ws' [E' [P' S']]].
    { intro X. apply Ne.
      apply (Permutation_in _ (Permutation_sym (Permutation_map fst P))).
      exact X. }
    exists ws'. split.
    { unfold sortEntries in *. cbn [map fold_right]. rewrite E. exact E'. }
    split; [| exact S'].
    eapply perm_trans; [apply perm_skip; exact P | exact P'].
Qed.

Lemma no_NaN_key (ws : list (Z * list Session.t)) :
  existsb (fun e => isNaN (fst e)) (map weekEntry ws) = false.
Proof. induction ws as [| e tl IH]; [reflexivity | exact IH]. Qed.

Lemma week_of_day (s : Session.t) (d : Q) :
  Session.day s = Fin d ->
  (7 * (inject_Z (weekOf s) - 1) < d)%Q /\ (d <= 7 * inject_Z (weekOf s))%Q.
Proof.
  intro H. unfold weekOf. rewrite H. cbn [qval].
  pose proof (Qle_ceiling (d / 7)) as U.
  pose proof (Qceiling_lt (d / 7)) as L.
  unfold Z.sub in L. rewrite inject_Z_plus in L.
  change (inject_Z (Z.opp 1)) with (-1)%Q in L.
  split; lraq.
Qed.

(** X27. For a plan whose days are finite numbers, [groupedPlan] returns
    one entry for each week that has a session, the weeks in strictly
    ascending order whatever the order of the sessions; the entry of a
    week holds exactly the sessions of that week, in the order of the
    plan, and the week of a session on day d is the integer w with
    7 (w - 1) < d <= 7 w.  Without a plan the result is empty. *)
Theorem grouped_plan_weeks (plan : Plan.t) :
  Forall (fun s => finite (Session.day s)) (Plan.sessions plan) ->
  groupedPlan None = Some [] /\
  exists ws,
    groupedPlan (Some plan) = Some (map weekEntry ws) /\
    StronglySorted Z.lt (map fst ws) /\
    (forall z ss, In (z, ss) ws ->
       ss <> [] /\ ss = filter (inWeek z) (Plan.sessions plan)) /\
    (forall s, In s (Plan.sessions plan) ->
       exists ss, In (weekOf s, ss) ws /\ In s ss) /\
    (forall s d, In s (Plan.sessions plan) -> Session.day s = Fin d ->
       (7 * (inject_Z (weekOf s) - 1) < d)%Q /\
       (d <= 7 * inject_Z (weekOf s))%Q).
Proof.
  intro Fi. split; [reflexivity |].
  assert (G0 : grouped [] []).
  { split; [constructor |]. split; intros; contradiction. }
  destruct (fold_grouped (Plan.sessions plan) [] [] Fi G0)
    as [ws1 [E1 (ND & En & Co)]].
  cbn [app map] in E1, En, Co.
  destruct (sort_shape ws1 ND) as [ws [E [P S]]].
  exists ws. split.
  { unfold groupedPlan. cbv zeta. rewrite E1, no_NaN_key, E. reflexivity. }
  split; [exact S |]. split; [| split].
  - intros z ss H. apply En.
    apply (Permutation_in _ (Permutation_sym P)). exact H.
  - intros s Hs. pose proof (Co s Hs) as K.
    apply in_map_iff in K. destruct K as ([z ss] & Ez & Hin).
    cbn [fst] in Ez. subst z. exists ss.
    split; [apply (Permutation_in _ P); exact Hin |].
    destruct (En _ _ Hin) as [_ ->]. apply filter_In.
    split; [exact Hs |]. unfold inWeek. apply Z.eqb_refl.
  - intros s d _ Hd. now apply week_of_day.
Qed.

Lemma grouped_plan_weeks_witness :
  groupedPlan None = Some [] /\
  exists ws,
    groupedPlan (Some Plans.run10k) = Some (map weekEntry ws) /\
    StronglySorted Z.lt (map fst ws) /\
    (forall z ss, In (z, ss) ws ->
       ss <> [] /\ ss = filter (inWeek z) (Plan.sessions Plans.run10k)) /\
    (forall s, In s (Plan.sessions Plans.run10k) ->
       exists ss, In (weekOf s, ss) ws /\ In s ss) /\
    (forall s d, In s (Plan.sessions Plans.run10k) ->
       Session.day s = Fin d ->
       (7 * (inject_Z (weekOf s) - 1) < d)%Q /\
       (d <= 7 * inject_Z (weekOf s))%Q).
Proof.
  apply (grouped_plan_weeks Plans.run10k).
  cbn. repeat constructor.
Defined.

End WeekFacts.
(** * Facts about the double-precision embedding *)

Module F64Facts.
Import SpecFloat F64.
Local Open Scope f64_scope.

Lemma lit_0 : lit 0 = zero.
Proof. reflexivity. Qed.

Lemma lit_1 : lit 1 = Double.Grid.one.
Proof. reflexivity. Qed.

Lemma same_eq (x y : num) : same x y = true -> x = y.
Proof.
  destruct x as [s | s | | s m e], y as [s' | s' | | s' m' e'];
    simpl; try discriminate; try reflexivity.
  - intro H. apply Bool.eqb_prop in H. now subst.
  - intro H. apply Bool.eqb_prop in H. now subst.
  - intro H. apply andb_prop in H as [H He].
    apply andb_prop in H as [Hs Hm].
    apply Bool.eqb_prop in Hs. apply Pos.eqb_eq in Hm.
    apply Z.eqb_eq in He. now subst.
Qed.

(** The comparison of two numbers is the comparison of their keys. *)
Lemma compare_rank (x y : num) :
  isNaN x = false -> isNaN y = false ->
  SFcompare x y = Some (lexcmp (rank x) (rank y)).
Proof.
  destruct x as [s | s | | s m e], y as [s' | s' | | s' m' e'];
    try discriminate; intros _ _;
    try destruct s; try destruct s'; try reflexivity.
  cbn. rewrite Z.compare_opp, (Z.compare_antisym e e').
  destruct (Z.compare e e'); reflexivity.
Qed.

Lemma le_inv (x y : num) :
  le x y = true ->
  isNaN x = false /\ isNaN y = false /\ lexcmp (rank x) (rank y) <> Gt.
Proof.
  unfold le, SFleb. intro H.
  assert (Nx : isNaN x = false)
    by (destruct x; try reflexivity; discriminate H).
  assert (Ny : isNaN y = false)
    by (destruct x, y; try reflexivity; discriminate H).
  rewrite (compare_rank x y Nx Ny) in H.
  repeat split; auto. intro E. rewrite E in H. discriminate.
Qed.

Lemma le_intro (x y : num) :
  isNaN x = false -> isNaN y = false ->
  lexcmp (rank x) (rank y) <> Gt -> le x y = true.
Proof.
  intros Nx Ny H. unfold le, SFleb. rewrite (compare_rank x y Nx Ny).
  destruct (lexcmp (rank x) (rank y)); congruence.
Qed.

Lemma lt_inv (x y : num) :
  lt x y = true ->
  isNaN x = false /\ isNaN y = false /\ lexcmp (rank x) (rank y) = Lt.
Proof.
  unfold lt, SFltb. intro H.
  assert (Nx : isNaN x = false)
    by (destruct x; try reflexivity; discriminate H).
  assert (Ny : isNaN y = false)
    by (destruct x, y; try reflexivity; discriminate H).
  rewrite (compare_rank x y Nx Ny) in H.
  repeat split; auto.
  destruct (lexcmp (rank x) (rank y)); congruence.
Qed.

Lemma lt_intro (x y : num) :
  isNaN x = false -> isNaN y = false ->
  lexcmp (rank x) (rank y) = Lt -> lt x y = true.
Proof.
  intros Nx Ny H. unfold lt, SFltb. rewrite (compare_rank x y Nx Ny).
  now rewrite H.
Qed.

(** The lexicographic comparison, as arithmetic. *)
Lemma lexcmp_Lt (a b : Z * (Z * Z)) :
  lexcmp a b = Lt <->
  (fst a < fst b \/
   (fst a = fst b /\
    (fst (snd a) < fst (snd b) \/
     (fst (snd a) = fst (snd b) /\ snd (snd a) < snd (snd b)))))%Z.
Proof.
  unfold lexcmp.
  destruct (Z.compare_spec (fst a) (fst b));
    destruct (Z.compare_spec (fst (snd a)) (fst (snd b)));
    destruct (Z.compare_spec (snd (snd a)) (snd (snd b)));
    split; intro; try discriminate; try reflexivity; lia.
Qed.

Lemma lexcmp_Gt (a b : Z * (Z * Z)) :
  lexcmp a b = Gt <->
  (fst b < fst a \/
   (fst a = fst b /\
    (fst (snd b) < fst (snd a) \/
     (fst (snd a) = fst (snd b) /\ snd (snd b) < snd (snd a)))))%Z.
Proof.
  unfold lexcmp.
  destruct (Z.compare_spec (fst a) (fst b));
    destruct (Z.compare_spec (fst (snd a)) (fst (snd b)));
    destruct (Z.compare_spec (snd (snd a)) (snd (snd b)));
    split; intro; try discriminate; try reflexivity; lia.
Qed.

Lemma le_trans (x y z : num) :
  le x y = true -> le y z = true -> le x z = true.
Proof.
  intros H1 H2.
  apply le_inv in H1 as (Nx & Ny & H1). apply le_inv in H2 as (_ & Nz & H2).
  apply le_intro; auto. rewrite lexcmp_Gt in *. lia.
Qed.

Lemma lt_le_trans (x y z : num) :
  lt x y = true -> le y z = true -> lt x z = true.
Proof.
  intros H1 H2.
  apply lt_inv in H1 as (Nx & Ny & H1). apply le_inv in H2 as (_ & Nz & H2).
  apply lt_intro; auto. rewrite lexcmp_Gt in H2. rewrite lexcmp_Lt in *. lia.
Qed.

Lemma le_lt_trans (x y z : num) :
  le x y = true -> lt y z = true -> lt x z = true.
Proof.
  intros H1 H2.
  apply le_inv in H1 as (Nx & Ny & H1). apply lt_inv in H2 as (_ & Nz & H2).
  apply lt_intro; auto. rewrite lexcmp_Gt in H1. rewrite lexcmp_Lt in *. lia.
Qed.

Lemma le_not_lt (x y : num) : le x y = true -> lt y x = false.
Proof.
  intro H. destruct (lt y x) eqn:E; [| reflexivity].
  apply le_inv in H as (_ & _ & H). apply lt_inv in E as (_ & _ & E).
  rewrite lexcmp_Gt in H. rewrite lexcmp_Lt in E. lia.
Qed.

Lemma lt_not_le (x y : num) : lt x y = true -> le y x = false.
Proof.
  intro H. destruct (le y x) eqn:E; [| reflexivity].
  apply le_inv in E as (_ & _ & E). apply lt_inv in H as (_ & _ & H).
  rewrite lexcmp_Gt in E. rewrite lexcmp_Lt in H. lia.
Qed.

Lemma lt_irrefl (x : num) : lt x x = false.
Proof.
  destruct (lt x x) eqn:E; [| reflexivity].
  apply lt_inv in E as (_ & _ & E). rewrite lexcmp_Lt in E. lia.
Qed.

Lemma le_refl (x : num) : isNaN x = false -> le x x = true.
Proof.
  intro N. apply le_intro; auto. rewrite lexcmp_Gt. lia.
Qed.

Lemma lt_le (x y : num) : lt x y = true -> le x y = true.
Proof.
  intro H. apply lt_inv in H as (Nx & Ny & H).
  apply le_intro; auto. rewrite lexcmp_Lt in H. rewrite lexcmp_Gt. lia.
Qed.

Lemma not_lt_le (x y : num) :
  isNaN x = false -> isNaN y = false -> lt x y = false -> le y x = true.
Proof.
  intros Nx Ny H. apply le_intro; auto. intro G.
  assert (L : lt x y = true).
  { apply lt_intro; auto. rewrite lexcmp_Gt in G. rewrite lexcmp_Lt. lia. }
  congruence.
Qed.

Lemma lt_not_NaN (x y : num) :
  lt x y = true -> isNaN x = false /\ isNaN y = false.
Proof. intro H. apply lt_inv in H as (Nx & Ny & _). auto. Qed.

(** A number above a number above zero is not zero. *)
Lemma above_not_zero (c x : num) :
  lt zero c = true -> lt c x = true -> eq x zero = false.
Proof.
  intros H0 H. destruct (eq x zero) eqn:E; [| reflexivity].
  apply lt_inv in H0 as (_ & _ & H0). apply lt_inv in H as (_ & Nx & H).
  unfold eq, SFeqb in E.
  rewrite (compare_rank x zero Nx eq_refl) in E.
  destruct (lexcmp (rank x) (rank zero)) eqn:C; try discriminate E.
  assert (G : lexcmp (rank x) (rank zero) <> Gt) by congruence.
  assert (L : lexcmp (rank x) (rank zero) <> Lt) by congruence.
  rewrite lexcmp_Gt in G. rewrite lexcmp_Lt in L, H0, H. lia.
Qed.

End F64Facts.
(** * The zone loop over doubles *)

Module ZoneLoopD.
Import F64 Double Double.Types Double.Physiology Double.ZoneRule F64Facts.
Local Open Scope f64_scope.

Lemma counted_unfold (p1 p2 : TrackPoint) :
  counted p1 p2 =
  truthy_opt (hr p1) && truthy_opt (hr p2)
  && ((delta p1 p2 >? 0) && (delta p1 p2 <? 30)).
Proof.
  unfold counted, carries, truthy_opt, truthy, gt.
  change (lit 0) with zero.
  destruct (hr p1) as [h1 |], (hr p2) as [h2 |]; cbn [andb];
    rewrite ?negb_orb, ?andb_false_r, ?andb_assoc; reflexivity.
Qed.

Lemma findIndex_firstHolding (avg : num) (D : list HRZoneDistribution) :
  Physiology.findIndex (fun d => (avg >=? zmin d) && (avg <? zmax d + 1)) D
  = firstHolding avg (intervals D).
Proof.
  induction D as [| d tl IH]; [reflexivity |].
  cbn [Physiology.findIndex intervals map firstHolding].
  unfold holds at 1. cbn [fst snd]. unfold ge at 1.
  destruct ((zmin d <=? avg) && (avg <? zmax d + 1)); [reflexivity |].
  fold (intervals tl). rewrite IH.
  destruct (firstHolding avg (intervals tl)); reflexivity.
Qed.

Lemma firstHolding_lt (avg : num) (bands : list (num * num)) (j : nat) :
  firstHolding avg bands = Some j -> (j < List.length bands)%nat.
Proof.
  revert j. induction bands as [| b tl IH]; intros j H; [discriminate |].
  cbn [firstHolding] in H. destruct (holds avg b).
  - injection H as <-. simpl. lia.
  - destruct (firstHolding avg tl) as [k |]; [| discriminate].
    injection H as <-. specialize (IH k eq_refl). simpl. lia.
Qed.

Lemma intervals_length (D : list HRZoneDistribution) :
  List.length (intervals D) = List.length D.
Proof. apply length_map. Qed.

Lemma intervals_addSeconds (j : nat) (x : num)
    (D : list HRZoneDistribution) :
  intervals (addSeconds j x D) = intervals D.
Proof.
  revert j. induction D as [| d tl IH]; intro j; [now destruct j |].
  destruct j as [| j]; cbn [addSeconds intervals map]; [reflexivity |].
  fold (intervals (addSeconds j x tl)). fold (intervals tl).
  now rewrite IH.
Qed.

Lemma length_addSeconds (j : nat) (x : num) (D : list HRZoneDistribution) :
  List.length (addSeconds j x D) = List.length D.
Proof.
  revert j. induction D as [| d tl IH]; intro j; [now destruct j |].
  destruct j as [| j]; cbn [addSeconds List.length]; [reflexivity |].
  now rewrite IH.
Qed.

(** What [distribution[j].seconds += x] does to the seconds of every
    zone. *)
Lemma seconds_after_add (j k : nat) (x : num) (D : list HRZoneDistribution) :
  (k < List.length D)%nat ->
  secondsAt k (addSeconds j x D) =
  if Nat.eqb j k then secondsAt k D + x else secondsAt k D.
Proof.
  revert j k. induction D as [| d tl IH]; intros j k Hk;
    [simpl in Hk; lia |].
  destruct j as [| j], k as [| k]; try reflexivity.
  cbn [addSeconds Nat.eqb]. unfold secondsAt. cbn [nth_error].
  apply IH. simpl in Hk. lia.
Qed.

(** One turn of the loop of [getZoneDistribution]. *)
Lemma zoneBody_step (settings : UserSettings) (a : ZoneAcc)
    (p1 p2 : TrackPoint) :
  List.length (distribution a) = 5%nat ->
  let a' := zoneBody settings a p1 p2 in
  let bands := intervals (distribution a) in
  intervals (distribution a') = bands /\
  List.length (distribution a') = 5%nat /\
  totalValidSeconds a' =
    (if counted p1 p2 then totalValidSeconds a + delta p1 p2
     else totalValidSeconds a) /\
  forall k, (k < 5)%nat ->
    secondsAt k (distribution a') =
    if credited bands (maxHR settings) k p1 p2
    then secondsAt k (distribution a) + delta p1 p2
    else secondsAt k (distribution a).
Proof.
  intros Hlen a' bands. subst a'. unfold zoneBody, credited.
  rewrite counted_unfold.
  change ((val (hr p1) + val (hr p2)) / 2) with (average p1 p2).
  change ((time p2 - time p1) / 1000) with (delta p1 p2).
  destruct (truthy_opt (hr p1) && truthy_opt (hr p2)); cbn [andb];
    [| repeat split; auto].
  destruct ((delta p1 p2 >? 0) && (delta p1 p2 <? 30)); cbn [andb];
    [| repeat split; auto].
  rewrite findIndex_firstHolding. fold bands. unfold zoneOf.
  destruct (firstHolding (average p1 p2) bands) as [j |] eqn:Ej.
  - cbn [distribution totalValidSeconds].
    rewrite intervals_addSeconds, length_addSeconds.
    repeat split; auto.
    intros k Hk. apply seconds_after_add. lia.
  - unfold ge. destruct (maxHR settings <=? average p1 p2).
    + cbn [distribution totalValidSeconds].
      rewrite intervals_addSeconds, length_addSeconds, Hlen.
      repeat split; auto.
      intros k Hk. apply seconds_after_add. lia.
    + repeat split; auto.
Qed.

Lemma zone_pairLoop_d (settings : UserSettings) (rest : list TrackPoint) :
  forall (prev : TrackPoint) (a : ZoneAcc),
  List.length (distribution a) = 5%nat ->
  let a' := pairLoop (zoneBody settings) prev rest a in
  let bands := intervals (distribution a) in
  intervals (distribution a') = bands /\
  List.length (distribution a') = 5%nat /\
  totalValidSeconds a' = secondsFrom counted prev rest (totalValidSeconds a) /\
  forall k, (k < 5)%nat ->
    secondsAt k (distribution a') =
    secondsFrom (credited bands (maxHR settings) k) prev rest
      (secondsAt k (distribution a)).
Proof.
  induction rest as [| p tl IH]; intros prev a Hlen; cbn zeta.
  - repeat split; auto.
  - cbn [pairLoop secondsFrom].
    destruct (zoneBody_step settings a prev p Hlen) as (B1 & L1 & T1 & S1).
    destruct (IH p (zoneBody settings a prev p) L1) as (B2 & L2 & T2 & S2).
    rewrite B1 in B2, S2.
    split; [exact B2 |]. split; [exact L2 |]. split.
    + rewrite T2, T1. reflexivity.
    + intros k Hk. rewrite (S2 k Hk), (S1 k Hk). reflexivity.
Qed.

Lemma calculateZones_five (settings : UserSettings) :
  List.length (calculateZones settings) = 5%nat.
Proof. unfold calculateZones. destruct (method settings); reflexivity. Qed.

Lemma mapi_from_length {A B : Type} (f : A -> nat -> B) (l : list A) :
  forall i, List.length (Physiology.mapi_from f i l) = List.length l.
Proof.
  induction l as [| x tl IH]; intro i; [reflexivity |].
  cbn [Physiology.mapi_from List.length]. now rewrite IH.
Qed.

Lemma intervals_mapi (f : Zone -> nat -> HRZoneDistribution)
    (zs : list Zone) :
  (forall z i, zmin (f z i) = z_min z /\ zmax (f z i) = z_max z) ->
  forall i, intervals (Physiology.mapi_from f i zs) = bandsOf zs.
Proof.
  intro Hf. induction zs as [| z tl IH]; intro i; [reflexivity |].
  cbn [Physiology.mapi_from intervals bandsOf map].
  destruct (Hf z i) as [-> ->]. f_equal. apply IH.
Qed.

Lemma intervals_init (zs : list Zone) :
  intervals (initDistribution zs) = bandsOf zs.
Proof. apply intervals_mapi. intros z i. split; reflexivity. Qed.

Lemma seconds_mapi (f : Zone -> nat -> HRZoneDistribution)
    (zs : list Zone) :
  (forall z i, seconds (f z i) = zero) ->
  forall k i, (k < List.length zs)%nat ->
  secondsAt k (Physiology.mapi_from f i zs) = zero.
Proof.
  intro Hf. unfold secondsAt.
  induction zs as [| z tl IH]; intros k i Hk; [simpl in Hk; lia |].
  destruct k as [| k]; cbn [Physiology.mapi_from nth_error].
  - apply Hf.
  - apply IH. simpl in Hk. lia.
Qed.

Lemma seconds_init (zs : list Zone) (k : nat) :
  (k < List.length zs)%nat -> secondsAt k (initDistribution zs) = zero.
Proof. apply seconds_mapi. intros z i. reflexivity. Qed.

Lemma five_seconds (D : list HRZoneDistribution) :
  List.length D = 5%nat ->
  map seconds D = map (fun k => secondsAt k D) [0; 1; 2; 3; 4]%nat.
Proof.
  intro H.
  destruct D as [| d0 [| d1 [| d2 [| d3 [| d4 [| d5 tl]]]]]];
    try discriminate H.
  reflexivity.
Qed.

(** The state after the loop. *)
Lemma zoneLoop_rule (pts : list TrackPoint) (settings : UserSettings) :
  let a := zoneLoop pts settings in
  let bands := bandsOf (calculateZones settings) in
  intervals (distribution a) = bands /\
  List.length (distribution a) = 5%nat /\
  totalValidSeconds a = countedSeconds pts /\
  forall k, (k < 5)%nat ->
    secondsAt k (distribution a) = zoneSeconds bands (maxHR settings) k pts.
Proof.
  intros a bands. subst a. unfold zoneLoop, forPairs.
  assert (L0 : List.length (initDistribution (calculateZones settings))
               = 5%nat).
  { unfold initDistribution. rewrite mapi_from_length.
    apply calculateZones_five. }
  destruct pts as [| p0 tl].
  - cbn [distribution totalValidSeconds]. rewrite intervals_init.
    repeat split; auto.
    intros k Hk. apply seconds_init. rewrite calculateZones_five. exact Hk.
  - match goal with
    | |- context [pairLoop _ p0 tl ?s] => set (a0 := s)
    end.
    destruct (zone_pairLoop_d settings tl p0 a0 L0) as (B & L & T & S).
    change (intervals (distribution a0))
      with (intervals (initDistribution (calculateZones settings))) in B, S.
    rewrite intervals_init in B, S. fold bands in B, S.
    split; [exact B |]. split; [exact L |]. split; [exact T |].
    intros k Hk. rewrite (S k Hk).
    change (distribution a0)
      with (initDistribution (calculateZones settings)).
    rewrite seconds_init by (rewrite calculateZones_five; exact Hk).
    reflexivity.
Qed.

Lemma intervals_withPercentage (T : num) (D : list HRZoneDistribution) :
  intervals (map (withPercentage T) D) = intervals D.
Proof.
  unfold intervals. rewrite map_map. apply map_ext. now intros [].
Qed.

Lemma seconds_withPercentage (T : num) (D : list HRZoneDistribution) :
  map seconds (map (withPercentage T) D) = map seconds D.
Proof. rewrite map_map. apply map_ext. now intros []. Qed.

Lemma percentage_share (T : num) (D : list HRZoneDistribution) :
  map percentage (map (withPercentage T) D) =
  map (fun d => share T (seconds d)) (map (withPercentage T) D).
Proof. rewrite !map_map. apply map_ext. now intros []. Qed.

(** What [getZoneDistribution] returns: the zones of [calculateZones],
    for each of them the seconds of the rule, and the share of these in
    the counted seconds. *)
Lemma distribution_rule (run : RunData) (settings : UserSettings) :
  let dist := getZoneDistribution run settings in
  let bands := bandsOf (calculateZones settings) in
  intervals dist = bands /\
  map seconds dist =
    map (fun k => zoneSeconds bands (maxHR settings) k (points run))
        [0; 1; 2; 3; 4]%nat /\
  map percentage dist =
    map (fun d => share (countedSeconds (points run)) (seconds d)) dist.
Proof.
  intros dist bands. subst dist. unfold getZoneDistribution.
  destruct (zoneLoop_rule (points run) settings) as (B & L & T & S).
  cbv zeta in B, L, T, S. fold bands in B, S.
  split; [| split].
  - rewrite intervals_withPercentage. exact B.
  - rewrite seconds_withPercentage, (five_seconds _ L).
    cbn [map]. rewrite !S by lia. reflexivity.
  - rewrite percentage_share, T. reflexivity.
Qed.

End ZoneLoopD.
(** * Zone boundaries for whole heart rates *)

Module GridFacts.
Import F64 Double Double.Types Double.Physiology Double.ZoneRule Double.Grid
       F64Facts.
Local Open Scope f64_scope.

(** The zones of [calculateZones] are the bands of the chain of its six
    boundaries. *)
Lemma zones_chain (settings : UserSettings) :
  bandsOf (calculateZones settings) =
  bandsOfChain (chainOf (method settings) (maxHR settings)
                        (restingHR settings)).
Proof.
  unfold calculateZones, chainOf.
  destruct (method settings); reflexivity.
Qed.

Lemma chain_shares (c : list num) :
  forall i lower upper,
  nth_error (bandsOfChain c) i = Some lower ->
  nth_error (bandsOfChain c) (S i) = Some upper ->
  snd lower = fst upper.
Proof.
  induction c as [| a tl IH]; intros i lower upper Hl Hu;
    [destruct i; discriminate |].
  destruct tl as [| b tl']; [destruct i; discriminate |].
  destruct i as [| i].
  - cbn [bandsOfChain nth_error] in Hl. injection Hl as <-.
    change (bandsOfChain (a :: b :: tl'))
      with ((a, b) :: bandsOfChain (b :: tl')) in Hu.
    cbn [nth_error] in Hu.
    destruct tl' as [| c0 tl'']; [discriminate |].
    cbn [bandsOfChain nth_error] in Hu. injection Hu as <-. reflexivity.
  - change (bandsOfChain (a :: b :: tl'))
      with ((a, b) :: bandsOfChain (b :: tl')) in Hl, Hu.
    cbn [nth_error] in Hl, Hu. exact (IH i lower upper Hl Hu).
Qed.

Lemma upto_In (n : nat) (z : Z) : (0 <= z <= Z.of_nat n)%Z -> In z (upto n).
Proof.
  intro H. unfold upto. apply in_map_iff. exists (Z.to_nat z).
  split; [lia |]. apply in_seq. lia.
Qed.

Lemma grid_sound (k : HRZoneMethod) (n : nat) (m r : Z) :
  grid k n = true -> (0 <= r <= m)%Z -> (m <= Z.of_nat n)%Z ->
  chainOk k m r = true.
Proof.
  unfold grid. intros G Hr Hm.
  rewrite forallb_forall in G. specialize (G m (upto_In n m ltac:(lia))).
  rewrite forallb_forall in G. apply G.
  apply filter_In. split; [apply upto_In; lia |]. apply Z.leb_le. lia.
Qed.

Lemma line_sound (n : nat) (m r : Z) :
  line n = true -> (0 <= m <= Z.of_nat n)%Z -> chainOk MAX_HR m r = true.
Proof.
  unfold line. intros G Hm.
  rewrite forallb_forall in G. exact (G m (upto_In n m Hm)).
Qed.

(** The check of the settings, by evaluation. *)
Lemma karvonen_grid : grid KARVONEN 255 = true.
Proof. vm_cast_no_check (eq_refl true). Qed.

Lemma max_hr_line : line 1000 = true.
Proof. vm_cast_no_check (eq_refl true). Qed.

Lemma whole_settings_ok (k : HRZoneMethod) (m r : Z) :
  (0 <= r <= m)%Z -> (m <= 255)%Z -> chainOk k m r = true.
Proof.
  intros Hr Hm. destruct k.
  - apply (line_sound 1000); [exact max_hr_line | simpl; lia].
  - apply (grid_sound KARVONEN 255); [exact karvonen_grid | lia | simpl; lia].
Qed.

Lemma nearby_inv (k : HRZoneMethod) (m r : Z) (p : Q) (x : num) :
  nearby k m r p x = true ->
  exists b : Z,
    toZ x = Some b /\ (Qabs (inject_Z b - boundary k m r p) <= 1 # 2)%Q.
Proof.
  unfold nearby. destruct (toZ x) as [b |]; [| discriminate].
  intro H. exists b. split; [reflexivity |]. now apply Qle_bool_iff.
Qed.

End GridFacts.
(** * The claims about the zones, over doubles *)

Module BandFacts.
Import F64 Double Double.Types Double.Physiology Double.ZoneRule Double.Grid
       F64Facts ZoneLoopD GridFacts.
Local Open Scope f64_scope.

(** The first zone holding an average comes no later than any zone
    holding it. *)
Lemma firstHolding_least (avg : num) (bands : list (num * num)) :
  forall i z,
  nth_error bands i = Some z -> holds avg z = true ->
  exists j,
    firstHolding avg bands = Some j /\ (j <= i)%nat /\
    ((forall k z', (k < i)%nat -> nth_error bands k = Some z' ->
                   holds avg z' = false) -> j = i).
Proof.
  induction bands as [| b tl IH]; intros i z Hi Hz;
    [destruct i; discriminate |].
  cbn [firstHolding]. destruct i as [| i].
  - cbn [nth_error] in Hi. injection Hi as ->. rewrite Hz.
    exists O. repeat split; auto.
  - cbn [nth_error] in Hi.
    destruct (IH i z Hi Hz) as (j & Ej & Lj & Rj). rewrite Ej.
    destruct (holds avg b) eqn:Hb.
    + exists O. split; [reflexivity |]. split; [lia |].
      intro H. specialize (H O b (Nat.lt_0_succ i) eq_refl). congruence.
    + exists (S j). split; [reflexivity |]. split; [lia |].
      intro H. f_equal. apply Rj. intros k z' Hk Hz'.
      apply (H (S k) z'); [lia | exact Hz'].
Qed.

(** An average in the band shared by zones [i] and [i + 1]. *)
Lemma pairOk_band (bands : list (num * num)) (i : nat)
    (lower upper : num * num) (avg : num) :
  pairOk bands i = true ->
  nth_error bands i = Some lower ->
  nth_error bands (S i) = Some upper ->
  (snd lower <=? avg) = true -> (avg <? snd lower + 1) = true ->
  holds avg lower = true /\ holds avg upper = true /\
  exists j,
    firstHolding avg bands = Some j /\ (j <= i)%nat /\
    ((fst lower + 1 <=? snd lower) = true -> j = i).
Proof.
  unfold pairOk. intros H Hl Hu Ha Hb. rewrite Hl, Hu in H.
  apply andb_prop in H as [H H4]. apply andb_prop in H as [H H3].
  apply andb_prop in H as [H1 H2].
  assert (HL : holds avg lower = true).
  { unfold holds. rewrite (le_trans _ _ _ H1 Ha), Hb. reflexivity. }
  assert (HU : holds avg upper = true).
  { unfold holds. rewrite (le_trans _ _ _ H2 Ha).
    change (lit 1) with one in *.
    rewrite (lt_le_trans _ _ _ Hb H3). reflexivity. }
  split; [exact HL |]. split; [exact HU |].
  destruct (firstHolding_least avg bands i lower Hl HL) as (j & Ej & Lj & Rj).
  exists j. split; [exact Ej |]. split; [exact Lj |].
  intro W. apply Rj. intros k z' Hk Hz'.
  change (lit 1) with one in *. rewrite W in H4. cbn [negb orb] in H4.
  rewrite forallb_forall in H4.
  specialize (H4 k ltac:(apply in_seq; lia)). rewrite Hz' in H4.
  unfold holds. change (lit 1) with one.
  rewrite (le_not_lt _ _ (le_trans _ _ _ H4 Ha)).
  apply andb_false_r.
Qed.

Lemma secondsFrom_ext (f g : TrackPoint -> TrackPoint -> bool)
    (rest : list TrackPoint) :
  forall prev total,
  Forall (fun pq => f (fst pq) (snd pq) = g (fst pq) (snd pq))
         (pairsFrom prev rest) ->
  secondsFrom f prev rest total = secondsFrom g prev rest total.
Proof.
  induction rest as [| p tl IH]; intros prev total H; [reflexivity |].
  cbn [pairsFrom] in H. inversion H as [| ? ? H1 H2]; subst.
  cbn [secondsFrom fst snd] in *. rewrite H1. now apply IH.
Qed.

Lemma secondsOf_ext (f g : TrackPoint -> TrackPoint -> bool)
    (pts : list TrackPoint) :
  Forall (fun pq => f (fst pq) (snd pq) = g (fst pq) (snd pq))
         (consecutive pts) ->
  secondsOf f pts = secondsOf g pts.
Proof.
  destruct pts as [| p tl]; [reflexivity |]. apply secondsFrom_ext.
Qed.

Lemma secondsFrom_none (rest : list TrackPoint) :
  forall prev total, secondsFrom (fun _ _ => false) prev rest total = total.
Proof.
  induction rest as [| p tl IH]; intros prev total; [reflexivity |].
  cbn [secondsFrom]. apply IH.
Qed.

Lemma secondsOf_none (pts : list TrackPoint) :
  secondsOf (fun _ _ => false) pts = zero.
Proof. destruct pts; [reflexivity |]. apply secondsFrom_none. Qed.

(** A run all of whose counted pairs have [j] as the first zone holding
    their average: zone [j] has all the counted seconds. *)
Lemma credited_run (run : RunData) (settings : UserSettings) (j : nat) :
  Forall (fun pq =>
            counted (fst pq) (snd pq) = true ->
            firstHolding (average (fst pq) (snd pq))
                         (bandsOf (calculateZones settings)) = Some j)
         (consecutive (points run)) ->
  map seconds (getZoneDistribution run settings) =
  map (fun n => if Nat.eqb n j then countedSeconds (points run) else zero)
      [0; 1; 2; 3; 4]%nat.
Proof.
  intro H. destruct (distribution_rule run settings) as (_ & -> & _).
  apply map_ext_in. intros n _. unfold zoneSeconds, countedSeconds.
  destruct (Nat.eqb n j) eqn:E.
  - apply Nat.eqb_eq in E. subst n. apply secondsOf_ext.
    eapply Forall_impl; [| exact H]. intros [p q] Hpq. cbn [fst snd] in *.
    unfold credited. destruct (counted p q); [| reflexivity].
    unfold zoneOf. rewrite (Hpq eq_refl), Nat.eqb_refl. reflexivity.
  - rewrite <- secondsOf_none with (pts := points run).
    apply secondsOf_ext.
    eapply Forall_impl; [| exact H]. intros [p q] Hpq. cbn [fst snd] in *.
    unfold credited. destruct (counted p q); [| reflexivity].
    unfold zoneOf. rewrite (Hpq eq_refl), Nat.eqb_sym, E. reflexivity.
Qed.

(** The bands of whole settings pass the check of every adjacent pair. *)
Lemma whole_bands_ok (k : HRZoneMethod) (m r : Z) (i : nat) :
  (0 <= r <= m)%Z -> (m <= 255)%Z -> (i < 4)%nat ->
  pairOk (bandsOf (calculateZones (settingsOf k m r))) i = true.
Proof.
  intros Hr Hm Hi. pose proof (whole_settings_ok k m r Hr Hm) as H.
  rewrite zones_chain. cbn [settingsOf method maxHR restingHR].
  unfold chainOk in H.
  destruct (chainOf k (ofZ m) (ofZ r))
    as [| b1 [| b2 [| b3 [| b4 [| b5 [| top [| x tl]]]]]]];
    try discriminate H.
  apply andb_prop in H as [_ H]. unfold bandsOk in H.
  rewrite forallb_forall in H. apply H.
  destruct i as [| [| [| [| i]]]]; simpl; auto. lia.
Qed.

End BandFacts.

Module ZoneClassificationD.
Import F64 Double Double.Types Double.Physiology Double.ZoneRule ZoneLoopD.
Local Open Scope f64_scope.

(** C6. Zone classification, in double precision, for every run and all
    settings.  The distribution returned by [getZoneDistribution] has the
    five zones of [calculateZones]; the seconds of zone [k] are the sum,
    from left to right over the consecutive pairs of samples, of the time
    deltas of the pairs that are counted (both samples carry a heart rate,
    delta strictly between 0 and 30 seconds) and credited to zone [k]: the
    first zone whose interval [[min, max + 1)] holds the average heart
    rate of the pair, zone 5 when no interval holds it and it is at or
    above [maxHR], no zone otherwise.  The percentage of a zone is its
    share of the seconds of all counted pairs. *)
Theorem zone_classification_rule (run : RunData) (settings : UserSettings) :
  let dist := getZoneDistribution run settings in
  let bands := bandsOf (calculateZones settings) in
  map (fun d => (zmin d, zmax d)) dist = bands /\
  map seconds dist =
    map (fun k => zoneSeconds bands (maxHR settings) k (points run))
        [0; 1; 2; 3; 4]%nat /\
  map percentage dist =
    map (fun d => share (countedSeconds (points run)) (seconds d)) dist.
Proof. exact (distribution_rule run settings). Qed.

End ZoneClassificationD.

Module SharedBandD.
Import F64 Double Double.Types Double.Physiology Double.ZoneRule Double.Grid
       Double.Samples F64Facts ZoneLoopD GridFacts BandFacts.
Local Open Scope f64_scope.

(** With [maxHR] 100 and [restingHR] 95 (Karvonen) zones 3 and 4 are
    99-99 and 99-100: they share the boundary 99 and both intervals hold
    an average of 99, but so does the interval of zone 2 (98-99), and the
    pair is credited to zone 2, which is neither of them.  With a
    [restingHR] of 200 above a [maxHR] of 100 the zones run downwards,
    150-140, 140-130 and so on: zones 1 and 2 share the boundary 140, no
    interval holds an average of 140, and the pair is credited to zone 5,
    being above [maxHR]. *)
Lemma shared_band_credited_elsewhere :
  (let settings := settingsOf KARVONEN 100 95 in
   let bands := bandsOf (calculateZones settings) in
   nth_error bands 2 = Some (ofZ 99, ofZ 99) /\
   nth_error bands 3 = Some (ofZ 99, ofZ 100) /\
   average (beat 0 99) (beat 1000 99) = ofZ 99 /\
   holds (ofZ 99) (ofZ 99, ofZ 99) = true /\
   holds (ofZ 99) (ofZ 99, ofZ 100) = true /\
   map seconds
       (getZoneDistribution (runOf [beat 0 99; beat 1000 99]) settings)
   = [zero; ofZ 1; zero; zero; zero]) /\
  (let settings := settingsOf KARVONEN 100 200 in
   let bands := bandsOf (calculateZones settings) in
   nth_error bands 0 = Some (ofZ 150, ofZ 140) /\
   nth_error bands 1 = Some (ofZ 140, ofZ 130) /\
   average (beat 0 140) (beat 1000 140) = ofZ 140 /\
   firstHolding (ofZ 140) bands = None /\
   map seconds
       (getZoneDistribution (runOf [beat 0 140; beat 1000 140]) settings)
   = [zero; zero; zero; zero; ofZ 1]).
Proof. vm_compute. repeat split; reflexivity. Qed.

(** C10 (amended). Whole heart rates with [0 <= restingHR <= maxHR <= 255],
    either method, in double precision.  Adjacent zones [i] and [i + 1]
    share their boundary.  An average in the band from that boundary to
    one unit above it is held by the intervals of both zones; the first
    zone [j] of the list holding it is never after zone [i], and it is
    zone [i] when zone [i] is at least one unit wide.  This zone is the one
    credited: in a run whose counted pairs all have this average, zone [j]
    has the seconds of all counted pairs and the other zones none; and
    when zone [i] is at least one unit wide, a run whose counted pairs all
    lie in the band has all its counted seconds in zone [i]. *)
Theorem shared_band_first_holding (k : HRZoneMethod) (m r : Z) :
  (0 <= r <= m)%Z -> (m <= 255)%Z ->
  let settings := settingsOf k m r in
  let bands := bandsOf (calculateZones settings) in
  forall i lower upper,
  nth_error bands i = Some lower -> nth_error bands (S i) = Some upper ->
  snd lower = fst upper /\
  (forall avg,
     (snd lower <=? avg) = true -> (avg <? snd lower + 1) = true ->
     holds avg lower = true /\ holds avg upper = true /\
     exists j,
       firstHolding avg bands = Some j /\ (j <= i)%nat /\
       ((fst lower + 1 <=? snd lower) = true -> j = i) /\
       forall run,
         Forall (fun pq => counted (fst pq) (snd pq) = true ->
                           average (fst pq) (snd pq) = avg)
                (consecutive (points run)) ->
         map seconds (getZoneDistribution run settings) =
         map (fun n => if Nat.eqb n j then countedSeconds (points run)
                       else zero) [0; 1; 2; 3; 4]%nat) /\
  ((fst lower + 1 <=? snd lower) = true ->
   forall run,
     Forall (fun pq => counted (fst pq) (snd pq) = true ->
                       (snd lower <=? average (fst pq) (snd pq)) = true /\
                       (average (fst pq) (snd pq) <? snd lower + 1) = true)
            (consecutive (points run)) ->
     map seconds (getZoneDistribution run settings) =
     map (fun n => if Nat.eqb n i then countedSeconds (points run)
                   else zero) [0; 1; 2; 3; 4]%nat).
Proof.
  intros Hr Hm settings bands i lower upper Hl Hu.
  assert (Hi : (i < 4)%nat).
  { assert (L : (S i < List.length bands)%nat)
      by (apply nth_error_Some; congruence).
    unfold bands, bandsOf in L.
    rewrite length_map, calculateZones_five in L. lia. }
  pose proof (whole_bands_ok k m r i Hr Hm Hi) as Ok. fold settings bands in Ok.
  split; [| split].
  - unfold bands in Hl, Hu. rewrite zones_chain in Hl, Hu.
    exact (chain_shares _ i lower upper Hl Hu).
  - intros avg Ha Hb.
    destruct (pairOk_band bands i lower upper avg Ok Hl Hu Ha Hb)
      as (HL & HU & j & Ej & Lj & Wj).
    split; [exact HL |]. split; [exact HU |].
    exists j. split; [exact Ej |]. split; [exact Lj |]. split; [exact Wj |].
    intros run H. apply credited_run.
    eapply Forall_impl; [| exact H]. intros [p q] Hpq Hc. cbn [fst snd] in *.
    rewrite (Hpq Hc). exact Ej.
  - intros W run H. apply credited_run.
    eapply Forall_impl; [| exact H]. intros [p q] Hpq Hc. cbn [fst snd] in *.
    destruct (Hpq Hc) as [Ha Hb].
    destruct (pairOk_band bands i lower upper _ Ok Hl Hu Ha Hb)
      as (_ & _ & j & Ej & _ & Wj).
    rewrite <- (Wj W). exact Ej.
Qed.

Lemma shared_band_first_holding_witness :
  (0 <= 55 <= 190)%Z /\ (190 <= 255)%Z /\
  map seconds
      (getZoneDistribution (steadyAt 150 3) (settingsOf KARVONEN 190 55)) =
  map (fun n => if Nat.eqb n 1 then countedSeconds (points (steadyAt 150 3))
                else zero) [0; 1; 2; 3; 4]%nat.
Proof.
  assert (Hr : (0 <= 55 <= 190)%Z) by lia.
  assert (Hm : (190 <= 255)%Z) by lia.
  split; [exact Hr |]. split; [exact Hm |].
  refine (proj2 (proj2 (shared_band_first_holding KARVONEN 190 55 Hr Hm 1%nat
                   (ofZ 136, ofZ 150) (ofZ 150, ofZ 163) _ _)) _ _ _).
  - vm_compute. reflexivity.
  - vm_compute. reflexivity.
  - vm_compute. reflexivity.
  - repeat constructor; intros _; vm_compute; split; reflexivity.
Defined.

End SharedBandD.
Module ZoneBoundsD.
Import F64 Double Double.Types Double.Physiology Double.ZoneRule Double.Grid
       F64Facts GridFacts.
Local Open Scope f64_scope.

(** The lower bounds of the zones of whole settings: whole numbers, each
    at most 1/2 away from the boundary of the specification. *)
Lemma whole_bounds_nearby (k : HRZoneMethod) (m r : Z) :
  chainOk k m r = true ->
  Forall2 (fun z p =>
             exists b : Z,
               toZ (z_min z) = Some b /\
               (Qabs (inject_Z b - boundary k m r p) <= 1 # 2)%Q)
          (calculateZones (settingsOf k m r))
          [0.50; 0.60; 0.70; 0.80; 0.90]%Q.
Proof.
  intro H. unfold chainOk in H.
  destruct k; cbv beta iota zeta delta [chainOf] in H;
    apply andb_prop in H as [H _];
    apply andb_prop in H as [H H5]; apply andb_prop in H as [H H4];
    apply andb_prop in H as [H H3]; apply andb_prop in H as [H1 H2];
    unfold calculateZones; cbn [settingsOf method maxHR restingHR];
    repeat constructor; cbn [z_min].
  - exact (nearby_inv _ _ _ _ _ H1).
  - exact (nearby_inv _ _ _ _ _ H2).
  - exact (nearby_inv _ _ _ _ _ H3).
  - exact (nearby_inv _ _ _ _ _ H4).
  - exact (nearby_inv _ _ _ _ _ H5).
  - exact (nearby_inv _ _ _ _ _ H1).
  - exact (nearby_inv _ _ _ _ _ H2).
  - exact (nearby_inv _ _ _ _ _ H3).
  - exact (nearby_inv _ _ _ _ _ H4).
  - exact (nearby_inv _ _ _ _ _ H5).
Qed.

Lemma zones_share (settings : UserSettings) (i : nat) (lower upper : Zone) :
  nth_error (calculateZones settings) i = Some lower ->
  nth_error (calculateZones settings) (S i) = Some upper ->
  z_max lower = z_min upper.
Proof.
  intros Hl Hu.
  apply (chain_shares (chainOf (method settings) (maxHR settings)
                               (restingHR settings)) i
           (z_min lower, z_max lower) (z_min upper, z_max upper));
    rewrite <- zones_chain; unfold bandsOf; rewrite nth_error_map.
  - now rewrite Hl.
  - now rewrite Hu.
Qed.

Lemma top_is_maxHR (settings : UserSettings) (z : Zone) :
  nth_error (calculateZones settings) 4 = Some z ->
  z_max z = maxHR settings.
Proof.
  unfold calculateZones. destruct (method settings); cbn [nth_error];
    intro H; injection H as <-; reflexivity.
Qed.

End ZoneBoundsD.

Module KarvonenD.
Import F64 Double Double.Types Double.Physiology Double.ZoneRule Double.Grid
       F64Facts ZoneLoopD GridFacts ZoneBoundsD.
Local Open Scope f64_scope.



End KarvonenD.

Module MaxHrD.
Import F64 Double Double.Types Double.Physiology Double.ZoneRule Double.Grid
       F64Facts ZoneLoopD GridFacts ZoneBoundsD.
Local Open Scope f64_scope.

(** X13. MAX_HR zones, in double precision.  For all settings there are
    five zones, each ending where the next begins, and the top bound of
    zone 5 is [maxHR] itself.  For a whole [maxHR] from 0 to 1000 the
    lower bound of each zone is a whole number at most 1/2 away from
    [maxHR * p], p = 0.50, 0.60, 0.70, 0.80, 0.90.  With [maxHR] 175 the
    zones are 88-105, 105-122, 122-140, 140-158 and 158-175: the boundary
    122.5 of zones 2 and 3 has become 122, the product with 0.70 being
    just below its exact value. *)
Theorem max_hr_rounded_bounds :
  (forall settings,
     method settings = MAX_HR ->
     let zones := calculateZones settings in
     List.length zones = 5%nat /\
     (forall i lower upper,
        nth_error zones i = Some lower -> nth_error zones (S i) = Some upper ->
        z_max lower = z_min upper) /\
     (forall z, nth_error zones 4 = Some z -> z_max z = maxHR settings)) /\
  (forall m r : Z,
     (0 <= m <= 1000)%Z ->
     Forall2 (fun z p =>
                exists b : Z,
                  toZ (z_min z) = Some b /\
                  (Qabs (inject_Z b - inject_Z m * p) <= 1 # 2)%Q)
             (calculateZones (settingsOf MAX_HR m r))
             [0.50; 0.60; 0.70; 0.80; 0.90]%Q) /\
  (forall r : Z,
     bandsOf (calculateZones (settingsOf MAX_HR 175 r)) =
     [(ofZ 88, ofZ 105); (ofZ 105, ofZ 122); (ofZ 122, ofZ 140);
      (ofZ 140, ofZ 158); (ofZ 158, ofZ 175)]) /\
  (inject_Z 175 * 0.70 == 122.5)%Q.
Proof.
  split; [| split; [| split]].
  - intros settings _ zones. subst zones.
    split; [apply calculateZones_five |].
    split; [apply zones_share | apply top_is_maxHR].
  - intros m r Hm.
    apply (whole_bounds_nearby MAX_HR m r).
    apply (line_sound 1000); [exact max_hr_line | simpl; lia].
  - intro r. vm_compute. reflexivity.
  - vm_compute. reflexivity.
Qed.

Lemma max_hr_rounded_bounds_witness :
  (0 <= 175 <= 1000)%Z /\
  Forall2 (fun z p =>
             exists b : Z,
               toZ (z_min z) = Some b /\
               (Qabs (inject_Z b - inject_Z 175 * p) <= 1 # 2)%Q)
          (calculateZones (settingsOf MAX_HR 175 60))
          [0.50; 0.60; 0.70; 0.80; 0.90]%Q.
Proof.
  assert (H : (0 <= 175 <= 1000)%Z) by lia.
  split; [exact H |].
  exact (proj1 (proj2 max_hr_rounded_bounds) 175%Z 60%Z H).
Defined.

End MaxHrD.
(** * The parser over doubles *)

Module ParserLoopD.
Import F64 Double Double.Types Double.TcxParser Double.MovingRule F64Facts.
Local Open Scope f64_scope.

Lemma last_after_push (pts : list TrackPoint) (p : TrackPoint) :
  lastPoint (pts ++ [p]) = Some p.
Proof.
  unfold lastPoint. rewrite length_app. simpl.
  replace (List.length pts + 1 - 1)%nat with (List.length pts) by lia.
  rewrite nth_error_app2 by lia. now rewrite Nat.sub_diag.
Qed.

(** The distance of a kept point, read back with [|| 0]. *)
Lemma kept_distance (tp : RawTrackpoint) :
  or0 (distance (toPoint tp)) = metres tp.
Proof.
  unfold toPoint, metres, defined. cbn [distance].
  destruct (isNaN (r_distance tp)) eqn:N; [reflexivity |].
  unfold or0, orZero, truthy. rewrite N. cbn [orb].
  destruct (r_distance tp === zero); reflexivity.
Qed.

Lemma read_distance (tp : RawTrackpoint) : orZero (r_distance tp) = metres tp.
Proof.
  unfold metres, orZero, truthy.
  destruct (isNaN (r_distance tp)); [reflexivity |]. cbn [orb].
  destruct (r_distance tp === zero); reflexivity.
Qed.

(** The moving time after the [if (i > 0)] block. *)
Lemma moving_after_block (st : Acc) (prev tp : RawTrackpoint) :
  movingTime (withPrev st (toPoint prev) tp) =
  if moving prev tp then movingTime st + elapsed prev tp else movingTime st.
Proof.
  unfold withPrev, moving, speed.
  rewrite kept_distance, read_distance.
  change ((r_time tp - time (toPoint prev)) / 1000) with (elapsed prev tp).
  unfold gt. change (lit 0) with zero.
  destruct ((zero <? elapsed prev tp) && (elapsed prev tp <? 15));
    cbn [andb].
  - destruct (0.5 <? (metres tp - metres prev) / elapsed prev tp);
      destruct (lastAlt st) as [la |];
      repeat match goal with
             | |- context [if ?c then _ else _] => destruct c
             end; reflexivity.
  - destruct (lastAlt st) as [la |];
      repeat match goal with
             | |- context [if ?c then _ else _] => destruct c
             end; reflexivity.
Qed.

Lemma points_after_block (st : Acc) (prev : TrackPoint) (tp : RawTrackpoint) :
  points (withPrev st prev tp) = points st.
Proof.
  unfold withPrev.
  repeat match goal with
         | |- context [let '(_, _) := ?c in _] => destruct c
         end.
  reflexivity.
Qed.

(** One turn of the loop after the first. *)
Lemma turn_after_first (st : Acc) (prev tp : RawTrackpoint) (i : nat) :
  (0 < i)%nat ->
  lastPoint (points st) = Some (toPoint prev) ->
  exists st',
    onTrackpoint st tp i = Some st' /\
    points st' = points st ++ [toPoint tp] /\
    movingTime st' =
      if moving prev tp then movingTime st + elapsed prev tp
      else movingTime st.
Proof.
  intros Hi Hlast. unfold onTrackpoint.
  apply Nat.ltb_lt in Hi. rewrite Hi, Hlast.
  eexists. split; [reflexivity |]. cbn [points movingTime].
  rewrite points_after_block, moving_after_block. split; reflexivity.
Qed.

Lemma turns_after_first (rest : list RawTrackpoint) :
  forall (prev : RawTrackpoint) (st : Acc) (i : nat),
  (0 < i)%nat ->
  lastPoint (points st) = Some (toPoint prev) ->
  exists st',
    forEachFrom i rest st = Some st' /\
    points st' = points st ++ map toPoint rest /\
    movingTime st' = movingFrom prev rest (movingTime st).
Proof.
  induction rest as [| tp tl IH]; intros prev st i Hi Hlast.
  - exists st. simpl. rewrite app_nil_r. repeat split; auto.
  - destruct (turn_after_first st prev tp i Hi Hlast) as (st1 & E1 & P1 & M1).
    assert (L1 : lastPoint (points st1) = Some (toPoint tp))
      by (rewrite P1; apply last_after_push).
    destruct (IH tp st1 (S i) (Nat.lt_0_succ i) L1) as (st2 & E2 & P2 & M2).
    exists st2. cbn [forEachFrom]. rewrite E1.
    split; [exact E2 |]. split.
    + rewrite P2, P1, <- app_assoc. reflexivity.
    + rewrite M2, M1. reflexivity.
Qed.

(** The whole loop: it never throws, keeps one point for each element,
    and its moving time is that of the rule. *)
Lemma loop_moving_time (trackpoints : list RawTrackpoint) :
  exists st,
    forEachFrom 0 trackpoints init = Some st /\
    points st = map toPoint trackpoints /\
    movingTime st = movingSeconds trackpoints.
Proof.
  destruct trackpoints as [| tp0 tl].
  - exists init. repeat split.
  - cbn [forEachFrom]. unfold onTrackpoint at 1. cbn [Nat.ltb Nat.leb].
    match goal with
    | |- context [forEachFrom 1 tl ?s] => set (st0 := s)
    end.
    assert (P0 : points st0 = [toPoint tp0]) by reflexivity.
    assert (L0 : lastPoint (points st0) = Some (toPoint tp0))
      by (rewrite P0; reflexivity).
    destruct (turns_after_first tl tp0 st0 1 Nat.lt_0_1 L0)
      as (st & E & P & M).
    exists st. split; [exact E |]. split; [now rewrite P, P0 |].
    rewrite M. reflexivity.
Qed.

End ParserLoopD.

Module MovingTimeD.
Import F64 Double Double.Types Double.TcxParser Double.MovingRule
       Double.Samples F64Facts ParserLoopD.
Local Open Scope f64_scope.

(** C5 (amended). Moving time, in double precision, for every list of
    trackpoints.  [parseTCX] resolves, and the moving time of its summary
    is the sum, from left to right over the consecutive pairs of
    trackpoints, of the time deltas of the pairs that are more than 0 and
    less than 15 seconds apart and faster than 0.5 m/s.  Every other pair
    adds nothing: a pair whose delta is at most 0, or is 15 seconds or
    more, or is no number, is not moving, whatever its speed.  100 m in 14
    seconds count, 100 m in exactly 15 seconds do not; from 0.6 m to 1.1 m
    in one second the speed computed is above 0.5 and the second
    counts. *)
Theorem moving_time_rule (now1 now2 : num)
    (trackpoints : list RawTrackpoint) :
  (exists r,
     parseTCX now1 now2 trackpoints = Resolved r /\
     Summary.movingTime (summary r) = movingSeconds trackpoints) /\
  (forall a b,
     ((elapsed a b <=? zero) = true -> moving a b = false) /\
     ((15 <=? elapsed a b) = true -> moving a b = false) /\
     (isNaN (elapsed a b) = true -> moving a b = false) /\
     (moving a b = true ->
      (zero <? elapsed a b) = true /\ (elapsed a b <? 15) = true /\
      (0.5 <? speed a b) = true)) /\
  (exists r,
     parseTCX now1 now2 fourteenSeconds = Resolved r /\
     Summary.movingTime (summary r) = ofZ 14) /\
  (exists r,
     parseTCX now1 now2 fifteenSeconds = Resolved r /\
     Summary.movingTime (summary r) = zero) /\
  (exists r,
     parseTCX now1 now2 halfMetreTrack = Resolved r /\
     Summary.movingTime (summary r) = ofZ 1).
Proof.
  split; [| split; [| split; [| split]]].
  - unfold parseTCX.
    destruct (loop_moving_time trackpoints) as (st & -> & _ & M).
    eexists. split; [reflexivity |]. exact M.
  - intros a b. unfold moving. split; [| split; [| split]].
    + intro H. rewrite (le_not_lt _ _ H). reflexivity.
    + intro H. rewrite (le_not_lt _ _ H), andb_false_r. reflexivity.
    + intro H. destruct (elapsed a b); try discriminate H. reflexivity.
    + intro H. apply andb_prop in H as [H H3].
      apply andb_prop in H as [H1 H2]. auto.
  - eexists. split; [reflexivity |]. vm_compute. reflexivity.
  - eexists. split; [reflexivity |]. vm_compute. reflexivity.
  - eexists. split; [reflexivity |]. vm_compute. reflexivity.
Qed.

End MovingTimeD.

Module FastestPaceD.
Import F64 Double Double.Types Double.TcxParser Double.MovingRule
       Double.PaceRule Double.Samples F64Facts ParserLoopD.
Local Open Scope f64_scope.

(** The fastest pace after the [if (i > 0)] block. *)
Lemma pace_after_block (st : Acc) (prev tp : RawTrackpoint) :
  maxPace (withPrev st (toPoint prev) tp) =
  if qualifies prev tp then
    if (maxPace st === 0) || (pace prev tp <? maxPace st)
    then pace prev tp else maxPace st
  else maxPace st.
Proof.
  unfold withPrev, qualifies, pace.
  rewrite kept_distance, read_distance.
  change ((r_time tp - time (toPoint prev)) / 1000) with (elapsed prev tp).
  unfold gt. change (lit 0 <? elapsed prev tp) with (zero <? elapsed prev tp).
  destruct ((zero <? elapsed prev tp) && (elapsed prev tp <? 15));
    cbn [andb].
  - destruct ((120 <? elapsed prev tp / ((metres tp - metres prev) / 1000))
              && (elapsed prev tp / ((metres tp - metres prev) / 1000)
                  <? 1200));
      destruct (lastAlt st) as [la |];
      repeat match goal with
             | |- context [if ?c then _ else _] => destruct c
             end; reflexivity.
  - destruct (lastAlt st) as [la |];
      repeat match goal with
             | |- context [if ?c then _ else _] => destruct c
             end; reflexivity.
Qed.

Lemma qualifies_range (a b : RawTrackpoint) :
  qualifies a b = true ->
  (120 <? pace a b) = true /\ (pace a b <? 1200) = true.
Proof.
  unfold qualifies. intro H. apply andb_prop in H as [_ H].
  now apply andb_prop in H.
Qed.

Lemma pacesFrom_range (rest : list RawTrackpoint) :
  forall prev,
  Forall (fun p => (120 <? p) = true /\ (p <? 1200) = true)
         (pacesFrom prev rest).
Proof.
  induction rest as [| tp tl IH]; intro prev; [constructor |].
  cbn [pacesFrom]. apply Forall_app. split; [| apply IH].
  destruct (qualifies prev tp) eqn:Q; [| constructor].
  constructor; [now apply qualifies_range | constructor].
Qed.

(** One more qualifying pace. *)
Lemma fastest_with (l : list num) (m c : num) :
  fastest l m ->
  Forall (fun p => (120 <? p) = true /\ (p <? 1200) = true) l ->
  (120 <? c) = true ->
  fastest (l ++ [c]) (if (m === 0) || (c <? m) then c else m).
Proof.
  intros [[-> ->] | [Hin Hall]] Hr Hc.
  - change (zero === 0) with true. cbn [orb app]. right.
    split; [now left |]. constructor; [| constructor].
    apply le_refl. now destruct (lt_not_NaN _ _ Hc).
  - assert (Hm : (120 <? m) = true).
    { rewrite Forall_forall in Hr. now destruct (Hr m Hin). }
    assert (Z : (m === 0) = false).
    { change (lit 0) with zero. apply (above_not_zero 120 m); auto. }
    rewrite Z. cbn [orb].
    destruct (lt_not_NaN _ _ Hc) as [_ Nc].
    destruct (lt_not_NaN _ _ Hm) as [_ Nm].
    destruct (c <? m) eqn:L; right.
    + split; [apply in_or_app; right; now left |].
      apply Forall_app. split.
      * eapply Forall_impl; [| exact Hall]. intros p Hp. cbn beta in *.
        exact (le_trans _ _ _ (lt_le _ _ L) Hp).
      * constructor; [now apply le_refl | constructor].
    + split; [apply in_or_app; now left |].
      apply Forall_app. split; [exact Hall |].
      constructor; [now apply not_lt_le | constructor].
Qed.

Lemma turns_pace (rest : list RawTrackpoint) :
  forall (prev : RawTrackpoint) (st : Acc) (i : nat) (seen : list num),
  (0 < i)%nat ->
  lastPoint (points st) = Some (toPoint prev) ->
  Forall (fun p => (120 <? p) = true /\ (p <? 1200) = true) seen ->
  fastest seen (maxPace st) ->
  exists st',
    forEachFrom i rest st = Some st' /\
    fastest (seen ++ pacesFrom prev rest) (maxPace st').
Proof.
  induction rest as [| tp tl IH]; intros prev st i seen Hi Hlast Hr Hf.
  - exists st. cbn [forEachFrom pacesFrom]. rewrite app_nil_r. auto.
  - destruct (turn_after_first st prev tp i Hi Hlast) as (st1 & E1 & P1 & _).
    assert (M1 : maxPace st1 = maxPace (withPrev st (toPoint prev) tp)).
    { unfold onTrackpoint in E1. apply Nat.ltb_lt in Hi.
      rewrite Hi, Hlast in E1. injection E1 as <-. reflexivity. }
    assert (L1 : lastPoint (points st1) = Some (toPoint tp))
      by (rewrite P1; apply last_after_push).
    rewrite pace_after_block in M1.
    cbn [forEachFrom pacesFrom]. rewrite E1.
    destruct (qualifies prev tp) eqn:Q.
    + destruct (qualifies_range _ _ Q) as [Q1 Q2].
      destruct (IH tp st1 (S i) (seen ++ [pace prev tp])
                  (Nat.lt_0_succ i) L1) as (st2 & E2 & F2).
      * apply Forall_app. split; [exact Hr |]. constructor; [auto |].
        constructor.
      * rewrite M1. now apply fastest_with.
      * exists st2. split; [exact E2 |].
        rewrite <- app_assoc in F2. exact F2.
    + destruct (IH tp st1 (S i) seen (Nat.lt_0_succ i) L1 Hr) as (st2 & E2 & F2).
      * rewrite M1. exact Hf.
      * exists st2. split; [exact E2 |]. exact F2.
Qed.

(** X4. The fastest pace, in double precision, for every list of
    trackpoints.  The [maxPace] of the summary is the fastest of the paces
    of the qualifying pairs of consecutive trackpoints (more than 0 and
    less than 15 seconds apart, at a pace above 120 and below 1200 s/km):
    0 when no pair qualifies, otherwise the pace of a qualifying pair,
    above 120 and below 1200, that no qualifying pair is below.  2.5 m in
    3 seconds, from 1.9 m to 4.4 m, qualify: the pace computed is just
    below 1200. *)
Theorem fastest_pace_rule (now1 now2 : num)
    (trackpoints : list RawTrackpoint) :
  (exists r,
     parseTCX now1 now2 trackpoints = Resolved r /\
     fastest (paces trackpoints) (Summary.maxPace (summary r)) /\
     (paces trackpoints <> [] ->
      (120 <? Summary.maxPace (summary r)) = true /\
      (Summary.maxPace (summary r) <? 1200) = true)) /\
  qualifies (rawAt 0 1.9) (rawAt 3000 4.4) = true /\
  exists r,
    parseTCX now1 now2 [rawAt 0 1.9; rawAt 3000 4.4] = Resolved r /\
    Summary.maxPace (summary r) = pace (rawAt 0 1.9) (rawAt 3000 4.4) /\
    (Summary.maxPace (summary r) <? 1200) = true.
Proof.
  split.
  - assert (H : exists st,
      forEachFrom 0 trackpoints init = Some st /\
      fastest (paces trackpoints) (maxPace st)).
    { destruct trackpoints as [| tp0 tl].
      - exists init. split; [reflexivity |]. left. split; reflexivity.
      - cbn [forEachFrom]. unfold onTrackpoint at 1. cbn [Nat.ltb Nat.leb].
        match goal with
        | |- context [forEachFrom 1 tl ?s] => set (st0 := s)
        end.
        assert (L0 : lastPoint (points st0) = Some (toPoint tp0))
          by reflexivity.
        destruct (turns_pace tl tp0 st0 1 [] Nat.lt_0_1 L0)
          as (st & E & F).
        + constructor.
        + left. split; reflexivity.
        + exists st. split; [exact E | exact F]. }
    destruct H as (st & E & F). unfold parseTCX. rewrite E.
    eexists. split; [reflexivity |].
    cbn [summary finish Summary.maxPace]. split; [exact F |].
    intro Hne. destruct F as [[Hnil _] | [Hin _]]; [contradiction |].
    assert (R : Forall (fun p => (120 <? p) = true /\ (p <? 1200) = true)
                       (paces trackpoints)).
    { destruct trackpoints as [| tp0 tl]; [constructor |].
      apply pacesFrom_range. }
    rewrite Forall_forall in R. exact (R _ Hin).
  - split; [vm_compute; reflexivity |].
    eexists. split; [reflexivity |]. split; vm_compute; reflexivity.
Qed.

End FastestPaceD.
